(** * CMC-report: the resilient request pipeline of [crypto_report.py]

    A shallow embedding of class [CryptoReport]: the rate limiter
    [_rate_limit_check], the retry loop [_make_api_request], the two
    clients [get_token_data] and [get_top_performers], the writers
    [save_csv] and [save_report], and [generate_report] over a disk.

    Conventions of the embedding.
    - Python floats and ints are rationals ([Q]).  The float addition of
      the backoff delay (line 55) is rounded to binary64 by [round64]; the
      arithmetic of the clock and of the rate limiter is exact.
    - Parsed JSON is the inductive [json]; a Python [dict] is an association
      list in insertion order, looked up by its first binding.
    - The outside world is scripted: the wall clock, the time each clock
      operation takes ([lags]), the outcomes of successive [requests.get]
      calls ([wire]) and the successive draws of [random.uniform(0, 1)]
      ([dice]) are fields of the state; what the program does to the world
      (HTTP calls, sleeps, prints) is appended to [log].
    - A method is a function [State -> Res A * State]: it returns a value or
      raises a Python exception, and always leaves a state.
    - The exception hierarchy is that of requests 2.27 and later, where the
      error raised by [Response.json()] derives from [RequestException]. *)

From Stdlib Require Import ZArith QArith Qminmax Qround List String Ascii Bool.
From Stdlib Require Import Lia Lqa.
From Stdlib Require Import Permutation Sorted.
Import ListNotations.

Set Warnings "-register-all".

Local Open Scope string_scope.
Local Open Scope list_scope.
Local Open Scope Q_scope.

(** ** JSON values and the Python operations used on them *)

Inductive json : Type :=
| JNull
| JBool (b : bool)
| JNum (q : Q)
| JStr (s : string)
| JArr (l : list json)
| JObj (kv : list (string * json)).

(** Python exceptions that the code can meet. *)
Inductive exn : Type :=
| ConnectionError            (* requests.exceptions.ConnectionError *)
| Timeout                    (* requests.exceptions.Timeout *)
| HTTPError (status : Z)     (* raised by raise_for_status *)
| JSONDecodeError            (* requests.exceptions.JSONDecodeError *)
| ValueError (msg : string)
| KeyError (key : string)
| TypeError
| AttributeError
| ZeroDivisionError.

(** [isinstance(e, requests.exceptions.RequestException)] *)
Definition is_RequestException (e : exn) : bool :=
  match e with
  | ConnectionError | Timeout | HTTPError _ | JSONDecodeError => true
  | _ => false
  end.

(** [isinstance(e, KeyError)] *)
Definition is_KeyError (e : exn) : bool :=
  match e with KeyError _ => true | _ => false end.

Inductive Res (A : Type) : Type :=
| Ok (a : A)
| Exc (e : exn).
Arguments Ok {A} a.
Arguments Exc {A} e.

Definition rbind {A B} (r : Res A) (k : A -> Res B) : Res B :=
  match r with Ok a => k a | Exc e => Exc e end.

Fixpoint rmap {A B} (f : A -> Res B) (l : list A) : Res (list B) :=
  match l with
  | [] => Ok []
  | x :: l' => rbind (f x) (fun y => rbind (rmap f l') (fun ys => Ok (y :: ys)))
  end.

Fixpoint lookup (k : string) (kv : list (string * json)) : option json :=
  match kv with
  | [] => None
  | (k', v) :: kv' => if String.eqb k k' then Some v else lookup k kv'
  end.

(** [x[k]] with a string key. *)
Definition getitem (x : json) (k : string) : Res json :=
  match x with
  | JObj kv => match lookup k kv with
               | Some v => Ok v
               | None => Exc (KeyError k)
               end
  | _ => Exc TypeError
  end.

(** [x.get(k, default)] *)
Definition dict_get (x : json) (k : string) (default : json) : Res json :=
  match x with
  | JObj kv => match lookup k kv with
               | Some v => Ok v
               | None => Ok default
               end
  | _ => Exc AttributeError
  end.

(** [x.values()] *)
Definition dict_values (x : json) : Res (list json) :=
  match x with
  | JObj kv => Ok (map snd kv)
  | _ => Exc AttributeError
  end.

(** [needle in hay] for strings: substring search. *)
Fixpoint substring_of (needle hay : string) : bool :=
  if String.prefix needle hay then true
  else match hay with
       | EmptyString => false
       | String _ hay' => substring_of needle hay'
       end.

Definition is_str (s : string) (x : json) : bool :=
  match x with JStr s' => String.eqb s s' | _ => false end.

(** [needle in x] where [needle] is a string literal: substring of a string,
    element of a list, key of a dict; anything else is not a container. *)
Definition py_contains (needle : string) (x : json) : Res bool :=
  match x with
  | JStr s => Ok (substring_of needle s)
  | JArr l => Ok (existsb (is_str needle) l)
  | JObj kv => Ok (existsb (fun p => String.eqb needle (fst p)) kv)
  | _ => Exc TypeError
  end.

(** Python slices on lists, with an integer bound that may be negative. *)
Definition slice_upto {A} (stop : Z) (l : list A) : list A :=
  if (0 <=? stop)%Z then firstn (Z.to_nat stop) l
  else firstn (List.length l - Z.to_nat (- stop)) l.

Definition slice_from {A} (start : Z) (l : list A) : list A :=
  if (0 <=? start)%Z then skipn (Z.to_nat start) l
  else skipn (List.length l - Z.to_nat (- start)) l.

(** ** The world and the state of a [CryptoReport] instance *)

Record Response : Type := {
  status_code : Z;
  body : option json       (* [None]: the body is not JSON *)
}.

(** Network-level failures of [requests.get]. *)
Inductive NetFailure : Type :=
| ConnectionLost
| TimedOut.

Definition exn_of_failure (f : NetFailure) : exn :=
  match f with
  | ConnectionLost => ConnectionError
  | TimedOut => Timeout
  end.

(** What one call of [requests.get] does. *)
Inductive Outcome : Type :=
| Fails (f : NetFailure)
| Responds (r : Response).

(** The messages the code prints, by call site. *)
Inductive Printed : Type :=
| PApiError (error_msg : json)                          (* line 43 *)
| PRetry (attempt_no max_no : nat) (delay : Q)          (* line 56 *)
| PRequestFailed (e : exn)                              (* line 82 *)
| PInvalidFormat (e : exn)                              (* line 85 *)
| PTopError (e : exn).                                  (* line 141 *)

Inductive Event : Type :=
| EvGet (url : string) (params : list (string * json))  (* requests.get *)
| EvSleepRate (d : Q)                                   (* time.sleep, line 27 *)
| EvSleepBackoff (d : Q)                                (* time.sleep, line 57 *)
| EvPrint (p : Printed).

Record State : Type := {
  rate_limit : Z;             (* self.rate_limit *)
  last_request_time : Q;      (* self.last_request_time *)
  now : Q;                    (* the wall clock *)
  lags : list Q;              (* time taken by successive clock operations *)
  wire : list Outcome;        (* outcomes of successive requests.get calls *)
  dice : list Q;              (* successive draws of random.uniform(0, 1) *)
  log : list Event            (* what was done so far, oldest first *)
}.

Definition M (A : Type) : Type := State -> Res A * State.

Definition ret {A} (a : A) : M A := fun st => (Ok a, st).
Definition raise {A} (e : exn) : M A := fun st => (Exc e, st).
Definition bind {A B} (m : M A) (k : A -> M B) : M B :=
  fun st => match m st with
            | (Ok a, st') => k a st'
            | (Exc e, st') => (Exc e, st')
            end.
Definition lift {A} (r : Res A) : M A := fun st => (r, st).

(** [try: m except <class>: h], the handler sees the exception. *)
Definition try_except {A} (m : M A) (class : exn -> bool) (h : exn -> M A) : M A :=
  fun st => match m st with
            | (Ok a, st') => (Ok a, st')
            | (Exc e, st') => if class e then h e st' else (Exc e, st')
            end.

Declare Scope py_scope.
Delimit Scope py_scope with py.
Notation "x <- m ;; k" := (bind m (fun x => k))
  (at level 61, m at next level, right associativity) : py_scope.
Notation "m ;;; k" := (bind m (fun _ => k))
  (at level 61, right associativity) : py_scope.
Local Open Scope py_scope.

Definition emit (e : Event) : M unit :=
  fun st => (Ok tt, {| rate_limit := rate_limit st;
                       last_request_time := last_request_time st;
                       now := now st; lags := lags st; wire := wire st;
                       dice := dice st; log := log st ++ [e] |}).

Definition print (p : Printed) : M unit := emit (EvPrint p).

(** Every clock operation takes the next scripted lag. *)
Definition pass (extra : Q) : M unit :=
  fun st => (Ok tt, {| rate_limit := rate_limit st;
                       last_request_time := last_request_time st;
                       now := now st + hd 0 (lags st) + extra;
                       lags := tl (lags st); wire := wire st;
                       dice := dice st; log := log st |}).

(** [time.time()] *)
Definition time_time : M Q :=
  pass 0 ;;; (fun st => (Ok (now st), st)).

(** [time.sleep(d)]; a negative argument is a ValueError. *)
Definition time_sleep (site : Q -> Event) (d : Q) : M unit :=
  if Qlt_le_dec d 0 then raise (ValueError "sleep length must be non-negative")
  else emit (site d) ;;; pass d.

(** [random.uniform(0, 1)] *)
Definition random_uniform01 : M Q :=
  fun st => (Ok (hd 0 (dice st)),
             {| rate_limit := rate_limit st;
                last_request_time := last_request_time st;
                now := now st; lags := lags st; wire := wire st;
                dice := tl (dice st); log := log st |}).

(** [requests.get(url, headers=..., params=params)]; with nothing left on
    the wire the connection fails. *)
Definition requests_get (url : string) (params : list (string * json)) : M Response :=
  emit (EvGet url params) ;;;
  pass 0 ;;;
  (fun st => let st' := {| rate_limit := rate_limit st;
                           last_request_time := last_request_time st;
                           now := now st; lags := lags st; wire := tl (wire st);
                           dice := dice st; log := log st |} in
             match wire st with
             | [] => (Exc ConnectionError, st')
             | Fails f :: _ => (Exc (exn_of_failure f), st')
             | Responds r :: _ => (Ok r, st')
             end).

(** [response.json()] *)
Definition response_json (r : Response) : Res json :=
  match body r with
  | Some j => Ok j
  | None => Exc JSONDecodeError
  end.

(** [response.raise_for_status()] *)
Definition raise_for_status (r : Response) : Res unit :=
  if ((400 <=? status_code r) && (status_code r <? 600))%Z
  then Exc (HTTPError (status_code r))
  else Ok tt.

Definition set_last_request_time (t : Q) : M unit :=
  fun st => (Ok tt, {| rate_limit := rate_limit st;
                       last_request_time := t;
                       now := now st; lags := lags st; wire := wire st;
                       dice := dice st; log := log st |}).

(** [60 / self.rate_limit] *)
Definition interval : M Q :=
  fun st => if (rate_limit st =? 0)%Z then (Exc ZeroDivisionError, st)
            else (Ok (60 / inject_Z (rate_limit st)), st).

(** ** [CryptoReport._rate_limit_check] *)

Definition _rate_limit_check : M unit :=
  current_time <- time_time ;;
  last <- (fun st => (Ok (last_request_time st), st)) ;;
  i <- interval ;;
  (if Qlt_le_dec (current_time - last) i
   then i' <- interval ;; time_sleep EvSleepRate (i' - (current_time - last))
   else ret tt) ;;;
  t <- time_time ;;
  set_last_request_time t.

(** ** [CryptoReport._make_api_request] *)

Definition max_retries : nat := 5.
Definition base_delay : Z := 1.
Definition invalid_key_marker : string := "Invalid API key".

(** The body of the [try] block, lines 37 to 49. *)
Definition attempt_body (url : string) (params : list (string * json))
  : M (option Response) :=
  _rate_limit_check ;;;
  response <- requests_get url params ;;
  if (status_code response =? 401)%Z then
    j <- lift (response_json response) ;;
    status <- lift (dict_get j "status" (JObj [])) ;;
    error_msg <- lift (dict_get status "error_message" (JStr "Unauthorized")) ;;
    print (PApiError error_msg) ;;;
    invalid <- lift (py_contains invalid_key_marker error_msg) ;;
    if invalid
    then raise (ValueError "Invalid API key - please check your .env file")
    else ret None
  else
    lift (raise_for_status response) ;;;
    ret (Some response).

(** Binary64 rounding.  A Python float is an IEEE 754 binary64 number: a
    significand of 53 bits times a power of two.  The sum of two floats is
    the exact sum rounded to the nearest such number, a tie going to the
    even significand.  Overflow and subnormal numbers are not modelled: the
    sums of line 55 lie between 1 and 9. *)

(** [2^e] for an integer [e] of either sign. *)
Definition pow2 (e : Z) : Q :=
  if (0 <=? e)%Z then inject_Z (2 ^ e) else 1 / inject_Z (2 ^ (- e)).

(** The nearest integer, a tie going to the even one. *)
Definition round_half_even (q : Q) : Z :=
  let f := Qfloor q in
  match Qcompare (q - inject_Z f) (1 # 2) with
  | Lt => f
  | Gt => (f + 1)%Z
  | Eq => if Z.even f then f else (f + 1)%Z
  end.

(** The exponent [e] with [2^e <= x < 2^(e+1)], for a positive [x]. *)
Definition binade (x : Q) : Z :=
  if Qle_bool 1 x then Z.log2 (Qfloor x)
  else (- Z.log2_up (Qceiling (/ x)))%Z.

(** The nearest binary64 number to a positive [x]: a multiple of the unit
    in the last place of its binade. *)
Definition round64_pos (x : Q) : Q :=
  let ulp := pow2 (binade x - 52) in
  Qred (inject_Z (round_half_even (x / ulp)) * ulp).

Definition round64 (x : Q) : Q :=
  match Qcompare x 0 with
  | Eq => 0
  | Gt => round64_pos x
  | Lt => - round64_pos (- x)
  end.

(** [base_delay * (2 ** attempt) + random.uniform(0, 1)]: the int is
    converted to a float, exactly for the attempts that the loop reaches,
    and added to the float drawn. *)
Definition backoff_delay (attempt : nat) (jitter : Q) : Q :=
  round64 (inject_Z (base_delay * 2 ^ Z.of_nat attempt) + jitter).

(** The [for] loop from [attempt] on, with [todo] iterations left; falling
    off the end of the loop returns [None]. *)
Fixpoint retry_loop (url : string) (params : list (string * json))
  (attempt todo : nat) : M (option Response) :=
  match todo with
  | O => ret None
  | S todo' =>
      fun st =>
        match attempt_body url params st with
        | (Ok v, st') => (Ok v, st')
        | (Exc e, st') =>
            if is_RequestException e then
              if Nat.eqb attempt (max_retries - 1) then (Exc e, st')
              else
                (jitter <- random_uniform01 ;;
                 let delay := backoff_delay attempt jitter in
                 print (PRetry (attempt + 1) max_retries delay) ;;;
                 time_sleep EvSleepBackoff delay ;;;
                 retry_loop url params (S attempt) todo') st'
            else (Exc e, st')
        end
  end.

Definition _make_api_request (url : string) (params : list (string * json))
  : M (option Response) :=
  retry_loop url params 0 max_retries.

(** ** Sorting as [sorted(xs, key=..., reverse=...)] does it *)

(** Keys that Python can order against each other: numbers (a bool is an
    int) and strings.  Keys of any other kind have no order here. *)
Inductive sortkey : Type :=
| KNum (q : Q)
| KStr (s : string).

Definition as_sortkey (x : json) : option sortkey :=
  match x with
  | JNum q => Some (KNum q)
  | JBool b => Some (KNum (if b then 1 else 0))
  | JStr s => Some (KStr s)
  | _ => None
  end.

Definition same_kind (a b : sortkey) : bool :=
  match a, b with
  | KNum _, KNum _ => true
  | KStr _, KStr _ => true
  | _, _ => false
  end.

Definition Qltb (a b : Q) : bool := negb (Qle_bool b a).

(** [a < b] on keys of one kind. *)
Definition key_ltb (a b : sortkey) : bool :=
  match a, b with
  | KNum x, KNum y => Qltb x y
  | KStr x, KStr y => String.ltb x y
  | _, _ => false
  end.

(** A list of keys can be sorted when it needs no comparison (fewer than two
    keys) or when all keys are of one orderable kind; otherwise some
    comparison raises TypeError. *)
Definition orderable (keys : list json) : Res (list sortkey) :=
  match keys with
  | [] => Ok []
  | [k] => Ok [match as_sortkey k with Some s => s | None => KNum 0 end]
  | k :: _ =>
      match as_sortkey k with
      | None => Exc TypeError
      | Some s0 =>
          rmap (fun x => match as_sortkey x with
                         | Some s => if same_kind s0 s then Ok s else Exc TypeError
                         | None => Exc TypeError
                         end) keys
      end
  end.

Section StableSort.
Context {A : Type}.

(** [x] stood before every element of [l]: it stays before its equals. *)
Fixpoint insert_key (x : sortkey * A) (l : list (sortkey * A)) : list (sortkey * A) :=
  match l with
  | [] => [x]
  | y :: l' => if key_ltb (fst y) (fst x) then y :: insert_key x l' else x :: l
  end.

Definition stable_sort (l : list (sortkey * A)) : list (sortkey * A) :=
  fold_right insert_key [] l.

(** [sorted(xs, key=key, reverse=reverse)]: the key of every element is
    computed first, in order; a reversed sort reverses, sorts and reverses
    back, which keeps equals in their original order.  The sort is stable,
    and every stable sort returns the same list. *)
Definition py_sorted (key : A -> Res json) (reverse : bool) (xs : list A)
  : Res (list A) :=
  rbind (rmap key xs) (fun keys =>
  rbind (orderable keys) (fun ks =>
  let decorated := combine ks xs in
  Ok (map snd (if reverse then rev (stable_sort (rev decorated))
               else stable_sort decorated)))).
End StableSort.

(** ** [CryptoReport.get_token_data] *)

Definition base_url : string := "https://pro-api.coinmarketcap.com/v1/cryptocurrency".

(** [token['quote']['USD'][field]] *)
Definition usd_field (token : json) (field : string) : Res json :=
  rbind (getitem token "quote") (fun q =>
  rbind (getitem q "USD") (fun u =>
  getitem u field)).

(** [token['quote']['USD'].get(field, None)] *)
Definition usd_field_opt (token : json) (field : string) : Res json :=
  rbind (getitem token "quote") (fun q =>
  rbind (getitem q "USD") (fun u =>
  dict_get u field JNull)).

(** The dict built for one token at lines 70 to 79. *)
Definition quote_row (token : json) : Res json :=
  rbind (getitem token "symbol") (fun symbol =>
  rbind (getitem token "name") (fun name =>
  rbind (getitem token "cmc_rank") (fun rank =>
  rbind (usd_field token "price") (fun price =>
  rbind (usd_field token "percent_change_7d") (fun c7 =>
  rbind (usd_field token "percent_change_30d") (fun c30 =>
  rbind (usd_field token "percent_change_90d") (fun c90 =>
  rbind (usd_field_opt token "percent_change_1y") (fun c1y =>
  Ok (JObj [("symbol", symbol); ("name", name); ("rank", rank);
            ("price", price); ("7d_change", c7); ("30d_change", c30);
            ("90d_change", c90); ("1y_change", c1y)]))))))))).

(** [response.json()] where [response] may be [None]. *)
Definition json_of (response : option Response) : Res json :=
  match response with
  | Some r => response_json r
  | None => Exc AttributeError
  end.

(** Lines 69 to 79: from the parsed body to the list of dicts. *)
Definition quote_rows (j : json) : Res (list json) :=
  rbind (getitem j "data") (fun data =>
  rbind (dict_values data) (fun tokens =>
  rmap quote_row tokens)).

Definition quotes_url : string := (base_url ++ "/quotes/latest")%string.

Definition quotes_params (symbols : list string) : list (string * json) :=
  [("symbol", JStr (String.concat "," symbols)); ("convert", JStr "USD")].

Definition get_token_data (symbols : list string) : M (option (list json)) :=
  fun st =>
    match (response <- _make_api_request quotes_url (quotes_params symbols) ;;
           j <- lift (json_of response) ;;
           rows <- lift (quote_rows j) ;;
           ret (Some rows)) st with
    | (Ok v, st') => (Ok v, st')
    | (Exc e, st') =>
        if is_RequestException e then
          (print (PRequestFailed e) ;;; ret None) st'
        else if is_KeyError e then
          (print (PInvalidFormat e) ;;; ret None) st'
        else (Exc e, st')
    end.

(** ** [CryptoReport.get_top_performers] *)

Record Performers : Type := {
  best : list json;
  worst : list json
}.

(** The dict built for one token at lines 117 to 125 and 128 to 136. *)
Definition performer_row (token : json) : Res json :=
  rbind (getitem token "symbol") (fun symbol =>
  rbind (getitem token "name") (fun name =>
  rbind (getitem token "cmc_rank") (fun rank =>
  rbind (usd_field token "price") (fun price =>
  rbind (usd_field token "percent_change_7d") (fun c7 =>
  rbind (usd_field token "percent_change_30d") (fun c30 =>
  rbind (usd_field token "percent_change_90d") (fun c90 =>
  Ok (JObj [("symbol", symbol); ("name", name); ("rank", rank);
            ("price", price); ("7d_change", c7); ("30d_change", c30);
            ("90d_change", c90)])))))))).

Fixpoint chars (s : string) : list json :=
  match s with
  | EmptyString => []
  | String c s' => JStr (String c EmptyString) :: chars s'
  end.

(** [data[:100]] as the sequence that [sorted] walks. *)
Definition first_100 (data : json) : Res (list json) :=
  match data with
  | JArr l => Ok (slice_upto 100 l)
  | JStr s => Ok (slice_upto 100 (chars s))
  | _ => Exc TypeError
  end.

(** Lines 107 to 138: the two sorts and the two groups. *)
Definition group_performers (head : list json) (top : Z) : Res Performers :=
  rbind (py_sorted (fun x => getitem x "cmc_rank") false head) (fun top_100 =>
  rbind (py_sorted (fun x => usd_field x "percent_change_7d") true top_100)
        (fun sorted_by_performance =>
  rbind (rmap performer_row (slice_upto top sorted_by_performance)) (fun b =>
  rbind (rmap performer_row (slice_from (- top) sorted_by_performance)) (fun w =>
  Ok {| best := b; worst := w |})))).

(** Lines 104 to 138: from the parsed body to the two groups. *)
Definition rank_performers (j : json) (top : Z) : Res Performers :=
  rbind (getitem j "data") (fun data =>
  rbind (first_100 data) (fun head =>
  group_performers head top)).

Definition listings_url : string := (base_url ++ "/listings/latest")%string.

Definition listings_params (limit : Z) : list (string * json) :=
  [("start", JNum 1); ("limit", JNum (inject_Z limit));
   ("convert", JStr "USD"); ("sort", JStr "market_cap");
   ("sort_dir", JStr "desc")].

Definition get_top_performers (limit top : Z) : M (option Performers) :=
  try_except
    (response <- _make_api_request listings_url (listings_params limit) ;;
     match response with
     | None => ret None
     | Some r =>
         j <- lift (response_json r) ;;
         p <- lift (rank_performers j top) ;;
         ret (Some p)
     end)
    (fun _ => true)
    (fun e => print (PTopError e) ;;; ret None).

(** * Vocabulary of the statements *)

(** ** Assumptions on the world *)

(** The clock does not run backwards: no operation takes negative time. *)
Definition lags_ok (st : State) : Prop := Forall (fun d => 0 <= d) (lags st).

(** [random.uniform(0, 1)] draws from [0, 1). *)
Definition dice_ok (st : State) : Prop :=
  Forall (fun u => 0 <= u /\ u < 1) (dice st).

(** ** Outcomes of an attempt *)

(** The outcomes after which the [try] block raises a RequestException:
    a network-level failure, a 4xx or 5xx status other than 401, and a 401
    whose body is not JSON. *)
Definition retried (o : Outcome) : bool :=
  match o with
  | Fails _ => true
  | Responds r =>
      if (status_code r =? 401)%Z
      then match body r with None => true | Some _ => false end
      else (400 <=? status_code r)%Z && (status_code r <? 600)%Z
  end.

(** The exception raised then. *)
Definition retried_exn (o : Outcome) : exn :=
  match o with
  | Fails f => exn_of_failure f
  | Responds r =>
      if (status_code r =? 401)%Z then JSONDecodeError
      else HTTPError (status_code r)
  end.

(** Transient failures: a network-level failure, or a response with a 4xx
    or 5xx status other than 401. *)
Definition transient (o : Outcome) : bool :=
  match o with
  | Fails _ => true
  | Responds r =>
      negb (status_code r =? 401)%Z
      && (400 <=? status_code r)%Z && (status_code r <? 600)%Z
  end.

(** Transient failures in the wider reading of the specification: any
    status outside 2xx other than 401 counts. *)
Definition non_2xx_failure (o : Outcome) : bool :=
  match o with
  | Fails _ => true
  | Responds r =>
      negb (status_code r =? 401)%Z
      && negb ((200 <=? status_code r)%Z && (status_code r <? 300)%Z)
  end.

(** The error message that line 42 reads from a 401 response. *)
Definition error_message_of (r : Response) : Res json :=
  rbind (response_json r) (fun j =>
  rbind (dict_get j "status" (JObj [])) (fun status =>
  dict_get status "error_message" (JStr "Unauthorized"))).

(** A 401 response whose error message holds the invalid-key marker. *)
Definition invalid_key_401 (r : Response) : Prop :=
  status_code r = 401%Z /\
  exists m, error_message_of r = Ok m /\ py_contains invalid_key_marker m = Ok true.

(** A 401 response whose error message can be read and does not hold it. *)
Definition other_401 (r : Response) (m : json) : Prop :=
  status_code r = 401%Z /\
  error_message_of r = Ok m /\ py_contains invalid_key_marker m = Ok false.

(** ** Reading the log *)

(** Events that [_rate_limit_check] may add to the log. *)
Definition is_rate_sleep (e : Event) : bool :=
  match e with EvSleepRate _ => true | _ => false end.

(** The part of the log that the statements on retries are about: the HTTP
    calls and the backoff sleeps, in the order they happened. *)
Inductive Step : Type :=
| Call
| Backoff (d : Q).

Fixpoint skeleton (evs : list Event) : list Step :=
  match evs with
  | [] => []
  | EvGet _ _ :: evs' => Call :: skeleton evs'
  | EvSleepBackoff d :: evs' => Backoff d :: skeleton evs'
  | _ :: evs' => skeleton evs'
  end.

Definition is_call (s : Step) : bool :=
  match s with Call => true | Backoff _ => false end.

Definition is_backoff (s : Step) : bool :=
  match s with Call => false | Backoff _ => true end.

Definition http_calls (evs : list Event) : nat :=
  List.length (filter is_call (skeleton evs)).

Definition backoff_sleeps (evs : list Event) : nat :=
  List.length (filter is_backoff (skeleton evs)).

(** [n] failed attempts from attempt number [attempt] on, each followed by
    its backoff sleep, the jitters taken from [js] in order. *)
Fixpoint failed_attempts (attempt n : nat) (js : list Q) : list Step :=
  match n with
  | O => []
  | S n' => Call :: Backoff (backoff_delay attempt (hd 0 js))
              :: failed_attempts (S attempt) n' (tl js)
  end.

(** [frame st st' w ds evs]: from [st] to [st'] the budget is unchanged, the
    wire is left at [w], the dice at [ds], and [evs] was logged. *)
Definition frame (st st' : State) (w : list Outcome) (ds : list Q)
  (evs : list Event) : Prop :=
  rate_limit st' = rate_limit st /\ wire st' = w /\ dice st' = ds /\
  log st' = log st ++ evs.

(** ** Token records *)

(** The fields of a token record, as the provider sends them; the 1-year
    change is the optional one. *)
Record Fields : Type := {
  f_symbol : json;
  f_name : json;
  f_rank : json;
  f_price : json;
  f_c7 : json;
  f_c30 : json;
  f_c90 : json;
  f_c1y : option json
}.

(** [token] is a record holding the fields [f]. *)
Definition reads (token : json) (f : Fields) : Prop :=
  exists tkv qkv ukv,
    token = JObj tkv /\
    lookup "symbol" tkv = Some (f_symbol f) /\
    lookup "name" tkv = Some (f_name f) /\
    lookup "cmc_rank" tkv = Some (f_rank f) /\
    lookup "quote" tkv = Some (JObj qkv) /\
    lookup "USD" qkv = Some (JObj ukv) /\
    lookup "price" ukv = Some (f_price f) /\
    lookup "percent_change_7d" ukv = Some (f_c7 f) /\
    lookup "percent_change_30d" ukv = Some (f_c30 f) /\
    lookup "percent_change_90d" ukv = Some (f_c90 f) /\
    lookup "percent_change_1y" ukv = f_c1y f.

(** The normalized record expected from [get_token_data] for the fields
    [f]. *)
Definition quote_row_of (f : Fields) : json :=
  JObj [("symbol", f_symbol f); ("name", f_name f); ("rank", f_rank f);
        ("price", f_price f); ("7d_change", f_c7 f); ("30d_change", f_c30 f);
        ("90d_change", f_c90 f);
        ("1y_change", match f_c1y f with Some v => v | None => JNull end)].

(** The record expected in a group of [get_top_performers] for the fields
    [f]. *)
Definition performer_row_of (f : Fields) : json :=
  JObj [("symbol", f_symbol f); ("name", f_name f); ("rank", f_rank f);
        ("price", f_price f); ("7d_change", f_c7 f); ("30d_change", f_c30 f);
        ("90d_change", f_c90 f)].

(** A token record built from its fields. *)
Definition token_of (f : Fields) : json :=
  JObj [("symbol", f_symbol f); ("name", f_name f); ("cmc_rank", f_rank f);
        ("quote",
         JObj [("USD",
                JObj ([("price", f_price f);
                       ("percent_change_7d", f_c7 f);
                       ("percent_change_30d", f_c30 f);
                       ("percent_change_90d", f_c90 f)]
                      ++ match f_c1y f with
                         | Some v => [("percent_change_1y", v)]
                         | None => []
                         end))])].





(** ** Numeric keys *)

Definition num_of (x : json) : Q :=
  match x with JNum q => q | _ => 0 end.

(** The number a key function yields on [x]. *)
Definition num_key {A} (key : A -> Res json) (x : A) : Q :=
  match key x with Ok v => num_of v | Exc _ => 0 end.

Definition change_7d (f : Fields) : Q := num_of (f_c7 f).

(** Rank and 7-day change are numbers. *)
Definition numeric (f : Fields) : Prop :=
  (exists q, f_rank f = JNum q) /\ (exists q, f_c7 f = JNum q).

(** Distinct 7-day changes, as rationals. *)
Definition distinct_changes (fs : list Fields) : Prop :=
  NoDup (map (fun f => Qred (change_7d f)) fs).

(** The number in a decorated element, when its key is one. *)
Definition numkey {A} (p : sortkey * A) : Q :=
  match fst p with KNum q => q | KStr _ => 0 end.

Definition num_keyed {A} (p : sortkey * A) : Prop := exists q, fst p = KNum q.

Definition key_le {A} (a b : sortkey * A) : Prop := numkey a <= numkey b.

(** An element with its numeric key, as [sorted] pairs them. *)
Definition decorate {A} (kq : A -> Q) (x : A) : sortkey * A := (KNum (kq x), x).

(** ** Sample inputs *)

Definition quiet_state : State :=
  {| rate_limit := 30; last_request_time := 0; now := 1000;
     lags := [1 # 100; 0; 1 # 50]; wire := []; dice := []; log := [] |}.


Definition fresh_state (w : list Outcome) : State :=
  {| rate_limit := 30; last_request_time := 0; now := 1700000000;
     lags := []; wire := w; dice := [1 # 2; 1 # 4; 3 # 4; 0; 1 # 8];
     log := [] |}.

Definition unauthorized (msg : string) : Response :=
  {| status_code := 401;
     body := Some (JObj [("status", JObj [("error_message", JStr msg)])]) |}.

Definition ok_response (j : json) : Response :=
  {| status_code := 200; body := Some j |}.

Definition server_error : Outcome :=
  Responds {| status_code := 503; body := None |}.

Definition not_modified : Outcome :=
  Responds {| status_code := 304; body := None |}.

Definition invalid_key_state : State :=
  fresh_state [Responds (unauthorized "This API Key is invalid. Invalid API key.")].

Definition outage_state : State :=
  fresh_state [server_error; server_error; server_error; server_error;
               server_error].

Definition usd_quote (price c7 c30 c90 : Q) : list (string * json) :=
  [("price", JNum price); ("percent_change_7d", JNum c7);
   ("percent_change_30d", JNum c30); ("percent_change_90d", JNum c90)].

Definition token (symbol : string) (rank : Q) (usd : list (string * json)) : json :=
  JObj [("symbol", JStr symbol); ("name", JStr symbol);
        ("cmc_rank", JNum rank); ("quote", JObj [("USD", JObj usd)])].

Definition btc_fields : Fields :=
  {| f_symbol := JStr "BTC"; f_name := JStr "BTC"; f_rank := JNum 1;
     f_price := JNum 60000; f_c7 := JNum 3; f_c30 := JNum (-2);
     f_c90 := JNum 10; f_c1y := None |}.

Definition eth_fields : Fields :=
  {| f_symbol := JStr "ETH"; f_name := JStr "ETH"; f_rank := JNum 2;
     f_price := JNum 3000; f_c7 := JNum 1; f_c30 := JNum 4;
     f_c90 := JNum (-5); f_c1y := Some (JNum 40) |}.

Definition quotes_batch : list (string * json) :=
  [("BTC", token_of btc_fields); ("ETH", token_of eth_fields)].

(** The second record has no [price]. *)
Definition broken_batch : list (string * json) :=
  [("BTC", token "BTC" 1 (usd_quote 60000 3 (-2) 10));
   ("ETH", token "ETH" 2 [("percent_change_7d", JNum 1);
                          ("percent_change_30d", JNum 4);
                          ("percent_change_90d", JNum (-5))])].

Definition listed (symbol : string) (rank c7 : Q) : Fields :=
  {| f_symbol := JStr symbol; f_name := JStr symbol; f_rank := JNum rank;
     f_price := JNum 1; f_c7 := JNum c7; f_c30 := JNum 0; f_c90 := JNum 0;
     f_c1y := None |}.

Definition sample_listing : list Fields :=
  [listed "A" 1 3; listed "B" 2 5; listed "C" 3 (-1); listed "D" 4 4;
   listed "E" 5 0].

Definition listing_state (fs : list Fields) : State :=
  fresh_state
    [Responds (ok_response (JObj [("data", JArr (map token_of fs))]))].

Definition sample_groups : Performers :=
  {| best := map performer_row_of
               [listed "B" 2 5; listed "D" 4 4; listed "A" 1 3];
     worst := map performer_row_of
                [listed "A" 1 3; listed "E" 5 0; listed "C" 3 (-1)] |}.

(** Every request fails and every draw is the largest there is. *)
Definition full_jitter_state : State :=
  {| rate_limit := 30; last_request_time := 0; now := 1700000000;
     lags := [];
     wire := [server_error; server_error; server_error; server_error;
              server_error];
     dice := [1 - (1 # 2 ^ 53); 1 - (1 # 2 ^ 53); 1 - (1 # 2 ^ 53);
              1 - (1 # 2 ^ 53)];
     log := [] |}.

(** The answer is [broken_batch], whose second record has no [price]. *)
Definition broken_state : State :=
  fresh_state [Responds (ok_response (JObj [("data", JObj broken_batch)]))].

(** The answer is a JSON object without [data]. *)
Definition no_data_state : State :=
  fresh_state [Responds (ok_response (JObj []))].

(** ** Where the indicator stands *)

(** The string [marker] stands somewhere in the value: in a string, in an
    element of a list or in a value of a dict, at any depth. *)
Fixpoint mentions (marker : string) (j : json) : bool :=
  match j with
  | JStr s => substring_of marker s
  | JArr l => existsb (mentions marker) l
  | JObj kv => existsb (fun p => mentions marker (snd p)) kv
  | _ => false
  end.

Definition body_mentions (marker : string) (r : Response) : bool :=
  match body r with
  | Some j => mentions marker j
  | None => false
  end.

(** ** Backoff time *)

(** The time slept in backoff along a run. *)
Fixpoint total_backoff (steps : list Step) : Q :=
  match steps with
  | [] => 0
  | Call :: steps' => total_backoff steps'
  | Backoff d :: steps' => d + total_backoff steps'
  end.

(** ** Steps that only print *)

(** From [st] to [st'] nothing happened but the logging of [evs]. *)
Definition only_logged (st st' : State) (evs : list Event) : Prop :=
  rate_limit st' = rate_limit st /\
  last_request_time st' = last_request_time st /\
  now st' = now st /\ lags st' = lags st /\
  wire st' = wire st /\ dice st' = dice st /\
  log st' = log st ++ evs.

(** What lines 41 to 49 do with the response of [requests.get]. *)
Definition classify_response (response : Response) : M (option Response) :=
  if (status_code response =? 401)%Z then
    (j <- lift (response_json response) ;;
     status <- lift (dict_get j "status" (JObj [])) ;;
     error_msg <- lift (dict_get status "error_message" (JStr "Unauthorized")) ;;
     print (PApiError error_msg) ;;;
     invalid <- lift (py_contains invalid_key_marker error_msg) ;;
     if invalid
     then raise (ValueError "Invalid API key - please check your .env file")
     else ret None)%py
  else
    (lift (raise_for_status response) ;;;
     ret (Some response))%py.

(** ** Shape of the returned records *)

(** [list(x.keys())] for a dict [x]. *)
Definition keys_of (x : json) : list string :=
  match x with
  | JObj kv => map fst kv
  | _ => []
  end.

(** The columns that [save_csv] reads from a record. *)
Definition csv_columns : list string :=
  ["symbol"; "name"; "rank"; "price"; "7d_change"; "30d_change"; "90d_change"].

(** ** Ties in the ranking *)

(** [a] goes before [b] when its key is smaller, or when the keys are equal
    and [a] stood before [b]. *)
Definition lex_le {A} (before : sortkey * A -> sortkey * A -> Prop)
  (a b : sortkey * A) : Prop :=
  numkey a < numkey b \/ (numkey a == numkey b /\ before a b).

Definition rank_of (f : Fields) : Q := num_of (f_rank f).

(** The order of the ranked sequence: by 7-day change, the larger first,
    and among equal changes by rank, the smaller first. *)
Definition ranked_before (a b : Fields) : Prop :=
  change_7d b < change_7d a \/
  (change_7d b == change_7d a /\ rank_of a <= rank_of b).

(** Two records share their 7-day change; the one of smaller rank comes
    second in the payload. *)
Definition tied_listing : list Fields :=
  [listed "A" 3 5; listed "B" 1 5; listed "C" 2 7].

(** * The report files: [save_csv], [save_report] and [generate_report]

    The disk is a list of files by path.  A file written through
    [csv.writer] holds the rows given to [writerow], each a list of cells; a
    file written by [json.dump] holds the dumped value.  How the cells and
    the value are turned into text is not part of the model, and writing a
    cell is taken never to fail.  [open(path, 'w')] fails with an OSError on
    the paths listed in [locked] and empties the file otherwise. *)

Inductive Content : Type :=
| Rows (rows : list (list json))
| Doc (doc : json).

(** What can be raised here: a Python exception of the request code, or
    the OSError of [open]. *)
Inductive failure : Type :=
| Python (e : exn)
| OSError (path : string).

(** The messages printed by the two writers. *)
Inductive Notice : Type :=
| NCsvFailed (f : failure)       (* line 165 *)
| NReportFailed (f : failure).   (* line 176 *)

Record Sys : Type := {
  proc : State;                      (* the instance and its world *)
  output_dir : string;               (* self.output_dir *)
  files : list (string * Content);   (* the disk *)
  locked : list string;              (* paths that cannot be opened for writing *)
  calendar : Q -> string * string;   (* the clock as isoformat() and as %Y%m%d *)
  notices : list Notice              (* printed by the writers, oldest first *)
}.

Inductive Ran (A : Type) : Type :=
| Returned (a : A)
| Raised (f : failure).
Arguments Returned {A} a.
Arguments Raised {A} f.

Definition MS (A : Type) : Type := Sys -> Ran A * Sys.

Definition sret {A} (a : A) : MS A := fun s => (Returned a, s).
Definition sbind {A B} (m : MS A) (k : A -> MS B) : MS B :=
  fun s => match m s with
           | (Returned a, s') => k a s'
           | (Raised f, s') => (Raised f, s')
           end.

Declare Scope sys_scope.
Delimit Scope sys_scope with sys.
Notation "x <- m ;; k" := (sbind m (fun x => k))
  (at level 61, m at next level, right associativity) : sys_scope.
Notation "m ;;; k" := (sbind m (fun _ => k))
  (at level 61, right associativity) : sys_scope.

Definition with_proc (s : Sys) (st : State) : Sys :=
  {| proc := st; output_dir := output_dir s; files := files s;
     locked := locked s; calendar := calendar s; notices := notices s |}.

Definition with_files (s : Sys) (fs : list (string * Content)) : Sys :=
  {| proc := proc s; output_dir := output_dir s; files := fs;
     locked := locked s; calendar := calendar s; notices := notices s |}.

Definition notice (n : Notice) (s : Sys) : Sys :=
  {| proc := proc s; output_dir := output_dir s; files := files s;
     locked := locked s; calendar := calendar s;
     notices := notices s ++ [n] |}.

(** A method of the instance, run inside the report. *)
Definition run_proc {A} (m : M A) : MS A :=
  fun s => match m (proc s) with
           | (Ok a, st') => (Returned a, with_proc s st')
           | (Exc e, st') => (Raised (Python e), with_proc s st')
           end.

Definition slift {A} (r : Res A) : MS A :=
  fun s => match r with
           | Ok a => (Returned a, s)
           | Exc e => (Raised (Python e), s)
           end.

(** [datetime.now()], rendered both ways. *)
Definition datetime_now : MS (string * string) :=
  (t <- run_proc time_time ;;
   fun s => (Returned (calendar s t), s))%sys.

Fixpoint ends_with_slash (s : string) : bool :=
  match s with
  | EmptyString => false
  | String c EmptyString => Ascii.eqb c "/"
  | String _ s' => ends_with_slash s'
  end.

(** [os.path.join(dir, name)] on a POSIX system. *)
Definition path_join (dir name : string) : string :=
  match name with
  | String "/" _ => name
  | _ => match dir with
         | EmptyString => name
         | _ => if ends_with_slash dir then (dir ++ name)%string
                else (dir ++ "/" ++ name)%string
         end
  end.

Fixpoint read_file (path : string) (fs : list (string * Content))
  : option Content :=
  match fs with
  | [] => None
  | (p, c) :: fs' => if String.eqb path p then Some c else read_file path fs'
  end.

Fixpoint write_file (path : string) (c : Content) (fs : list (string * Content))
  : list (string * Content) :=
  match fs with
  | [] => [(path, c)]
  | (p, c0) :: fs' =>
      if String.eqb path p then (p, c) :: fs'
      else (p, c0) :: write_file path c fs'
  end.

(** [open(path, 'w')]: the file is created or emptied. *)
Definition open_w (path : string) : MS unit :=
  fun s => if existsb (String.eqb path) (locked s)
           then (Raised (OSError path), s)
           else (Returned tt, with_files s (write_file path (Rows []) (files s))).

(** [writer.writerow(cells)] on the file opened at [path]. *)
Definition writerow (path : string) (cells : list json) : MS unit :=
  fun s => let rows := match read_file path (files s) with
                       | Some (Rows rows) => rows
                       | _ => []
                       end in
           (Returned tt,
            with_files s (write_file path (Rows (rows ++ [cells])) (files s))).

(** [json.dump(data, f, indent=4)] on the file opened at [path]. *)
Definition json_dump (path : string) (data : json) : MS unit :=
  fun s => (Returned tt, with_files s (write_file path (Doc data) (files s))).

(** What a [for] loop walks: the elements of a list, the characters of a
    string, the keys of a dict. *)
Definition py_iter (x : json) : Res (list json) :=
  match x with
  | JArr l => Ok l
  | JStr s => Ok (chars s)
  | JObj kv => Ok (map (fun p => JStr (fst p)) kv)
  | _ => Exc TypeError
  end.

Definition as_number (x : json) : option Q :=
  match x with
  | JNum q => Some q
  | JBool b => Some (if b then 1 else 0)
  | _ => None
  end.

(** [a + b] *)
Definition py_add (a b : json) : Res json :=
  match a, b with
  | JArr x, JArr y => Ok (JArr (x ++ y))
  | JStr x, JStr y => Ok (JStr (x ++ y))
  | _, _ => match as_number a, as_number b with
            | Some x, Some y => Ok (JNum (x + y))
            | _, _ => Exc TypeError
            end
  end.

Fixpoint dict_set (k : string) (v : json) (kv : list (string * json))
  : list (string * json) :=
  match kv with
  | [] => [(k, v)]
  | (k', v') :: kv' =>
      if String.eqb k k' then (k', v) :: kv'
      else (k', v') :: dict_set k v kv'
  end.

(** [x[k] = v] with a string key, giving the dict after the assignment. *)
Definition setitem (x : json) (k : string) (v : json) : Res json :=
  match x with
  | JObj kv => Ok (JObj (dict_set k v kv))
  | _ => Exc TypeError
  end.

(** ** [CryptoReport.save_csv] *)

Definition csv_header : list json :=
  [JStr "Symbol"; JStr "Name"; JStr "Rank"; JStr "Price"; JStr "7d Change";
   JStr "30d Change"; JStr "90d Change"].

(** The list given to [writerow] at lines 154 to 162. *)
Definition csv_cells (token : json) : Res (list json) :=
  rmap (getitem token) csv_columns.

(** The loop of lines 153 to 162. *)
Fixpoint write_rows (path : string) (tokens : list json) : MS unit :=
  match tokens with
  | [] => sret tt
  | token :: tokens' =>
      (cells <- slift (csv_cells token) ;;
       writerow path cells ;;;
       write_rows path tokens')%sys
  end.

Definition save_csv (data : json) (filename : string) : MS bool :=
  fun s =>
    let report_path := path_join (output_dir s) filename in
    match (open_w report_path ;;;
           writerow report_path csv_header ;;;
           tokens <- slift (py_iter data) ;;
           write_rows report_path tokens ;;;
           sret true)%sys s with
    | (Returned b, s') => (Returned b, s')
    | (Raised f, s') => (Returned false, notice (NCsvFailed f) s')
    end.

(** ** [CryptoReport.save_report] *)

Definition save_report (data : json) (filename : string) : MS bool :=
  fun s =>
    let report_path := path_join (output_dir s) filename in
    match (open_w report_path ;;;
           json_dump report_path data ;;;
           sret true)%sys s with
    | (Returned b, s') => (Returned b, s')
    | (Raised f, s') => (Returned false, notice (NReportFailed f) s')
    end.

(** ** [CryptoReport.generate_report] *)

Definition top_tokens : list string := ["BTC"; "ETH"; "XRP"; "BNB"; "SOL"].
Definition meme_tokens : list string := ["DOGE"; "PEPE"; "WIF"; "SPX"; "PNUT"].
Definition solana_tokens : list string := ["RENDER"; "JTO"; "PYTH"; "RAY"; "W"].
Definition base_tokens : list string := ["VIRTUAL"; "AERO"; "BRETT"; "AIXBT"; "WELL"].

(** A list or [None], as a Python value. *)
Definition section_value (rows : option (list json)) : json :=
  match rows with
  | Some l => JArr l
  | None => JNull
  end.

(** The dict of line 138 or [None], as a Python value. *)
Definition performance_value (p : option Performers) : json :=
  match p with
  | Some p => JObj [("best", JArr (best p)); ("worst", JArr (worst p))]
  | None => JNull
  end.

Definition report_of (timestamp : string)
  (top meme solana base : option (list json)) (performance : option Performers)
  : json :=
  JObj [("timestamp", JStr timestamp);
        ("top_tokens", section_value top);
        ("meme_tokens", section_value meme);
        ("solana_tokens", section_value solana);
        ("base_tokens", section_value base);
        ("performance", performance_value performance)].

(** The dict literal of lines 188 to 195, its values computed in order. *)
Definition collect_report_data : MS json :=
  (stamp <- datetime_now ;;
   top <- run_proc (get_token_data top_tokens) ;;
   meme <- run_proc (get_token_data meme_tokens) ;;
   solana <- run_proc (get_token_data solana_tokens) ;;
   base <- run_proc (get_token_data base_tokens) ;;
   performance <- run_proc (get_top_performers 100 5) ;;
   sret (report_of (fst stamp) top meme solana base performance))%sys.

(** Lines 213 to 215 and 216 to 218: every record of the group gets its
    [type] and joins [performance_data].  In Python a record that is in both
    groups is one object and ends with the [type] of the second loop; the
    columns read by [save_csv] do not include [type]. *)
Definition tagged (report_data : json) (group : string) : Res (list json) :=
  rbind (getitem report_data "performance") (fun performance =>
  rbind (getitem performance group) (fun tokens =>
  rbind (py_iter tokens) (fun tokens =>
  rmap (fun token => setitem token "type" (JStr group)) tokens))).

(** The file names of lines 198, 203 and 210, from the day as [%Y%m%d]. *)
Definition json_name (day : string) : string :=
  ("crypto_report_" ++ day ++ ".json")%string.
Definition csv_name (day : string) : string :=
  ("crypto_report_" ++ day ++ ".csv")%string.
Definition perf_name (day : string) : string :=
  ("crypto_performance_" ++ day ++ ".csv")%string.

(** The dict of lines 223 to 227. *)
Definition report_names (json_filename csv_filename perf_filename : string)
  : json :=
  JObj [("json", JStr json_filename); ("csv", JStr csv_filename);
        ("performance_csv", JStr perf_filename)].

(** Lines 209 to 227: the performance CSV and the result. *)
Definition performance_report (report_data : json)
  (json_filename csv_filename : string) : MS (option json) :=
  (day <- datetime_now ;;
   let perf_filename := perf_name (snd day) in
   best_rows <- slift (tagged report_data "best") ;;
   worst_rows <- slift (tagged report_data "worst") ;;
   saved <- save_csv (JArr (best_rows ++ worst_rows)) perf_filename ;;
   if negb saved then sret None else
   sret (Some (report_names json_filename csv_filename perf_filename)))%sys.

(** [all_tokens], lines 204 and 205. *)
Definition all_tokens_of (report_data : json) : Res json :=
  rbind (getitem report_data "top_tokens") (fun top =>
  rbind (getitem report_data "meme_tokens") (fun meme =>
  rbind (py_add top meme) (fun top_meme =>
  rbind (getitem report_data "solana_tokens") (fun solana =>
  rbind (py_add top_meme solana) (fun top_meme_solana =>
  rbind (getitem report_data "base_tokens") (fun base =>
  py_add top_meme_solana base)))))).

(** Lines 202 to 207: the token CSV, then the rest. *)
Definition token_report (report_data : json) (json_filename : string)
  : MS (option json) :=
  (day <- datetime_now ;;
   let csv_filename := csv_name (snd day) in
   all_tokens <- slift (all_tokens_of report_data) ;;
   saved <- save_csv all_tokens csv_filename ;;
   if negb saved then sret None else
   performance_report report_data json_filename csv_filename)%sys.

Definition generate_report : MS (option json) :=
  (report_data <- collect_report_data ;;
   day <- datetime_now ;;
   let json_filename := json_name (snd day) in
   saved <- save_report report_data json_filename ;;
   if negb saved then sret None else
   token_report report_data json_filename)%sys.

(** ** Reading the disk *)

(** The rows that the loop of [save_csv] writes before it stops, and the
    exception that stops it, if any. *)
Fixpoint rows_until_failure (tokens : list json)
  : list (list json) * option exn :=
  match tokens with
  | [] => ([], None)
  | token :: tokens' =>
      match csv_cells token with
      | Ok cells => let (rows, stop) := rows_until_failure tokens' in
                    (cells :: rows, stop)
      | Exc e => ([], Some e)
      end
  end.

(** From [s] to [s'] only the files changed. *)
Definition same_but_files (s s' : Sys) : Prop :=
  proc s' = proc s /\ output_dir s' = output_dir s /\
  locked s' = locked s /\ calendar s' = calendar s /\
  notices s' = notices s.

(** From [s] to [s'] only the instance and its world changed. *)
Definition same_but_proc (s s' : Sys) : Prop :=
  output_dir s' = output_dir s /\ files s' = files s /\
  locked s' = locked s /\ calendar s' = calendar s /\
  notices s' = notices s.

(** The first seven values of a record, its cells in the CSV file. *)
Definition row_values (row : json) : list json :=
  match row with
  | JObj kv => map snd (firstn 7 kv)
  | _ => []
  end.

Definition is_locked (path : string) (s : Sys) : bool :=
  existsb (String.eqb path) (locked s).

(** What [os.path.join] puts before a relative name. *)
Definition join_prefix (dir : string) : string :=
  match dir with
  | EmptyString => EmptyString
  | _ => if ends_with_slash dir then dir else (dir ++ "/")%string
  end.

(** A record of a group after line 214 or 217 gave it its [type]. *)
Definition with_type (group : string) (row : json) : json :=
  match row with
  | JObj kv => JObj (dict_set "type" (JStr group) kv)
  | _ => row
  end.

(** The rows of a list returned by [get_token_data] have its eight keys. *)
Definition quote_keyed (rows : option (list json)) : Prop :=
  forall l, rows = Some l ->
            Forall (fun row => keys_of row = csv_columns ++ ["1y_change"]) l.

(** The rows of the groups returned by [get_top_performers] have its seven
    keys. *)
Definition performers_keyed (performance : option Performers) : Prop :=
  forall p, performance = Some p ->
            Forall (fun row => keys_of row = csv_columns) (best p) /\
            Forall (fun row => keys_of row = csv_columns) (worst p).

(** ** The report as a whole *)

Definition json_path (s : Sys) (day : string) : string :=
  path_join (output_dir s) (json_name day).
Definition csv_path (s : Sys) (day : string) : string :=
  path_join (output_dir s) (csv_name day).
Definition perf_path (s : Sys) (day : string) : string :=
  path_join (output_dir s) (perf_name day).

(** The four token lists in the order of line 204, when none is [None]. *)
Definition all_sections (top meme solana base : option (list json))
  : option (list json) :=
  match top, meme, solana, base with
  | Some a, Some b, Some c, Some d => Some (a ++ b ++ c ++ d)
  | _, _, _, _ => None
  end.

(** From [s] to [s'] the instance logged [evs]. *)
Definition logged (s s' : Sys) (evs : list Event) : Prop :=
  log (proc s') = log (proc s) ++ evs.

(** A desk with an empty report directory, everything writable, and the
    provider answering as scripted in [w]. *)
Definition desk (w : list Outcome) : Sys :=
  {| proc := fresh_state w; output_dir := "/home/u/Desktop/CMC report";
     files := []; locked := [];
     calendar := fun _ => ("2025-01-06T09:00:00", "20250106");
     notices := [] |}.

Definition quotes_response : Outcome :=
  Responds (ok_response (JObj [("data", JObj quotes_batch)])).

Definition listing_response : Outcome :=
  Responds (ok_response (JObj [("data", JArr (map token_of sample_listing))])).

(** The rows of [quotes_batch] as [get_token_data] returns them. *)
Definition quoted : list json := map quote_row_of [btc_fields; eth_fields].

(** Both groups of five out of the five records of [sample_listing]. *)
Definition listed_groups : Performers :=
  {| best := map performer_row_of
               [listed "B" 2 5; listed "D" 4 4; listed "A" 1 3;
                listed "E" 5 0; listed "C" 3 (-1)];
     worst := map performer_row_of
                [listed "B" 2 5; listed "D" 4 4; listed "A" 1 3;
                 listed "E" 5 0; listed "C" 3 (-1)] |}.

(** Every fetch is answered at once. *)
Definition good_wire : list Outcome :=
  [quotes_response; quotes_response; quotes_response; quotes_response;
   listing_response].

(** The second fetch meets five server errors. *)
Definition meme_outage_wire : list Outcome :=
  [quotes_response;
   server_error; server_error; server_error; server_error; server_error;
   quotes_response; quotes_response; listing_response].

(** The listing meets five server errors. *)
Definition listing_outage_wire : list Outcome :=
  [quotes_response; quotes_response; quotes_response; quotes_response;
   server_error; server_error; server_error; server_error; server_error].

(** A desk whose performance file of the day cannot be opened. *)
Definition read_only_desk : Sys :=
  {| proc := fresh_state good_wire; output_dir := "/home/u/Desktop/CMC report";
     files := [];
     locked := ["/home/u/Desktop/CMC report/crypto_performance_20250106.csv"];
     calendar := fun _ => ("2025-01-06T09:00:00", "20250106");
     notices := [] |}.

(** From [st] to [st'] only the clock moved. *)
Definition clock_moved (st st' : State) : Prop :=
  rate_limit st' = rate_limit st /\
  last_request_time st' = last_request_time st /\
  wire st' = wire st /\ dice st' = dice st /\ log st' = log st.

(** From [s] to [s'] the instance made at most [n] HTTP calls. *)
Definition calls_within (n : nat) (s s' : Sys) : Prop :=
  exists evs, logged s s' evs /\ (http_calls evs <= n)%nat.

(** Twenty-five failures in a row: server errors, lost connections and
    timeouts. *)
Definition outage_wire : list Outcome :=
  repeat server_error 10 ++ repeat (Fails ConnectionLost) 10
  ++ repeat (Fails TimedOut) 5.

(** * Properties *)

(** ** The rate limiter *)

Lemma hd_lags_nonneg (l : list Q) :
  Forall (fun d => 0 <= d) l -> 0 <= hd 0 l.
Proof.
  destruct 1; simpl; [apply Qle_refl | assumption].
Qed.

Lemma tl_lags_nonneg (l : list Q) :
  Forall (fun d => 0 <= d) l -> Forall (fun d => 0 <= d) (tl l).
Proof.
  destruct 1; simpl; [constructor | assumption].
Qed.

Ltac run_monad :=
  cbv beta iota zeta delta
    [bind ret raise lift emit print pass time_time time_sleep interval
     set_last_request_time random_uniform01 requests_get];
  simpl.

(** What a call leaves untouched, and what it may log: needs no assumption
    on the clock. *)
Lemma rate_limit_check_frame (st : State) :
  rate_limit st <> 0%Z ->
  exists st',
    _rate_limit_check st = (Ok tt, st') /\
    rate_limit st' = rate_limit st /\
    wire st' = wire st /\
    dice st' = dice st /\
    exists evs, log st' = log st ++ evs /\ forallb is_rate_sleep evs = true.
Proof.
  intros Hrl. apply Z.eqb_neq in Hrl.
  unfold _rate_limit_check. run_monad. rewrite Hrl.
  destruct (Qlt_le_dec _ _) as [Hlt | Hge]; simpl; rewrite ?Hrl.
  - destruct (Qlt_le_dec _ 0) as [Hneg | Hpos]; simpl.
    + exfalso. lra.
    + eexists; repeat split; try reflexivity.
      exists [EvSleepRate
                (60 / inject_Z (rate_limit st) -
                 (now st + hd 0 (lags st) + 0 - last_request_time st))].
      split; reflexivity.
  - eexists; repeat split; try reflexivity.
    exists []. rewrite app_nil_r. split; reflexivity.
Qed.

(** The timing of one call, on a clock that does not run backwards. *)
Lemma rate_limit_check_timing (st : State) :
  rate_limit st <> 0%Z ->
  lags_ok st ->
  exists st',
    _rate_limit_check st = (Ok tt, st') /\
    rate_limit st' = rate_limit st /\
    lags_ok st' /\
    last_request_time st' = now st' /\
    now st <= now st' /\
    last_request_time st + 60 / inject_Z (rate_limit st) <= last_request_time st'.
Proof.
  intros Hrl Hl. apply Z.eqb_neq in Hrl. unfold lags_ok in *.
  pose proof (hd_lags_nonneg _ Hl) as H0.
  pose proof (tl_lags_nonneg _ Hl) as Hl1.
  pose proof (hd_lags_nonneg _ Hl1) as H1.
  pose proof (tl_lags_nonneg _ Hl1) as Hl2.
  pose proof (hd_lags_nonneg _ Hl2) as H2.
  pose proof (tl_lags_nonneg _ Hl2) as Hl3.
  unfold _rate_limit_check. run_monad. rewrite Hrl.
  destruct (Qlt_le_dec _ _) as [Hlt | Hge]; simpl; rewrite ?Hrl.
  - destruct (Qlt_le_dec _ 0) as [Hneg | Hpos]; simpl.
    + exfalso. lra.
    + eexists; repeat split; try reflexivity; simpl; try assumption; lra.
  - eexists; repeat split; try reflexivity; simpl; try assumption; lra.
Qed.



(** ** The retry loop *)

Lemma skeleton_app (l1 l2 : list Event) :
  skeleton (l1 ++ l2) = skeleton l1 ++ skeleton l2.
Proof.
  induction l1 as [| e l1 IH]; simpl; [reflexivity |].
  destruct e; simpl; rewrite IH; reflexivity.
Qed.

Lemma skeleton_rate_sleeps (evs : list Event) :
  forallb is_rate_sleep evs = true -> skeleton evs = [].
Proof.
  induction evs as [| e evs IH]; simpl; [reflexivity |].
  destruct e; simpl; try discriminate. exact IH.
Qed.

(** ** Rounding *)

Lemma round_half_even_floor (q : Q) :
  (Qfloor q <= round_half_even q <= Qfloor q + 1)%Z.
Proof.
  unfold round_half_even.
  destruct (Qcompare (q - inject_Z (Qfloor q)) (1 # 2));
    [destruct (Z.even _) | |]; lia.
Qed.

Lemma round_half_even_lower (q : Q) (j : Z) :
  inject_Z j <= q -> (j <= round_half_even q)%Z.
Proof.
  intros H. apply Qfloor_resp_le in H. rewrite Qfloor_Z in H.
  pose proof (round_half_even_floor q). lia.
Qed.

Lemma round_half_even_upper (q : Q) (j : Z) :
  q <= inject_Z j -> (round_half_even q <= j)%Z.
Proof.
  intros H.
  assert (Hf : (Qfloor q <= j)%Z).
  { apply Qfloor_resp_le in H. rewrite Qfloor_Z in H. exact H. }
  unfold round_half_even.
  assert (Hup : 0 < q - inject_Z (Qfloor q) -> (Qfloor q + 1 <= j)%Z).
  { intros Hpos.
    assert (Hlt : inject_Z (Qfloor q) < inject_Z j) by lra.
    rewrite <- Zlt_Qlt in Hlt. lia. }
  destruct (Qcompare_spec (q - inject_Z (Qfloor q)) (1 # 2)) as [E | L | G].
  - destruct (Z.even (Qfloor q)); [exact Hf |]. apply Hup. rewrite E. reflexivity.
  - exact Hf.
  - apply Hup. lra.
Qed.

(** The rounded value is within a half of the number. *)
Lemma round_half_even_near (q : Q) :
  q - (1 # 2) <= inject_Z (round_half_even q) /\
  inject_Z (round_half_even q) <= q + (1 # 2).
Proof.
  pose proof (Qfloor_le q) as Hlo. pose proof (Qlt_floor q) as Hhi.
  rewrite inject_Z_plus in Hhi. change (inject_Z 1) with 1 in Hhi.
  unfold round_half_even.
  destruct (Qcompare_spec (q - inject_Z (Qfloor q)) (1 # 2)) as [E | L | G].
  - destruct (Z.even (Qfloor q)).
    + split; lra.
    + rewrite inject_Z_plus. change (inject_Z 1) with 1. split; lra.
  - split; lra.
  - rewrite inject_Z_plus. change (inject_Z 1) with 1. split; lra.
Qed.

Lemma pow2_pos (e : Z) : 0 < pow2 e.
Proof.
  unfold pow2. destruct (0 <=? e)%Z eqn:E.
  - change 0 with (inject_Z 0). rewrite <- Zlt_Qlt. apply Z.pow_pos_nonneg; lia.
  - assert (H : 0 < inject_Z (2 ^ (- e))).
    { change 0 with (inject_Z 0). rewrite <- Zlt_Qlt.
      apply Z.pow_pos_nonneg; lia. }
    apply Qlt_shift_div_l; [exact H | lra].
Qed.

(** Below one, a power of two is the inverse of an integer. *)
Lemma pow2_nonpos (e : Z) :
  (e <= 0)%Z -> pow2 e * inject_Z (2 ^ (- e)) == 1.
Proof.
  intros He. unfold pow2. destruct (0 <=? e)%Z eqn:E.
  - apply Z.leb_le in E. replace e with 0%Z by lia. reflexivity.
  - assert (H : 0 < inject_Z (2 ^ (- e))).
    { change 0 with (inject_Z 0). rewrite <- Zlt_Qlt.
      apply Z.pow_pos_nonneg; lia. }
    field. lra.
Qed.


Lemma round64_of_positive (x : Q) : 0 < x -> round64 x = round64_pos x.
Proof.
  intros H. unfold round64. apply Qgt_alt in H. rewrite H. reflexivity.
Qed.

Lemma round64_pos_nonneg (x : Q) : 0 <= x -> 0 <= round64_pos x.
Proof.
  intros H. unfold round64_pos. rewrite Qred_correct.
  pose proof (pow2_pos (binade x - 52)) as Hp.
  apply Qmult_le_0_compat; [| lra].
  change 0 with (inject_Z 0). rewrite <- Zle_Qle.
  apply round_half_even_lower. change (inject_Z 0) with 0.
  apply Qle_shift_div_l; [exact Hp | lra].
Qed.

Lemma binade_small (x : Q) :
  1 <= x -> x < inject_Z (2 ^ 53) -> (0 <= binade x <= 52)%Z.
Proof.
  intros H1 H2. unfold binade.
  apply Qle_bool_iff in H1 as Hb. rewrite Hb.
  assert (Hf : (1 <= Qfloor x)%Z).
  { apply Qfloor_resp_le in H1. exact H1. }
  split; [apply Z.log2_nonneg |].
  assert (Hlt : (Qfloor x < 2 ^ 53)%Z).
  { rewrite Zlt_Qlt. pose proof (Qfloor_le x). lra. }
  apply Z.log2_lt_pow2 in Hlt; lia.
Qed.

(** Rounding does not cross an integer, below [2^53]. *)
Lemma round64_between (x : Q) (k : Z) :
  1 <= x -> x < inject_Z (2 ^ 53) ->
  (inject_Z k <= x -> inject_Z k <= round64 x) /\
  (x <= inject_Z k -> round64 x <= inject_Z k).
Proof.
  intros H1 H2.
  rewrite round64_of_positive by lra. unfold round64_pos.
  destruct (binade_small x H1 H2) as [_ He].
  set (e := (binade x - 52)%Z) in *.
  assert (He0 : (e <= 0)%Z) by (unfold e; lia).
  pose proof (pow2_pos e) as Hp. pose proof (pow2_nonpos e He0) as Hd.
  set (ulp := pow2 e) in *. set (d := inject_Z (2 ^ (- e))) in *.
  assert (Hdpos : 0 < d).
  { unfold d. change 0 with (inject_Z 0). rewrite <- Zlt_Qlt.
    apply Z.pow_pos_nonneg; lia. }
  assert (Hm : x / ulp == x * d).
  { apply (Qmult_inj_r _ _ ulp); [lra |].
    setoid_replace (x * d * ulp) with (x * (ulp * d)) by ring.
    rewrite Hd. field. lra. }
  rewrite Qred_correct.
  assert (Hk : inject_Z k == inject_Z (k * 2 ^ (- e)) * ulp).
  { rewrite inject_Z_mult. fold d. rewrite <- Qmult_assoc, (Qmult_comm d), Hd.
    ring. }
  split; intros H.
  - rewrite Hk. apply Qmult_le_r; [exact Hp |]. rewrite <- Zle_Qle.
    apply round_half_even_lower. rewrite Hm, inject_Z_mult. fold d.
    apply Qmult_le_r; assumption.
  - rewrite Hk. apply Qmult_le_r; [exact Hp |]. rewrite <- Zle_Qle.
    apply round_half_even_upper. rewrite Hm, inject_Z_mult. fold d.
    apply Qmult_le_r; assumption.
Qed.

Lemma binade_unique (x : Q) (a : Z) :
  (0 <= a)%Z -> inject_Z (2 ^ a) <= x -> x < inject_Z (2 ^ (a + 1)) ->
  binade x = a.
Proof.
  intros Ha Hlo Hhi. unfold binade.
  assert (H1 : 1 <= x).
  { assert (H : (1 <= 2 ^ a)%Z) by (apply Z.lt_pred_le, Z.pow_pos_nonneg; lia).
    rewrite Zle_Qle in H. change (inject_Z 1) with 1 in H. lra. }
  apply Qle_bool_iff in H1 as Hb. rewrite Hb.
  apply Z.log2_unique; [exact Ha |]. split.
  - apply Qfloor_resp_le in Hlo. rewrite Qfloor_Z in Hlo. exact Hlo.
  - rewrite Zlt_Qlt. pose proof (Qfloor_le x). unfold Z.succ. lra.
Qed.

(** The rounded value is within half a unit in the last place. *)
Lemma round64_near (x : Q) (a : Z) :
  (0 <= a <= 51)%Z -> inject_Z (2 ^ a) <= x -> x < inject_Z (2 ^ (a + 1)) ->
  x - pow2 (a - 53) <= round64 x /\ round64 x <= x + pow2 (a - 53).
Proof.
  intros Ha Hlo Hhi.
  assert (Hx : 0 < x).
  { assert (H : (0 < 2 ^ a)%Z) by (apply Z.pow_pos_nonneg; lia).
    rewrite Zlt_Qlt in H. change (inject_Z 0) with 0 in H. lra. }
  rewrite round64_of_positive by exact Hx. unfold round64_pos.
  rewrite (binade_unique x a) by (lia || assumption).
  rewrite Qred_correct.
  pose proof (pow2_pos (a - 52)) as Hp.
  assert (Hhalf : pow2 (a - 53) == pow2 (a - 52) * (1 # 2)).
  { pose proof (pow2_nonpos (a - 52) ltac:(lia)) as H1.
    pose proof (pow2_nonpos (a - 53) ltac:(lia)) as H2.
    replace (- (a - 53))%Z with (Z.succ (- (a - 52))) in H2 by lia.
    rewrite Z.pow_succ_r, inject_Z_mult in H2 by lia.
    change (inject_Z 2) with 2 in H2.
    set (d := inject_Z (2 ^ (- (a - 52)))) in *.
    assert (Hd : 0 < d).
    { unfold d. change 0 with (inject_Z 0). rewrite <- Zlt_Qlt.
      apply Z.pow_pos_nonneg; lia. }
    apply (Qmult_inj_r _ _ (2 * d)); [lra |].
    rewrite H2. rewrite <- H1 at 1. ring. }
  set (ulp := pow2 (a - 52)) in *.
  destruct (round_half_even_near (x / ulp)) as [Hn1 Hn2].
  assert (Hx' : x == (x / ulp) * ulp) by (field; lra).
  rewrite Hhalf. set (m := x / ulp) in *. set (r := inject_Z (round_half_even m)) in *.
  split.
  - rewrite Hx' at 1.
    setoid_replace (m * ulp - ulp * (1 # 2)) with ((m - (1 # 2)) * ulp) by ring.
    apply Qmult_le_r; assumption.
  - rewrite Hx' at 1.
    setoid_replace (m * ulp + ulp * (1 # 2)) with ((m + (1 # 2)) * ulp) by ring.
    apply Qmult_le_r; assumption.
Qed.

Lemma backoff_sum_range (attempt : nat) (u : Q) :
  (attempt <= 51)%nat -> 0 <= u -> u < 1 ->
  inject_Z (2 ^ Z.of_nat attempt)
    <= inject_Z (base_delay * 2 ^ Z.of_nat attempt) + u /\
  inject_Z (base_delay * 2 ^ Z.of_nat attempt) + u
    < inject_Z (2 ^ (Z.of_nat attempt + 1)) /\
  inject_Z (2 ^ (Z.of_nat attempt + 1)) <= inject_Z (2 ^ 53) /\
  1 <= inject_Z (2 ^ Z.of_nat attempt).
Proof.
  intros Ha H0 H1. unfold base_delay. rewrite Z.mul_1_l.
  assert (Hone : (1 <= 2 ^ Z.of_nat attempt)%Z)
    by (apply Z.lt_pred_le, Z.pow_pos_nonneg; lia).
  assert (Htop : (2 ^ (Z.of_nat attempt + 1) <= 2 ^ 53)%Z)
    by (apply Z.pow_le_mono_r; lia).
  rewrite Z.pow_add_r, Z.pow_1_r, inject_Z_mult by lia.
  rewrite Z.pow_add_r, Z.pow_1_r in Htop by lia.
  rewrite Zle_Qle in Hone, Htop. rewrite inject_Z_mult in Htop.
  change (inject_Z 1) with 1 in Hone. change (inject_Z 2) with 2 in *.
  repeat split; lra.
Qed.

(** The delay lies between [2^attempt] and [2^attempt + 1]; rounding can
    make it reach the upper end. *)
Lemma backoff_delay_range (attempt : nat) (u : Q) :
  (attempt <= 51)%nat -> 0 <= u -> u < 1 ->
  inject_Z (base_delay * 2 ^ Z.of_nat attempt) <= backoff_delay attempt u /\
  backoff_delay attempt u <= inject_Z (base_delay * 2 ^ Z.of_nat attempt) + 1.
Proof.
  intros Ha H0 H1.
  destruct (backoff_sum_range attempt u Ha H0 H1) as (Hlo & Hhi & Htop & Hone).
  unfold backoff_delay.
  set (x := inject_Z (base_delay * 2 ^ Z.of_nat attempt) + u) in *.
  assert (Hx1 : 1 <= x) by lra.
  assert (Hx2 : x < inject_Z (2 ^ 53)) by lra.
  split.
  - apply (round64_between x _ Hx1 Hx2). unfold x. lra.
  - assert (Hk : inject_Z (base_delay * 2 ^ Z.of_nat attempt) + 1
                 == inject_Z (base_delay * 2 ^ Z.of_nat attempt + 1))
      by (rewrite inject_Z_plus; reflexivity).
    rewrite Hk. apply (round64_between x _ Hx1 Hx2).
    rewrite <- Hk. unfold x. lra.
Qed.

(** The delay is the exact sum up to half a unit in the last place. *)
Lemma backoff_delay_near (attempt : nat) (u : Q) :
  (attempt <= 51)%nat -> 0 <= u -> u < 1 ->
  inject_Z (base_delay * 2 ^ Z.of_nat attempt) + u
    - pow2 (Z.of_nat attempt - 53) <= backoff_delay attempt u /\
  backoff_delay attempt u
    <= inject_Z (base_delay * 2 ^ Z.of_nat attempt) + u
       + pow2 (Z.of_nat attempt - 53).
Proof.
  intros Ha H0 H1.
  destruct (backoff_sum_range attempt u Ha H0 H1) as (Hlo & Hhi & _).
  unfold backoff_delay.
  apply round64_near; [lia | exact Hlo | exact Hhi].
Qed.

Lemma backoff_delay_nonneg (attempt : nat) (u : Q) :
  0 <= u -> 0 <= backoff_delay attempt u.
Proof.
  intros Hu. unfold backoff_delay, base_delay.
  assert (H : (1 <= 1 * 2 ^ Z.of_nat attempt)%Z)
    by (rewrite Z.mul_1_l; apply Z.lt_pred_le, Z.pow_pos_nonneg; lia).
  rewrite Zle_Qle in H. change (inject_Z 1) with 1 in H.
  rewrite round64_of_positive by lra.
  apply round64_pos_nonneg. lra.
Qed.

Section Attempt.
Variables (url : string) (params : list (string * json)).

(** Up to the answer of [requests.get]. *)
Lemma attempt_body_get (st : State) (k : Response -> M (option Response)) :
  rate_limit st <> 0%Z ->
  exists st1 rs,
    forallb is_rate_sleep rs = true /\
    frame st st1 (tl (wire st)) (dice st) (rs ++ [EvGet url params]) /\
    (_rate_limit_check ;;; response <- requests_get url params ;; k response) st =
    match wire st with
    | [] => (Exc ConnectionError, st1)
    | Fails f :: _ => (Exc (exn_of_failure f), st1)
    | Responds r :: _ => k r st1
    end.
Proof.
  intros Hrl.
  destruct (rate_limit_check_frame st Hrl)
    as (st0 & E & R & W & D & rs & L & Hrs).
  unfold bind at 1. rewrite E. run_monad.
  exists {| rate_limit := rate_limit st0;
            last_request_time := last_request_time st0;
            now := now st0 + hd 0 (lags st0) + 0; lags := tl (lags st0);
            wire := tl (wire st); dice := dice st0;
            log := log st0 ++ [EvGet url params] |}.
  exists rs; split; [exact Hrs |]. split; cycle 1.
  - rewrite W. destruct (wire st) as [| [f | r] w]; reflexivity.
  - unfold frame; simpl. rewrite R, D, L, app_assoc.
    repeat split; reflexivity.
Qed.

Lemma retried_is_RequestException (o : Outcome) :
  is_RequestException (retried_exn o) = true.
Proof.
  destruct o as [[|] | r]; simpl; try reflexivity.
  destruct (status_code r =? 401)%Z; reflexivity.
Qed.

Lemma transient_retried (o : Outcome) :
  transient o = true -> retried o = true.
Proof.
  destruct o as [f | r]; simpl; [reflexivity |].
  destruct (status_code r =? 401)%Z; simpl; [discriminate | trivial].
Qed.

Lemma attempt_retried (st : State) (o : Outcome) (w : list Outcome) :
  rate_limit st <> 0%Z ->
  wire st = o :: w ->
  retried o = true ->
  exists st' rs,
    attempt_body url params st = (Exc (retried_exn o), st') /\
    forallb is_rate_sleep rs = true /\
    frame st st' w (dice st) (rs ++ [EvGet url params]).
Proof.
  intros Hrl Hw Ht. unfold attempt_body.
  edestruct (attempt_body_get st) as (st1 & rs & Hrs & F & E); [exact Hrl |].
  rewrite E, Hw in *. clear E. simpl in F.
  exists st1, rs. split; [| split; assumption].
  destruct o as [f | r]; [reflexivity |]. simpl in *.
  destruct (status_code r =? 401)%Z.
  - destruct (body r) as [j |] eqn:Eb; [discriminate |].
    unfold bind, lift, response_json. rewrite Eb. reflexivity.
  - unfold bind, lift, raise_for_status. rewrite Ht. reflexivity.
Qed.

Lemma attempt_invalid_key (st : State) (r : Response) (w : list Outcome) :
  rate_limit st <> 0%Z ->
  wire st = Responds r :: w ->
  invalid_key_401 r ->
  exists st' rs m,
    attempt_body url params st =
      (Exc (ValueError "Invalid API key - please check your .env file"), st') /\
    forallb is_rate_sleep rs = true /\
    error_message_of r = Ok m /\
    frame st st' w (dice st)
      (rs ++ [EvGet url params; EvPrint (PApiError m)]).
Proof.
  intros Hrl Hw (H401 & m & Hm & Hin). unfold attempt_body.
  edestruct (attempt_body_get st) as (st1 & rs & Hrs & F & E); [exact Hrl |].
  rewrite E, Hw in *. clear E. simpl in F.
  apply Z.eqb_eq in H401. rewrite H401.
  unfold error_message_of in Hm.
  destruct (response_json r) as [j |] eqn:Ej; [| discriminate]. simpl in Hm.
  destruct (dict_get j "status" (JObj [])) as [s |] eqn:Es; [| discriminate].
  simpl in Hm.
  run_monad. rewrite Es, Hm, Hin.
  eexists; exists rs, m. split; [reflexivity |]. split; [exact Hrs |].
  split; [unfold error_message_of; rewrite Ej; simpl; rewrite Es; exact Hm |].
  destruct F as (R & W & D & L). unfold frame; simpl.
  rewrite R, W, D, L, <- !app_assoc. repeat split; reflexivity.
Qed.

Lemma attempt_other_401 (st : State) (r : Response) (m : json)
  (w : list Outcome) :
  rate_limit st <> 0%Z ->
  wire st = Responds r :: w ->
  other_401 r m ->
  exists st' rs,
    attempt_body url params st = (Ok None, st') /\
    forallb is_rate_sleep rs = true /\
    frame st st' w (dice st)
      (rs ++ [EvGet url params; EvPrint (PApiError m)]).
Proof.
  intros Hrl Hw (H401 & Hm & Hin). unfold attempt_body.
  edestruct (attempt_body_get st) as (st1 & rs & Hrs & F & E); [exact Hrl |].
  rewrite E, Hw in *. clear E. simpl in F.
  apply Z.eqb_eq in H401. rewrite H401.
  unfold error_message_of in Hm.
  destruct (response_json r) as [j |] eqn:Ej; [| discriminate]. simpl in Hm.
  destruct (dict_get j "status" (JObj [])) as [s |] eqn:Es; [| discriminate].
  simpl in Hm.
  run_monad. rewrite Es, Hm, Hin.
  eexists; exists rs. split; [reflexivity |]. split; [exact Hrs |].
  destruct F as (R & W & D & L). unfold frame; simpl.
  rewrite R, W, D, L, <- !app_assoc. repeat split; reflexivity.
Qed.

(** A response that is neither a 401 nor a 4xx/5xx is returned. *)
Lemma attempt_returned (st : State) (r : Response) (w : list Outcome) :
  rate_limit st <> 0%Z ->
  wire st = Responds r :: w ->
  status_code r <> 401%Z ->
  raise_for_status r = Ok tt ->
  exists st' rs,
    attempt_body url params st = (Ok (Some r), st') /\
    forallb is_rate_sleep rs = true /\
    frame st st' w (dice st) (rs ++ [EvGet url params]).
Proof.
  intros Hrl Hw H401 Hok. unfold attempt_body.
  edestruct (attempt_body_get st) as (st1 & rs & Hrs & F & E); [exact Hrl |].
  rewrite E, Hw in *. clear E. simpl in F.
  apply Z.eqb_neq in H401. rewrite H401.
  unfold bind, lift. rewrite Hok.
  exists st1, rs. repeat split; try assumption; apply F.
Qed.
End Attempt.

Lemma dice_hd_range (st : State) :
  dice_ok st -> 0 <= hd 0 (dice st) /\ hd 0 (dice st) < 1.
Proof.
  unfold dice_ok. destruct 1; simpl; [split; [apply Qle_refl | reflexivity] | assumption].
Qed.

Lemma dice_ok_skipn (n : nat) (st st' : State) :
  dice_ok st -> dice st' = skipn n (dice st) -> dice_ok st'.
Proof.
  unfold dice_ok. intros H E. rewrite E. clear E.
  revert n. induction H as [| u l Hu Hl IH]; intros [| n]; simpl;
    try constructor; auto.
Qed.

Lemma skipn_tl {A} (n : nat) (l : list A) :
  skipn n (tl l) = skipn (S n) l.
Proof.
  destruct l; simpl; [destruct n; reflexivity | reflexivity].
Qed.

Section Loop.
Variables (url : string) (params : list (string * json)).

(** One retried attempt that is not the last one: the loop draws a jitter,
    prints, sleeps the backoff delay and goes on with the next attempt. *)
Lemma retry_step (st : State) (o : Outcome) (w : list Outcome)
  (attempt todo : nat) :
  rate_limit st <> 0%Z ->
  0 <= hd 0 (dice st) ->
  wire st = o :: w ->
  retried o = true ->
  attempt <> (max_retries - 1)%nat ->
  exists st' rs,
    retry_loop url params attempt (S todo) st =
      retry_loop url params (S attempt) todo st' /\
    forallb is_rate_sleep rs = true /\
    frame st st' w (tl (dice st))
      (rs ++ [EvGet url params;
              EvPrint (PRetry (attempt + 1) max_retries
                         (backoff_delay attempt (hd 0 (dice st))));
              EvSleepBackoff (backoff_delay attempt (hd 0 (dice st)))]).
Proof.
  intros Hrl Hu Hw Ho Ha.
  destruct (attempt_retried url params st o w Hrl Hw Ho)
    as (st1 & rs & E & Hrs & R & W & D & L).
  cbn [retry_loop]. rewrite E, retried_is_RequestException.
  apply Nat.eqb_neq in Ha. rewrite Ha.
  run_monad.
  rewrite D.
  pose proof (backoff_delay_nonneg attempt _ Hu) as Hdelay.
  destruct (Qlt_le_dec _ 0) as [Hneg | _]; [exfalso; lra |]. simpl.
  eexists; exists rs. split; [reflexivity |]. split; [exact Hrs |].
  unfold frame; simpl. rewrite R, W, L, <- !app_assoc.
  repeat split; reflexivity.
Qed.

(** A run of retried attempts none of which is the last one. *)
Lemma retry_prefix (pre : list Outcome) :
  forall (attempt todo : nat) (st : State) (w : list Outcome),
    rate_limit st <> 0%Z ->
    dice_ok st ->
    wire st = pre ++ w ->
    forallb retried pre = true ->
    (attempt + List.length pre <= max_retries - 1)%nat ->
    exists st' evs,
      retry_loop url params attempt (List.length pre + todo) st =
        retry_loop url params (attempt + List.length pre) todo st' /\
      frame st st' w (skipn (List.length pre) (dice st)) evs /\
      skeleton evs = failed_attempts attempt (List.length pre) (dice st).
Proof.
  induction pre as [| o pre IH]; intros attempt todo st w Hrl Hd Hw Hp Hlen.
  - simpl in *. rewrite Nat.add_0_r. exists st, [].
    split; [reflexivity |]. split; [| reflexivity].
    unfold frame. rewrite app_nil_r. auto.
  - simpl in Hp. apply andb_prop in Hp as [Ho Hp].
    cbn [List.length] in Hlen.
    assert (Ha : attempt <> (max_retries - 1)%nat) by lia.
    destruct (retry_step st o (pre ++ w) attempt (List.length pre + todo)
                Hrl (proj1 (dice_hd_range st Hd)) Hw Ho Ha)
      as (st1 & rs & E1 & Hrs & R1 & W1 & D1 & L1).
    assert (Hrl1 : rate_limit st1 <> 0%Z) by (rewrite R1; exact Hrl).
    assert (Hd1 : dice_ok st1) by (apply (dice_ok_skipn 1 st); assumption).
    assert (Hlen1 : (S attempt + List.length pre <= max_retries - 1)%nat)
      by lia.
    destruct (IH (S attempt) todo st1 w Hrl1 Hd1 W1 Hp Hlen1)
      as (st2 & evs & E2 & (R2 & W2 & D2 & L2) & S2).
    exists st2.
    exists ((rs ++ [EvGet url params;
                    EvPrint (PRetry (attempt + 1) max_retries
                               (backoff_delay attempt (hd 0 (dice st))));
                    EvSleepBackoff (backoff_delay attempt (hd 0 (dice st)))])
              ++ evs).
    split; [| split].
    + cbn [List.length Nat.add]. rewrite E1, E2.
      f_equal. lia.
    + unfold frame. rewrite R2, R1, W2, D2, D1, L2, L1.
      repeat split; try reflexivity.
      * apply skipn_tl.
      * rewrite <- !app_assoc. reflexivity.
    + rewrite !skeleton_app, (skeleton_rate_sleeps rs Hrs), S2, D1.
      reflexivity.
Qed.
End Loop.

Lemma failed_attempts_then_call (attempt n : nat) (js : list Q)
  (evs : list Event) :
  skeleton evs = failed_attempts attempt n js ++ [Call] ->
  http_calls evs = (n + 1)%nat /\ backoff_sleeps evs = n.
Proof.
  unfold http_calls, backoff_sleeps. intros ->.
  revert attempt js. induction n as [| n IH]; intros attempt js; simpl.
  - split; reflexivity.
  - destruct (IH (S attempt) (tl js)) as [H1 H2]. rewrite H1, H2.
    split; reflexivity.
Qed.

Section Pipeline.
Variables (url : string) (params : list (string * json)).

(** The run up to the first attempt that is not retried. *)
Lemma make_api_request_prefix (st : State) (pre : list Outcome)
  (w : list Outcome) :
  rate_limit st <> 0%Z ->
  dice_ok st ->
  wire st = pre ++ w ->
  forallb retried pre = true ->
  (List.length pre < max_retries)%nat ->
  exists st' evs todo,
    _make_api_request url params st =
      retry_loop url params (List.length pre) (S todo) st' /\
    rate_limit st' <> 0%Z /\ dice_ok st' /\
    frame st st' w (skipn (List.length pre) (dice st)) evs /\
    skeleton evs = failed_attempts 0 (List.length pre) (dice st).
Proof.
  intros Hrl Hd Hw Hp Hlen.
  destruct (retry_prefix url params pre 0
              (S (max_retries - 1 - List.length pre)) st w Hrl Hd Hw Hp)
    as (st' & evs & E & F & Hsk); [lia |].
  exists st', evs, (max_retries - 1 - List.length pre)%nat.
  split; [| split; [| split; [| split]]]; try assumption.
  - unfold _make_api_request. cbn [Nat.add] in E. rewrite <- E.
    f_equal. lia.
  - destruct F as (R & _). rewrite R. exact Hrl.
  - destruct F as (_ & _ & D & _). exact (dice_ok_skipn _ st st' Hd D).
Qed.
End Pipeline.

(** C1, as amended. Whatever the earlier attempts met, an attempt that
    receives a 401 whose JSON body holds "Invalid API key" in its
    [status.error_message] ends the pipeline there with the ValueError of
    line 45: it is the last HTTP call, no backoff sleep follows it, and the
    outcomes still on the wire are left unread. *)
Theorem invalid_key_is_fatal (url : string) (params : list (string * json))
  (st : State) (pre : list Outcome) (r : Response) (w : list Outcome) :
  rate_limit st <> 0%Z ->
  dice_ok st ->
  wire st = pre ++ Responds r :: w ->
  forallb retried pre = true ->
  (List.length pre < max_retries)%nat ->
  invalid_key_401 r ->
  exists st' evs,
    _make_api_request url params st =
      (Exc (ValueError "Invalid API key - please check your .env file"), st') /\
    wire st' = w /\
    log st' = log st ++ evs /\
    skeleton evs = failed_attempts 0 (List.length pre) (dice st) ++ [Call] /\
    http_calls evs = (List.length pre + 1)%nat /\
    backoff_sleeps evs = List.length pre.
Proof.
  intros Hrl Hd Hw Hp Hlen Hr.
  destruct (make_api_request_prefix url params st pre _ Hrl Hd Hw Hp Hlen)
    as (st1 & evs1 & todo & E1 & Hrl1 & Hd1 & (R1 & W1 & D1 & L1) & S1).
  destruct (attempt_invalid_key url params st1 r w Hrl1 W1 Hr)
    as (st2 & rs & m & E2 & Hrs & Hm & (R2 & W2 & D2 & L2)).
  exists st2, (evs1 ++ rs ++ [EvGet url params; EvPrint (PApiError m)]).
  assert (Hs : skeleton (evs1 ++ rs ++ [EvGet url params; EvPrint (PApiError m)])
               = failed_attempts 0 (List.length pre) (dice st) ++ [Call]).
  { rewrite !skeleton_app, S1, (skeleton_rate_sleeps rs Hrs). reflexivity. }
  split; [| split; [| split; [| split]]].
  - rewrite E1. cbn [retry_loop]. rewrite E2. reflexivity.
  - exact W2.
  - rewrite L2, L1, <- app_assoc. reflexivity.
  - exact Hs.
  - exact (failed_attempts_then_call _ _ _ _ Hs).
Qed.

Lemma fresh_state_dice_ok (w : list Outcome) : dice_ok (fresh_state w).
Proof.
  unfold dice_ok; simpl.
  repeat (constructor; [split; [discriminate | reflexivity] |]).
  constructor.
Qed.

Lemma invalid_key_is_fatal_witness :
  invalid_key_401 (unauthorized "This API Key is invalid. Invalid API key.") /\
  exists st' evs,
    _make_api_request "u" []
      (fresh_state
         [Fails TimedOut;
          Responds (unauthorized "This API Key is invalid. Invalid API key.");
          Fails ConnectionLost]) =
      (Exc (ValueError "Invalid API key - please check your .env file"), st') /\
    wire st' = [Fails ConnectionLost] /\
    log st' = [] ++ evs /\
    skeleton evs = failed_attempts 0 1 [1 # 2; 1 # 4; 3 # 4; 0; 1 # 8] ++ [Call] /\
    http_calls evs = 2%nat /\
    backoff_sleeps evs = 1%nat.
Proof.
  assert (H : invalid_key_401
                (unauthorized "This API Key is invalid. Invalid API key.")).
  { split; [reflexivity |]. eexists; split; reflexivity. }
  split; [exact H |].
  apply (invalid_key_is_fatal "u" [] (fresh_state _) [Fails TimedOut]
           (unauthorized "This API Key is invalid. Invalid API key.")
           [Fails ConnectionLost]).
  - discriminate.
  - apply fresh_state_dice_ok.
  - reflexivity.
  - reflexivity.
  - simpl. unfold max_retries. lia.
  - exact H.
Defined.

(** The indicator stands in the body of the 401, but not under
    [status.error_message]: line 42 reads the default message, it is
    printed, and the pipeline returns [None] without raising.  And a 401
    whose body is not JSON, whatever its text, is a JSONDecodeError at line
    42, which is a RequestException: it is retried to the last attempt. *)
Lemma indicator_elsewhere_is_not_fatal :
  let r := {| status_code := 401;
              body := Some (JObj [("error", JStr "Invalid API key")]) |} in
  let plain := Responds {| status_code := 401; body := None |} in
  let run := _make_api_request "u" [] (fresh_state [Responds r; Responds r]) in
  let text_run :=
    _make_api_request "u" [] (fresh_state [plain; plain; plain; plain; plain]) in
  status_code r = 401%Z /\
  body_mentions invalid_key_marker r = true /\
  fst run = Ok None /\
  log (snd run) = [EvGet "u" []; EvPrint (PApiError (JStr "Unauthorized"))] /\
  fst text_run = Exc JSONDecodeError /\
  http_calls (log (snd text_run)) = max_retries /\
  backoff_sleeps (log (snd text_run)) = (max_retries - 1)%nat.
Proof.
  vm_compute. repeat split; reflexivity.
Qed.

(** C2, as amended. When the first [max_retries] outcomes are all transient
    (a network-level failure, or a 4xx or 5xx status other than 401), the
    pipeline makes exactly [max_retries] HTTP calls, sleeps a backoff delay
    after each of them but the last, and re-raises the RequestException of
    the last attempt; what is left on the wire is not read. *)
Theorem retries_exhausted (url : string) (params : list (string * json))
  (st : State) (pre : list Outcome) (o : Outcome) (w : list Outcome) :
  rate_limit st <> 0%Z ->
  dice_ok st ->
  wire st = pre ++ o :: w ->
  forallb transient (pre ++ [o]) = true ->
  S (List.length pre) = max_retries ->
  exists st' evs,
    _make_api_request url params st = (Exc (retried_exn o), st') /\
    is_RequestException (retried_exn o) = true /\
    wire st' = w /\
    log st' = log st ++ evs /\
    skeleton evs = failed_attempts 0 (max_retries - 1) (dice st) ++ [Call] /\
    http_calls evs = max_retries /\
    backoff_sleeps evs = (max_retries - 1)%nat.
Proof.
  intros Hrl Hd Hw Ht Hlen.
  rewrite forallb_app in Ht. apply andb_prop in Ht as [Hpre Ho].
  simpl in Ho. rewrite andb_true_r in Ho.
  assert (Hp : forallb retried pre = true).
  { rewrite forallb_forall in *. intros x Hx.
    apply transient_retried, Hpre, Hx. }
  apply transient_retried in Ho.
  assert (Hlt : (List.length pre < max_retries)%nat) by lia.
  assert (Hl4 : List.length pre = (max_retries - 1)%nat) by lia.
  destruct (make_api_request_prefix url params st pre _ Hrl Hd Hw Hp Hlt)
    as (st1 & evs1 & todo & E1 & Hrl1 & Hd1 & (R1 & W1 & D1 & L1) & S1).
  destruct (attempt_retried url params st1 o w Hrl1 W1 Ho)
    as (st2 & rs & E2 & Hrs & (R2 & W2 & D2 & L2)).
  exists st2, (evs1 ++ rs ++ [EvGet url params]).
  assert (Hs : skeleton (evs1 ++ rs ++ [EvGet url params])
               = failed_attempts 0 (max_retries - 1) (dice st) ++ [Call]).
  { rewrite !skeleton_app, S1, (skeleton_rate_sleeps rs Hrs), Hl4.
    reflexivity. }
  split; [| split; [| split; [| split; [| split]]]].
  - rewrite E1. cbn [retry_loop].
    rewrite E2, retried_is_RequestException, Hl4, Nat.eqb_refl. reflexivity.
  - apply retried_is_RequestException.
  - exact W2.
  - rewrite L2, L1, <- app_assoc. reflexivity.
  - exact Hs.
  - destruct (failed_attempts_then_call _ _ _ _ Hs) as [H1 H2].
    split; [rewrite H1; reflexivity | exact H2].
Qed.

Lemma retries_exhausted_witness :
  forallb transient
    [server_error; Fails TimedOut; server_error; server_error; Fails ConnectionLost]
    = true /\
  exists st' evs,
    _make_api_request "u" []
      (fresh_state [server_error; Fails TimedOut; server_error; server_error;
                    Fails ConnectionLost; server_error]) =
      (Exc ConnectionError, st') /\
    is_RequestException ConnectionError = true /\
    wire st' = [server_error] /\
    log st' = [] ++ evs /\
    skeleton evs =
      failed_attempts 0 (max_retries - 1) [1 # 2; 1 # 4; 3 # 4; 0; 1 # 8]
        ++ [Call] /\
    http_calls evs = max_retries /\
    backoff_sleeps evs = (max_retries - 1)%nat.
Proof.
  split; [reflexivity |].
  apply (retries_exhausted "u" [] (fresh_state _)
           [server_error; Fails TimedOut; server_error; server_error]
           (Fails ConnectionLost) [server_error]).
  - discriminate.
  - apply fresh_state_dice_ok.
  - reflexivity.
  - reflexivity.
  - reflexivity.
Defined.

(** Against C2 as worded: a 304 is outside 2xx and is not retried, because
    [raise_for_status] raises for 4xx and 5xx only. *)
Lemma not_modified_is_returned :
  let st := fresh_state [not_modified; not_modified; not_modified;
                         not_modified; not_modified] in
  forallb non_2xx_failure (firstn max_retries (wire st)) = true /\
  fst (_make_api_request "u" [] st)
    = Ok (Some {| status_code := 304; body := None |}) /\
  http_calls (log (snd (_make_api_request "u" [] st))) = 1%nat /\
  http_calls (log (snd (_make_api_request "u" [] st))) <> max_retries.
Proof.
  vm_compute. repeat split; discriminate.
Qed.

(** C5, as amended. An attempt that receives a 401 whose error message can
    be read and does not hold "Invalid API key" ends the pipeline there: the
    message is printed, [None] is returned, nothing is raised, and neither a
    further HTTP call nor a backoff sleep follows. *)
Theorem other_401_returns_none (url : string) (params : list (string * json))
  (st : State) (pre : list Outcome) (r : Response) (m : json)
  (w : list Outcome) :
  rate_limit st <> 0%Z ->
  dice_ok st ->
  wire st = pre ++ Responds r :: w ->
  forallb retried pre = true ->
  (List.length pre < max_retries)%nat ->
  other_401 r m ->
  exists st' evs,
    _make_api_request url params st = (Ok None, st') /\
    wire st' = w /\
    log st' = log st ++ evs ++ [EvGet url params; EvPrint (PApiError m)] /\
    skeleton evs = failed_attempts 0 (List.length pre) (dice st) /\
    http_calls (evs ++ [EvGet url params; EvPrint (PApiError m)])
      = (List.length pre + 1)%nat /\
    backoff_sleeps (evs ++ [EvGet url params; EvPrint (PApiError m)])
      = List.length pre.
Proof.
  intros Hrl Hd Hw Hp Hlen Hr.
  destruct (make_api_request_prefix url params st pre _ Hrl Hd Hw Hp Hlen)
    as (st1 & evs1 & todo & E1 & Hrl1 & Hd1 & (R1 & W1 & D1 & L1) & S1).
  destruct (attempt_other_401 url params st1 r m w Hrl1 W1 Hr)
    as (st2 & rs & E2 & Hrs & (R2 & W2 & D2 & L2)).
  exists st2, (evs1 ++ rs).
  assert (Hs : skeleton ((evs1 ++ rs) ++
                         [EvGet url params; EvPrint (PApiError m)])
               = failed_attempts 0 (List.length pre) (dice st) ++ [Call]).
  { rewrite !skeleton_app, S1, (skeleton_rate_sleeps rs Hrs), app_nil_r.
    reflexivity. }
  split; [| split; [| split; [| split]]].
  - rewrite E1. cbn [retry_loop]. rewrite E2. reflexivity.
  - exact W2.
  - rewrite L2, L1, <- !app_assoc. reflexivity.
  - rewrite skeleton_app, S1, (skeleton_rate_sleeps rs Hrs), app_nil_r.
    reflexivity.
  - exact (failed_attempts_then_call _ _ _ _ Hs).
Qed.

Lemma other_401_returns_none_witness :
  other_401 (unauthorized "API key missing.") (JStr "API key missing.") /\
  exists st' evs,
    _make_api_request "u" []
      (fresh_state [Responds (unauthorized "API key missing."); server_error])
      = (Ok None, st') /\
    wire st' = [server_error] /\
    log st' = [] ++ evs ++
              [EvGet "u" []; EvPrint (PApiError (JStr "API key missing."))] /\
    skeleton evs = failed_attempts 0 0 [1 # 2; 1 # 4; 3 # 4; 0; 1 # 8] /\
    http_calls
      (evs ++ [EvGet "u" []; EvPrint (PApiError (JStr "API key missing."))])
      = 1%nat /\
    backoff_sleeps
      (evs ++ [EvGet "u" []; EvPrint (PApiError (JStr "API key missing."))])
      = 0%nat.
Proof.
  assert (H : other_401 (unauthorized "API key missing.")
                (JStr "API key missing.")).
  { repeat split. }
  split; [exact H |].
  apply (other_401_returns_none "u" [] (fresh_state _) []
           (unauthorized "API key missing.") (JStr "API key missing.")
           [server_error]).
  - discriminate.
  - apply fresh_state_dice_ok.
  - reflexivity.
  - reflexivity.
  - unfold max_retries. simpl. lia.
  - exact H.
Defined.

(** Against C5 as worded: two 401 responses with different server messages
    give the same return value, [None], which therefore carries neither. *)
Lemma other_401_result_drops_message :
  let run msg :=
    fst (_make_api_request "u" [] (fresh_state [Responds (unauthorized msg)])) in
  run "API key missing." = Ok None /\
  run "Your plan does not allow this endpoint." = Ok None /\
  ~ (exists carried : Res (option Response) -> string,
        carried (run "API key missing.") = "API key missing." /\
        carried (run "Your plan does not allow this endpoint.")
          = "Your plan does not allow this endpoint.").
Proof.
  cbv zeta.
  assert (H1 : fst (_make_api_request "u" []
                      (fresh_state [Responds (unauthorized "API key missing.")]))
               = Ok None) by (vm_compute; reflexivity).
  assert (H2 : fst (_make_api_request "u" []
                      (fresh_state
                         [Responds (unauthorized
                                      "Your plan does not allow this endpoint.")]))
               = Ok None) by (vm_compute; reflexivity).
  split; [exact H1 |]. split; [exact H2 |].
  intros (carried & Ha & Hb). rewrite H1 in Ha. rewrite H2 in Hb.
  rewrite Ha in Hb. discriminate.
Qed.

Lemma failed_attempts_snoc (n : nat) :
  forall (attempt : nat) (js : list Q),
    failed_attempts attempt (S n) js =
    failed_attempts attempt n js
      ++ [Call; Backoff (backoff_delay (attempt + n) (nth n js 0))].
Proof.
  induction n as [| n IH]; intros attempt js.
  - simpl. rewrite Nat.add_0_r. destruct js; reflexivity.
  - change (failed_attempts attempt (S (S n)) js)
      with (Call :: Backoff (backoff_delay attempt (hd 0 js))
              :: failed_attempts (S attempt) (S n) (tl js)).
    rewrite IH. simpl.
    replace (attempt + S n)%nat with (S (attempt + n)) by lia.
    destruct js; [destruct n |]; reflexivity.
Qed.

Lemma dice_nth_range (st : State) (n : nat) :
  dice_ok st -> 0 <= nth n (dice st) 0 /\ nth n (dice st) 0 < 1.
Proof.
  unfold dice_ok. intros H. revert n.
  induction H as [| u l Hu Hl IH]; intros [| n]; simpl; auto;
    split; solve [apply Qle_refl | reflexivity].
Qed.

(** ** Quotes *)

(** What [get_token_data] does once the pipeline has returned a response. *)
Lemma get_token_data_returned (symbols : list string) (st st1 : State)
  (r : Response) :
  _make_api_request quotes_url (quotes_params symbols) st = (Ok (Some r), st1) ->
  get_token_data symbols st =
  match rbind (response_json r) quote_rows with
  | Ok rows => (Ok (Some rows), st1)
  | Exc e =>
      if is_RequestException e then (print (PRequestFailed e) ;;; ret None) st1
      else if is_KeyError e then (print (PInvalidFormat e) ;;; ret None) st1
      else (Exc e, st1)
  end.
Proof.
  intros H. unfold get_token_data, bind at 1. rewrite H.
  unfold bind, lift, ret, json_of.
  destruct (response_json r) as [j | e]; simpl; [| reflexivity].
  destruct (quote_rows j) as [rows | e]; reflexivity.
Qed.

(** What [get_token_data] does once the pipeline has raised. *)
Lemma get_token_data_raised (symbols : list string) (st st1 : State) (e : exn) :
  _make_api_request quotes_url (quotes_params symbols) st = (Exc e, st1) ->
  get_token_data symbols st =
  if is_RequestException e then (print (PRequestFailed e) ;;; ret None) st1
  else if is_KeyError e then (print (PInvalidFormat e) ;;; ret None) st1
  else (Exc e, st1).
Proof.
  intros H. unfold get_token_data, bind at 1. rewrite H. reflexivity.
Qed.

Lemma quote_row_reads (token : json) (f : Fields) :
  reads token f -> quote_row token = Ok (quote_row_of f).
Proof.
  intros (tkv & qkv & ukv & -> & Hs & Hn & Hr & Hq & Hu & Hp & H7 & H30 & H90 & H1).
  unfold quote_row, usd_field, usd_field_opt, getitem, dict_get, quote_row_of.
  rewrite Hs, Hn, Hr, Hq. simpl. rewrite Hu. simpl.
  rewrite Hp, H7, H30, H90, H1. simpl.
  destruct (f_c1y f); reflexivity.
Qed.

Lemma rmap_Forall2 {A B C} (f : A -> Res B) (g : C -> B) (R : A -> C -> Prop)
  (xs : list A) (ys : list C) :
  (forall x y, R x y -> f x = Ok (g y)) ->
  Forall2 R xs ys -> rmap f xs = Ok (map g ys).
Proof.
  intros Hf. induction 1 as [| x y xs ys Hxy _ IH]; simpl; [reflexivity |].
  rewrite (Hf x y Hxy), IH. reflexivity.
Qed.

(** C9. In a batch whose records hold the required fields, a record without
    the 1-year change is mapped like any other, its [1y_change] being
    [None]; the fetch returns the whole list. *)
Theorem missing_1y_change_is_none (symbols : list string) (st st1 : State)
  (r : Response) (j : json) (kv : list (string * json)) (fs : list Fields) :
  _make_api_request quotes_url (quotes_params symbols) st = (Ok (Some r), st1) ->
  body r = Some j ->
  getitem j "data" = Ok (JObj kv) ->
  Forall2 reads (map snd kv) fs ->
  get_token_data symbols st = (Ok (Some (map quote_row_of fs)), st1) /\
  forall f, In f fs -> f_c1y f = None ->
    getitem (quote_row_of f) "1y_change" = Ok JNull /\
    quote_row_of f =
      JObj [("symbol", f_symbol f); ("name", f_name f); ("rank", f_rank f);
            ("price", f_price f); ("7d_change", f_c7 f);
            ("30d_change", f_c30 f); ("90d_change", f_c90 f);
            ("1y_change", JNull)].
Proof.
  intros Hreq Hbody Hdata Hreads. split.
  - rewrite (get_token_data_returned symbols st st1 r Hreq).
    unfold response_json. rewrite Hbody. simpl.
    unfold quote_rows. rewrite Hdata. simpl.
    rewrite (rmap_Forall2 quote_row quote_row_of reads _ _ quote_row_reads Hreads).
    reflexivity.
  - intros f _ H1y. unfold quote_row_of. rewrite H1y. split; reflexivity.
Qed.

Lemma missing_1y_change_is_none_witness :
  let st := fresh_state [Responds (ok_response (JObj [("data", JObj quotes_batch)]))] in
  fst (get_token_data ["BTC"; "ETH"] st)
    = Ok (Some [quote_row_of btc_fields; quote_row_of eth_fields]) /\
  getitem (quote_row_of btc_fields) "1y_change" = Ok JNull.
Proof.
  cbv zeta.
  pose (st := fresh_state
                [Responds (ok_response (JObj [("data", JObj quotes_batch)]))]).
  destruct (missing_1y_change_is_none ["BTC"; "ETH"] st
              (snd (_make_api_request quotes_url (quotes_params ["BTC"; "ETH"]) st))
              (ok_response (JObj [("data", JObj quotes_batch)]))
              (JObj [("data", JObj quotes_batch)]) quotes_batch
              [btc_fields; eth_fields]) as [Hrun Hrows].
  - vm_compute. reflexivity.
  - reflexivity.
  - reflexivity.
  - repeat constructor;
      (eexists; eexists; eexists; repeat split; reflexivity).
  - fold st. rewrite Hrun. split; [reflexivity |].
    apply (Hrows btc_fields); [left; reflexivity | reflexivity].
Defined.






(** ** Failures as the callers see them *)

Lemma get_top_performers_raised (limit top : Z) (st st1 : State) (e : exn) :
  _make_api_request listings_url (listings_params limit) st = (Exc e, st1) ->
  get_top_performers limit top st = (print (PTopError e) ;;; ret None) st1.
Proof.
  intros H. unfold get_top_performers, try_except, bind at 1. rewrite H.
  reflexivity.
Qed.

Lemma get_top_performers_none (limit top : Z) (st st1 : State) :
  _make_api_request listings_url (listings_params limit) st = (Ok None, st1) ->
  get_top_performers limit top st = (Ok None, st1).
Proof.
  intros H. unfold get_top_performers, try_except, bind at 1. rewrite H.
  reflexivity.
Qed.

Lemma get_top_performers_returned (limit top : Z) (st st1 : State)
  (r : Response) :
  _make_api_request listings_url (listings_params limit) st
    = (Ok (Some r), st1) ->
  get_top_performers limit top st =
  match rbind (response_json r) (fun j => rank_performers j top) with
  | Ok p => (Ok (Some p), st1)
  | Exc e => (print (PTopError e) ;;; ret None) st1
  end.
Proof.
  intros H. unfold get_top_performers, try_except, bind at 1. rewrite H.
  unfold bind, lift, ret.
  destruct (response_json r) as [j | e]; simpl; [| reflexivity].
  destruct (rank_performers j top) as [p | e]; reflexivity.
Qed.

(** C4, as amended. [get_top_performers] never raises: whatever fails,
    invalid credential, exhausted retries or payload shape, it prints the
    exception and returns [None], and it returns [None] for a 401 of
    another kind too.  [get_token_data] prints and returns [None] for a
    RequestException of the pipeline and for a KeyError of the payload,
    each with a message of its own, and lets the ValueError of an invalid
    credential through. *)
Theorem failures_are_printed_and_become_none (limit top : Z)
  (symbols : list string) (st : State) :
  (exists v, fst (get_top_performers limit top st) = Ok v) /\
  fst (get_top_performers limit top st) =
    match _make_api_request listings_url (listings_params limit) st with
    | (Ok (Some r), _) =>
        match rbind (response_json r) (fun j => rank_performers j top) with
        | Ok p => Ok (Some p)
        | Exc _ => Ok None
        end
    | (_, _) => Ok None
    end /\
  (forall e st1,
      _make_api_request listings_url (listings_params limit) st = (Exc e, st1) ->
      fst (get_top_performers limit top st) = Ok None /\
      log (snd (get_top_performers limit top st))
        = log st1 ++ [EvPrint (PTopError e)]) /\
  (forall r st1 e,
      _make_api_request listings_url (listings_params limit) st
        = (Ok (Some r), st1) ->
      rbind (response_json r) (fun j => rank_performers j top) = Exc e ->
      fst (get_top_performers limit top st) = Ok None /\
      log (snd (get_top_performers limit top st))
        = log st1 ++ [EvPrint (PTopError e)]) /\
  (forall e st1,
      _make_api_request quotes_url (quotes_params symbols) st = (Exc e, st1) ->
      is_RequestException e = true ->
      fst (get_token_data symbols st) = Ok None /\
      log (snd (get_token_data symbols st))
        = log st1 ++ [EvPrint (PRequestFailed e)]) /\
  (forall r st1 key,
      _make_api_request quotes_url (quotes_params symbols) st
        = (Ok (Some r), st1) ->
      rbind (response_json r) quote_rows = Exc (KeyError key) ->
      fst (get_token_data symbols st) = Ok None /\
      log (snd (get_token_data symbols st))
        = log st1 ++ [EvPrint (PInvalidFormat (KeyError key))]) /\
  (forall msg st1,
      _make_api_request quotes_url (quotes_params symbols) st
        = (Exc (ValueError msg), st1) ->
      get_token_data symbols st = (Exc (ValueError msg), st1)).
Proof.
  assert (Hfst : fst (get_top_performers limit top st) =
                 match _make_api_request listings_url (listings_params limit)
                         st with
                 | (Ok (Some r), _) =>
                     match rbind (response_json r)
                             (fun j => rank_performers j top) with
                     | Ok p => Ok (Some p)
                     | Exc _ => Ok None
                     end
                 | (_, _) => Ok None
                 end).
  { destruct (_make_api_request listings_url (listings_params limit) st)
      as [[[r |] | e] st1] eqn:E.
    - rewrite (get_top_performers_returned limit top st st1 r E).
      destruct (rbind _ _); reflexivity.
    - rewrite (get_top_performers_none limit top st st1 E). reflexivity.
    - rewrite (get_top_performers_raised limit top st st1 e E). reflexivity. }
  split; [| split; [exact Hfst | split; [| split; [| split; [| split]]]]].
  - rewrite Hfst.
    destruct (_make_api_request listings_url (listings_params limit) st)
      as [[[r |] | e] st1]; try (eexists; reflexivity).
    destruct (rbind _ _); eexists; reflexivity.
  - intros e st1 E.
    rewrite (get_top_performers_raised limit top st st1 e E).
    split; reflexivity.
  - intros r st1 e E He.
    rewrite (get_top_performers_returned limit top st st1 r E), He.
    split; reflexivity.
  - intros e st1 E He.
    rewrite (get_token_data_raised symbols st st1 e E), He.
    split; reflexivity.
  - intros r st1 key E He.
    rewrite (get_token_data_returned symbols st st1 r E), He.
    split; reflexivity.
  - intros msg st1 E.
    rewrite (get_token_data_raised symbols st st1 _ E). reflexivity.
Qed.

Lemma failures_are_printed_and_become_none_witness :
  fst (get_top_performers 100 5 invalid_key_state) = Ok None /\
  fst (get_token_data ["BTC"] outage_state) = Ok None /\
  fst (get_token_data ["BTC"] invalid_key_state)
    = Exc (ValueError "Invalid API key - please check your .env file") /\
  (fst (get_token_data ["BTC"; "ETH"] broken_state) = Ok None /\
   log (snd (get_token_data ["BTC"; "ETH"] broken_state))
     = log (snd (_make_api_request quotes_url (quotes_params ["BTC"; "ETH"])
                   broken_state))
       ++ [EvPrint (PInvalidFormat (KeyError "price"))]) /\
  (fst (get_top_performers 100 5 no_data_state) = Ok None /\
   log (snd (get_top_performers 100 5 no_data_state))
     = log (snd (_make_api_request listings_url (listings_params 100)
                   no_data_state))
       ++ [EvPrint (PTopError (KeyError "data"))]).
Proof.
  split; [| split; [| split; [| split]]].
  - destruct (failures_are_printed_and_become_none 100 5 ["BTC"]
                invalid_key_state) as (_ & H & _).
    rewrite H. vm_compute. reflexivity.
  - destruct (failures_are_printed_and_become_none 100 5 ["BTC"] outage_state)
      as (_ & _ & _ & _ & H & _).
    apply (H (HTTPError 503)
             (snd (_make_api_request quotes_url (quotes_params ["BTC"])
                     outage_state))).
    + vm_compute. reflexivity.
    + reflexivity.
  - destruct (failures_are_printed_and_become_none 100 5 ["BTC"]
                invalid_key_state) as (_ & _ & _ & _ & _ & _ & H).
    rewrite (H "Invalid API key - please check your .env file"
               (snd (_make_api_request quotes_url (quotes_params ["BTC"])
                       invalid_key_state))).
    + reflexivity.
    + vm_compute. reflexivity.
  - destruct (failures_are_printed_and_become_none 100 5 ["BTC"; "ETH"]
                broken_state) as (_ & _ & _ & _ & _ & H & _).
    apply (H (ok_response (JObj [("data", JObj broken_batch)]))).
    + vm_compute. reflexivity.
    + reflexivity.
  - destruct (failures_are_printed_and_become_none 100 5 ["BTC"; "ETH"]
                no_data_state) as (_ & _ & _ & H & _).
    apply (H (ok_response (JObj []))).
    + vm_compute. reflexivity.
    + reflexivity.
Defined.

(** Against C4 as worded: in [get_top_performers] an invalid credential,
    exhausted retries and a record without its fields all come back as the
    same [None]. *)
Lemma top_performers_failures_look_alike :
  fst (get_top_performers 100 5 invalid_key_state) = Ok None /\
  fst (get_top_performers 100 5 outage_state) = Ok None /\
  fst (get_top_performers 100 5
         (fresh_state
            [Responds (ok_response (JObj [("data", JArr [token "BTC" 1 []])]))]))
    = Ok None.
Proof.
  vm_compute. repeat split.
Qed.

(** ** Sorting by a numeric key *)

Section SortSpec.
Context {A : Type}.

Lemma key_ltb_num (a b : sortkey * A) :
  num_keyed a -> num_keyed b ->
  key_ltb (fst a) (fst b) = negb (Qle_bool (numkey b) (numkey a)).
Proof.
  intros [qa Ha] [qb Hb]. unfold numkey. rewrite Ha, Hb. reflexivity.
Qed.

Lemma insert_key_perm (x : sortkey * A) (l : list (sortkey * A)) :
  Permutation (insert_key x l) (x :: l).
Proof.
  induction l as [| y l IH]; simpl; [reflexivity |].
  destruct (key_ltb (fst y) (fst x)); [| reflexivity].
  rewrite IH. apply perm_swap.
Qed.

Lemma stable_sort_perm (l : list (sortkey * A)) :
  Permutation (stable_sort l) l.
Proof.
  induction l as [| x l IH]; simpl; [reflexivity |].
  rewrite insert_key_perm. constructor. exact IH.
Qed.

Lemma insert_key_sorted (x : sortkey * A) (l : list (sortkey * A)) :
  num_keyed x -> Forall num_keyed l ->
  StronglySorted key_le l -> StronglySorted key_le (insert_key x l).
Proof.
  intros Hx Hl Hs. induction Hs as [| y l Hs IH Hy]; simpl.
  - repeat constructor.
  - inversion Hl as [| ? ? Hny Hnl]; subst.
    rewrite (key_ltb_num y x Hny Hx).
    destruct (Qle_bool (numkey x) (numkey y)) eqn:E; simpl.
    + apply Qle_bool_iff in E.
      constructor; [constructor; assumption |].
      constructor; [exact E |].
      apply Forall_forall. intros z Hz.
      rewrite Forall_forall in Hy. unfold key_le in *.
      apply Qle_trans with (numkey y); [exact E | apply Hy, Hz].
    + assert (Hlt : numkey y <= numkey x).
      { apply Qlt_le_weak, Qnot_le_lt. intros H.
        apply Qle_bool_iff in H. rewrite H in E. discriminate. }
      constructor; [apply IH; assumption |].
      apply Forall_forall. intros z Hz.
      apply (Permutation_in _ (insert_key_perm x l)) in Hz.
      destruct Hz as [<- | Hz]; [exact Hlt |].
      rewrite Forall_forall in Hy. apply Hy, Hz.
Qed.

Lemma stable_sort_sorted (l : list (sortkey * A)) :
  Forall num_keyed l -> StronglySorted key_le (stable_sort l).
Proof.
  induction 1 as [| x l Hx Hl IH]; simpl; [constructor |].
  apply insert_key_sorted; [exact Hx | | exact IH].
  apply Forall_forall. intros z Hz.
  apply (Permutation_in _ (stable_sort_perm l)) in Hz.
  rewrite Forall_forall in Hl. apply Hl, Hz.
Qed.
End SortSpec.

Lemma StronglySorted_snoc {A} (R : A -> A -> Prop) (l : list A) (x : A) :
  StronglySorted R l -> Forall (fun y => R y x) l ->
  StronglySorted R (l ++ [x]).
Proof.
  induction 1 as [| y l Hs IH Hy]; intros Hx; simpl.
  - repeat constructor.
  - inversion Hx; subst. constructor; [apply IH; assumption |].
    apply Forall_app. split; [exact Hy | repeat constructor; assumption].
Qed.

Lemma StronglySorted_rev {A} (R : A -> A -> Prop) (l : list A) :
  StronglySorted R l -> StronglySorted (fun a b => R b a) (rev l).
Proof.
  induction 1 as [| x l Hs IH Hx]; simpl; [constructor |].
  apply StronglySorted_snoc; [exact IH |].
  apply Forall_rev. exact Hx.
Qed.

Lemma StronglySorted_map {A B} (f : A -> B) (R : B -> B -> Prop) (l : list A) :
  StronglySorted (fun a b => R (f a) (f b)) l -> StronglySorted R (map f l).
Proof.
  induction 1 as [| x l Hs IH Hx]; simpl; constructor; [exact IH |].
  apply Forall_map. exact Hx.
Qed.

Section PySorted.
Context {A : Type}.
Variables (key : A -> Res json) (kq : A -> Q).

Lemma rmap_numeric_keys (xs : list A) :
  Forall (fun x => key x = Ok (JNum (kq x))) xs ->
  rmap key xs = Ok (map (fun x => JNum (kq x)) xs).
Proof.
  induction 1 as [| x xs Hx _ IH]; simpl; [reflexivity |].
  rewrite Hx, IH. reflexivity.
Qed.

Lemma orderable_numeric (xs : list A) :
  orderable (map (fun x => JNum (kq x)) xs) = Ok (map (fun x => KNum (kq x)) xs).
Proof.
  destruct xs as [| x [| y xs]]; try reflexivity.
  assert (H : forall l : list A,
             rmap (fun k => match as_sortkey k with
                            | Some s => if same_kind (KNum (kq x)) s
                                        then Ok s else Exc TypeError
                            | None => Exc TypeError
                            end)
               (map (fun x => JNum (kq x)) l)
             = Ok (map (fun x => KNum (kq x)) l)).
  { induction l as [| z l IH]; [reflexivity |].
    cbn [map rmap]. rewrite IH. reflexivity. }
  exact (H (x :: y :: xs)).
Qed.

Lemma combine_decorate (xs : list A) :
  combine (map (fun x => KNum (kq x)) xs) xs = map (decorate kq) xs.
Proof.
  induction xs as [| x xs IH]; simpl; [reflexivity |]. rewrite IH. reflexivity.
Qed.

(** [sorted] on elements with numeric keys: a permutation, in ascending
    order of the key, or in descending order when reversed. *)
Lemma py_sorted_numeric (reverse : bool) (xs : list A) :
  Forall (fun x => key x = Ok (JNum (kq x))) xs ->
  exists ys,
    py_sorted key reverse xs = Ok ys /\
    Permutation ys xs /\
    StronglySorted (fun a b => if reverse then kq b <= kq a else kq a <= kq b) ys.
Proof.
  intros Hk. unfold py_sorted.
  rewrite (rmap_numeric_keys xs Hk). simpl.
  rewrite orderable_numeric. simpl. rewrite combine_decorate.
  eexists. split; [reflexivity |].
  assert (Hnum : forall l : list A, Forall num_keyed (map (decorate kq) l)).
  { intros l. apply Forall_map, Forall_forall. intros x _. exists (kq x).
    reflexivity. }
  assert (Hdec : forall l : list (sortkey * A),
             Permutation l (map (decorate kq) xs) ->
             Forall (fun p => numkey p = kq (snd p)) l).
  { intros l Hp. apply Forall_forall. intros p Hin.
    apply (Permutation_in _ Hp) in Hin. apply in_map_iff in Hin.
    destruct Hin as (x & <- & _). reflexivity. }
  assert (Hsnd : map snd (map (decorate kq) xs) = xs).
  { rewrite map_map. simpl. apply map_id. }
  assert (Hgo : forall (R : Q -> Q -> Prop) (l : list (sortkey * A)),
             Forall (fun p => numkey p = kq (snd p)) l ->
             StronglySorted (fun a b => R (numkey a) (numkey b)) l ->
             StronglySorted (fun a b => R (kq a) (kq b)) (map snd l)).
  { intros R l Hl Hs. apply StronglySorted_map.
    induction Hs as [| p l Hs IH Hp]; constructor.
    - apply IH. inversion Hl; assumption.
    - inversion Hl as [| ? ? Hp0 Hl0]; subst.
      rewrite Forall_forall in *. intros z Hz.
      rewrite <- Hp0, <- (Hl0 z Hz). apply Hp, Hz. }
  destruct reverse.
  - assert (Hp : Permutation (rev (stable_sort (rev (map (decorate kq) xs))))
                   (map (decorate kq) xs)).
    { rewrite <- Permutation_rev, stable_sort_perm, <- Permutation_rev.
      reflexivity. }
    split.
    + rewrite <- Hsnd at 2. apply Permutation_map. exact Hp.
    + apply (Hgo (fun a b => b <= a) _ (Hdec _ Hp)).
      apply (StronglySorted_rev key_le).
      apply stable_sort_sorted.
      rewrite <- map_rev. apply Hnum.
  - assert (Hp : Permutation (stable_sort (map (decorate kq) xs)) (map (decorate kq) xs))
      by apply stable_sort_perm.
    split.
    + rewrite <- Hsnd at 2. apply Permutation_map. exact Hp.
    + apply (Hgo (fun a b => a <= b) _ (Hdec _ Hp)).
      apply stable_sort_sorted, Hnum.
Qed.
End PySorted.

(** ** Top performers *)

Lemma performer_row_reads (token : json) (f : Fields) :
  reads token f -> performer_row token = Ok (performer_row_of f).
Proof.
  intros (tkv & qkv & ukv & -> & Hs & Hn & Hr & Hq & Hu & Hp & H7 & H30 & H90 & _).
  unfold performer_row, usd_field, getitem, performer_row_of.
  rewrite Hs, Hn, Hr, Hq. simpl. rewrite Hu. simpl.
  rewrite Hp, H7, H30, H90. reflexivity.
Qed.

Lemma rank_key_reads (token : json) (f : Fields) :
  reads token f -> getitem token "cmc_rank" = Ok (f_rank f).
Proof.
  intros (tkv & qkv & ukv & -> & _ & _ & Hr & _). simpl. rewrite Hr. reflexivity.
Qed.

Lemma change_key_reads (token : json) (f : Fields) :
  reads token f -> usd_field token "percent_change_7d" = Ok (f_c7 f).
Proof.
  intros (tkv & qkv & ukv & -> & _ & _ & _ & Hq & Hu & _ & H7 & _).
  unfold usd_field, getitem. rewrite Hq. simpl. rewrite Hu. simpl.
  rewrite H7. reflexivity.
Qed.

Lemma Forall2_firstn {A B} (R : A -> B -> Prop) (n : nat) :
  forall xs ys, Forall2 R xs ys -> Forall2 R (firstn n xs) (firstn n ys).
Proof.
  induction n as [| n IH]; intros xs ys H; [constructor |].
  destruct H; simpl; constructor; auto.
Qed.

Lemma Forall2_skipn {A B} (R : A -> B -> Prop) (n : nat) :
  forall xs ys, Forall2 R xs ys -> Forall2 R (skipn n xs) (skipn n ys).
Proof.
  induction n as [| n IH]; intros xs ys H; [exact H |].
  destruct H; simpl; [constructor | auto].
Qed.

Lemma Forall2_slice_upto {A B} (R : A -> B -> Prop) (stop : Z) xs ys :
  Forall2 R xs ys -> Forall2 R (slice_upto stop xs) (slice_upto stop ys).
Proof.
  intros H. unfold slice_upto. rewrite (Forall2_length H).
  destruct (0 <=? stop)%Z; apply Forall2_firstn, H.
Qed.

Lemma Forall2_slice_from {A B} (R : A -> B -> Prop) (start : Z) xs ys :
  Forall2 R xs ys -> Forall2 R (slice_from start xs) (slice_from start ys).
Proof.
  intros H. unfold slice_from. rewrite (Forall2_length H).
  destruct (0 <=? start)%Z; apply Forall2_skipn, H.
Qed.

Lemma StronglySorted_Forall2 {A B} (R : Q -> Q -> Prop) (g : A -> Q) (h : B -> Q)
  (xs : list A) (ys : list B) :
  Forall2 (fun x y => g x = h y) xs ys ->
  StronglySorted (fun a b => R (g a) (g b)) xs ->
  StronglySorted (fun a b => R (h a) (h b)) ys.
Proof.
  induction 1 as [| x y xs ys Hxy Hrest IH]; intros Hs; [constructor |].
  inversion Hs as [| ? ? Hs' Hx]; subst. constructor; [apply IH, Hs' |].
  clear IH Hs Hs'. induction Hrest as [| x' y' xs ys Hxy' _ IH']; constructor.
  - inversion Hx; subst. rewrite <- Hxy, <- Hxy'. assumption.
  - inversion Hx; subst. apply IH'. assumption.
Qed.

Lemma numeric_keys (key : json -> Res json) (field : Fields -> json)
  (xs : list json) (fs : list Fields) :
  (forall x f, reads x f -> key x = Ok (field f)) ->
  Forall2 reads xs fs ->
  Forall (fun f => exists q, field f = JNum q) fs ->
  Forall (fun x => key x = Ok (JNum (num_key key x))) xs.
Proof.
  intros Hkey. induction 1 as [| x f xs fs Hxf _ IH]; intros Hn; constructor.
  - inversion Hn as [| ? ? [q Hq] _]; subst.
    unfold num_key. rewrite (Hkey x f Hxf), Hq. reflexivity.
  - apply IH. inversion Hn; assumption.
Qed.

(** The two sorts and the two slices, on records with numeric rank and
    7-day change: the groups are cut from the descending sequence [ranked]. *)
Lemma group_performers_numeric (head : list json) (fs : list Fields) (top : Z) :
  Forall2 reads head fs ->
  Forall numeric fs ->
  exists ranked,
    Permutation ranked fs /\
    StronglySorted (fun a b => change_7d b <= change_7d a) ranked /\
    group_performers head top =
      Ok {| best := map performer_row_of (slice_upto top ranked);
            worst := map performer_row_of (slice_from (- top) ranked) |}.
Proof.
  intros Hr Hn. unfold group_performers.
  (* first sort: by rank *)
  destruct (py_sorted_numeric (fun x => getitem x "cmc_rank")
              (num_key (fun x => getitem x "cmc_rank")) false head)
    as (ys1 & E1 & P1 & _).
  { apply (numeric_keys _ f_rank head fs rank_key_reads Hr).
    apply (Forall_impl _ (fun f H => proj1 H) Hn). }
  rewrite E1. simpl.
  destruct (Permutation_Forall2 (Permutation_sym P1) Hr) as (fs1 & Pf1 & Hr1).
  assert (Hn1 : Forall numeric fs1) by (exact (Permutation_Forall Pf1 Hn)).
  (* second sort: by 7-day change, reversed *)
  destruct (py_sorted_numeric (fun x => usd_field x "percent_change_7d")
              (num_key (fun x => usd_field x "percent_change_7d")) true ys1)
    as (ys2 & E2 & P2 & S2).
  { apply (numeric_keys _ f_c7 ys1 fs1 change_key_reads Hr1).
    apply (Forall_impl _ (fun f H => proj2 H) Hn1). }
  rewrite E2. simpl.
  destruct (Permutation_Forall2 (Permutation_sym P2) Hr1) as (fs2 & Pf2 & Hr2).
  exists fs2. split; [| split].
  - symmetry. transitivity fs1; assumption.
  - apply (StronglySorted_Forall2 (fun a b => b <= a)
             (num_key (fun x => usd_field x "percent_change_7d")) change_7d
             ys2 fs2); [| exact S2].
    eapply Forall2_impl; [| exact Hr2].
    intros x f Hxf. unfold num_key, change_7d.
    rewrite (change_key_reads x f Hxf). reflexivity.
  - rewrite (rmap_Forall2 performer_row performer_row_of reads _ _
               performer_row_reads (Forall2_slice_upto reads top _ _ Hr2)).
    simpl.
    rewrite (rmap_Forall2 performer_row performer_row_of reads _ _
               performer_row_reads (Forall2_slice_from reads (- top) _ _ Hr2)).
    reflexivity.
Qed.

Lemma first_100_array (l : list json) : first_100 (JArr l) = Ok (firstn 100 l).
Proof. reflexivity. Qed.

(** What [get_top_performers] does with a listing array. *)
Lemma get_top_performers_listing (limit top : Z) (st st1 : State)
  (r : Response) (j : json) (l : list json) :
  _make_api_request listings_url (listings_params limit) st
    = (Ok (Some r), st1) ->
  body r = Some j ->
  getitem j "data" = Ok (JArr l) ->
  get_top_performers limit top st =
  match group_performers (firstn 100 l) top with
  | Ok p => (Ok (Some p), st1)
  | Exc e => (print (PTopError e) ;;; ret None) st1
  end.
Proof.
  intros Hreq Hbody Hdata.
  rewrite (get_top_performers_returned limit top st st1 r Hreq).
  unfold response_json, rank_performers. rewrite Hbody.
  cbn [rbind]. rewrite Hdata. cbn [rbind]. rewrite first_100_array.
  reflexivity.
Qed.

Lemma distinct_changes_firstn (n : nat) (fs : list Fields) :
  distinct_changes fs -> distinct_changes (firstn n fs).
Proof.
  unfold distinct_changes. intros H.
  rewrite <- (firstn_skipn n fs), map_app in H.
  exact (NoDup_app_remove_r _ _ H).
Qed.

Lemma descending_strict (ranked : list Fields) :
  distinct_changes ranked ->
  StronglySorted (fun a b => change_7d b <= change_7d a) ranked ->
  StronglySorted (fun a b => change_7d b < change_7d a) ranked.
Proof.
  unfold distinct_changes. intros Hd Hs.
  induction Hs as [| x l Hs IH Hx]; [constructor |].
  simpl in Hd. inversion Hd as [| ? ? Hnotin Hd']; subst.
  constructor; [apply IH, Hd' |].
  rewrite Forall_forall in *. intros y Hy.
  destruct (Qle_lt_or_eq _ _ (Hx y Hy)) as [Hlt | Heq]; [exact Hlt |].
  exfalso. apply Hnotin. apply Qred_complete in Heq. rewrite <- Heq.
  apply (in_map (fun f => Qred (change_7d f))). exact Hy.
Qed.

(** C3, as amended. On a listing whose records hold the required fields,
    with numeric ranks and distinct numeric 7-day changes, and for
    [1 <= top_k <=] the number of ranked records (the first 100 of the
    listing): [best] is the first [top_k] and [worst] the last [top_k] of
    the ranked records in strictly descending order of 7-day change, each of
    exactly [top_k] records, the worst ones left in descending order. *)
Theorem top_performers_groups (limit top : Z) (st st1 : State)
  (r : Response) (j : json) (l : list json) (fs : list Fields) :
  _make_api_request listings_url (listings_params limit) st
    = (Ok (Some r), st1) ->
  body r = Some j ->
  getitem j "data" = Ok (JArr l) ->
  Forall2 reads l fs ->
  Forall numeric fs ->
  distinct_changes fs ->
  (1 <= top <= Z.of_nat (List.length (firstn 100 fs)))%Z ->
  exists ranked,
    Permutation ranked (firstn 100 fs) /\
    StronglySorted (fun a b => change_7d b < change_7d a) ranked /\
    get_top_performers limit top st =
      (Ok (Some {| best := map performer_row_of (firstn (Z.to_nat top) ranked);
                   worst := map performer_row_of
                              (skipn (List.length ranked - Z.to_nat top) ranked) |}),
       st1) /\
    List.length (firstn (Z.to_nat top) ranked) = Z.to_nat top /\
    List.length (skipn (List.length ranked - Z.to_nat top) ranked) = Z.to_nat top.
Proof.
  intros Hreq Hbody Hdata Hr Hn Hd Htop.
  destruct (group_performers_numeric (firstn 100 l) (firstn 100 fs) top)
    as (ranked & HP & Hsorted & HG).
  { apply Forall2_firstn, Hr. }
  { rewrite <- (firstn_skipn 100 fs) in Hn. apply Forall_app in Hn. apply Hn. }
  assert (Hlen : List.length ranked = List.length (firstn 100 fs))
    by (apply Permutation_length, HP).
  exists ranked. split; [exact HP |]. split; [| split; [| split]].
  - apply descending_strict; [| exact Hsorted].
    unfold distinct_changes.
    apply (Permutation_NoDup
             (Permutation_map _ (Permutation_sym HP))).
    apply (distinct_changes_firstn 100 fs Hd).
  - rewrite (get_top_performers_listing limit top st st1 r j l Hreq Hbody Hdata).
    rewrite HG. unfold slice_upto, slice_from.
    replace (0 <=? top)%Z with true by (symmetry; apply Z.leb_le; lia).
    replace (0 <=? - top)%Z with false by (symmetry; apply Z.leb_gt; lia).
    rewrite Z.opp_involutive. reflexivity.
  - rewrite length_firstn. lia.
  - rewrite length_skipn. lia.
Qed.

Lemma reads_token_of (f : Fields) : reads (token_of f) f.
Proof.
  unfold reads, token_of. do 3 eexists. split; [reflexivity |].
  repeat (split; [reflexivity |]). simpl. destruct (f_c1y f); reflexivity.
Qed.

Lemma reads_map_token_of (fs : list Fields) : Forall2 reads (map token_of fs) fs.
Proof.
  induction fs as [| f fs IH]; simpl; constructor;
    [apply reads_token_of | exact IH].
Qed.

Lemma sample_listing_numeric : Forall numeric sample_listing.
Proof.
  repeat constructor; eexists; reflexivity.
Qed.

Lemma sample_listing_distinct : distinct_changes sample_listing.
Proof.
  unfold distinct_changes. vm_compute.
  repeat constructor; intros H; simpl in H; intuition discriminate.
Qed.

Lemma top_performers_groups_witness :
  (1 <= 2 <= Z.of_nat (List.length (firstn 100 sample_listing)))%Z /\
  exists ranked,
    Permutation ranked (firstn 100 sample_listing) /\
    StronglySorted (fun a b => change_7d b < change_7d a) ranked /\
    get_top_performers 100 2 (listing_state sample_listing) =
      (Ok (Some {| best := map performer_row_of (firstn (Z.to_nat 2) ranked);
                   worst := map performer_row_of
                              (skipn (List.length ranked - Z.to_nat 2) ranked) |}),
       snd (_make_api_request listings_url (listings_params 100)
              (listing_state sample_listing))) /\
    List.length (firstn (Z.to_nat 2) ranked) = Z.to_nat 2 /\
    List.length (skipn (List.length ranked - Z.to_nat 2) ranked) = Z.to_nat 2.
Proof.
  assert (Htop : (1 <= 2 <= Z.of_nat (List.length (firstn 100 sample_listing)))%Z)
    by (simpl; lia).
  split; [exact Htop |].
  apply (top_performers_groups 100 2 (listing_state sample_listing) _
           (ok_response (JObj [("data", JArr (map token_of sample_listing))]))
           (JObj [("data", JArr (map token_of sample_listing))])
           (map token_of sample_listing) sample_listing).
  - vm_compute. reflexivity.
  - reflexivity.
  - reflexivity.
  - apply reads_map_token_of.
  - apply sample_listing_numeric.
  - apply sample_listing_distinct.
  - exact Htop.
Defined.

(** Against C3 as worded: from a listing of three tokens with distinct 7-day
    changes, [top_k = 5] yields groups of three. *)
Lemma short_listing_yields_fewer :
  let fs := [listed "A" 1 3; listed "B" 2 5; listed "C" 3 (-1)] in
  distinct_changes fs /\
  exists p,
    fst (get_top_performers 100 5 (listing_state fs)) = Ok (Some p) /\
    List.length (best p) = 3%nat /\ List.length (worst p) = 3%nat /\
    List.length (best p) <> Z.to_nat 5.
Proof.
  cbv zeta. split.
  - unfold distinct_changes. vm_compute.
    repeat constructor; intros H; simpl in H; intuition discriminate.
  - eexists. split; [vm_compute; reflexivity |].
    repeat split. simpl. discriminate.
Qed.

(** ** What the ranking can pick from *)

Lemma rmap_length {A B} (f : A -> Res B) (xs : list A) (ys : list B) :
  rmap f xs = Ok ys -> List.length ys = List.length xs.
Proof.
  revert ys. induction xs as [| x xs IH]; simpl; intros ys H.
  - injection H as <-. reflexivity.
  - destruct (f x) as [y |]; [| discriminate]. simpl in H.
    destruct (rmap f xs) as [ys' |]; [| discriminate]. simpl in H.
    injection H as <-. simpl. rewrite (IH ys' eq_refl). reflexivity.
Qed.

Lemma rmap_In_result {A B} (f : A -> Res B) (xs : list A) (ys : list B) :
  rmap f xs = Ok ys ->
  forall y, In y ys -> exists x, In x xs /\ f x = Ok y.
Proof.
  revert ys. induction xs as [| x xs IH]; simpl; intros ys H y Hy.
  - injection H as <-. destruct Hy.
  - destruct (f x) as [y0 |] eqn:Ex; [| discriminate]. simpl in H.
    destruct (rmap f xs) as [ys' |]; [| discriminate]. simpl in H.
    injection H as <-. destruct Hy as [<- | Hy].
    + exists x. split; [left; reflexivity | exact Ex].
    + destruct (IH ys' eq_refl y Hy) as (x' & Hin & Hx').
      exists x'. split; [right; exact Hin | exact Hx'].
Qed.

Lemma rmap_In_source {A B} (f : A -> Res B) (xs : list A) (ys : list B) :
  rmap f xs = Ok ys ->
  forall x, In x xs -> exists y, f x = Ok y /\ In y ys.
Proof.
  revert ys. induction xs as [| x xs IH]; simpl; intros ys H x' Hx'.
  - destruct Hx'.
  - destruct (f x) as [y0 |] eqn:Ex; [| discriminate]. simpl in H.
    destruct (rmap f xs) as [ys' |]; [| discriminate]. simpl in H.
    injection H as <-. destruct Hx' as [<- | Hx'].
    + exists y0. split; [exact Ex | left; reflexivity].
    + destruct (IH ys' eq_refl x' Hx') as (y & Hy & Hin).
      exists y. split; [exact Hy | right; exact Hin].
Qed.

Lemma orderable_length (keys : list json) (ks : list sortkey) :
  orderable keys = Ok ks -> List.length ks = List.length keys.
Proof.
  destruct keys as [| k [| k' keys]]; unfold orderable.
  - intros [= <-]. reflexivity.
  - intros [= <-]. reflexivity.
  - destruct (as_sortkey k) as [s0 |]; [| discriminate].
    intros H. exact (rmap_length _ (k :: k' :: keys) ks H).
Qed.

Lemma map_snd_combine {A B} (xs : list A) :
  forall ys : list B,
    List.length xs = List.length ys -> map snd (combine xs ys) = ys.
Proof.
  induction xs as [| x xs IH]; intros [| y ys] H; simpl in *;
    try discriminate; [reflexivity |].
  rewrite IH; [reflexivity | lia].
Qed.

(** Whatever the keys, what [sorted] returns is a rearrangement of its
    argument. *)
Lemma py_sorted_perm {A} (key : A -> Res json) (reverse : bool)
  (xs ys : list A) :
  py_sorted key reverse xs = Ok ys -> Permutation ys xs.
Proof.
  unfold py_sorted.
  destruct (rmap key xs) as [keys |] eqn:Ek; [| discriminate]. simpl.
  destruct (orderable keys) as [ks |] eqn:Eo; [| discriminate]. simpl.
  intros [= <-].
  assert (Hlen : List.length ks = List.length xs).
  { rewrite (orderable_length _ _ Eo). exact (rmap_length _ _ _ Ek). }
  transitivity (map snd (combine ks xs));
    [| rewrite (map_snd_combine ks xs Hlen); reflexivity].
  apply Permutation_map. destruct reverse.
  - rewrite <- Permutation_rev, stable_sort_perm, <- Permutation_rev.
    reflexivity.
  - apply stable_sort_perm.
Qed.

Lemma In_firstn {A} (n : nat) (l : list A) (x : A) :
  In x (firstn n l) -> In x l.
Proof.
  intros H. rewrite <- (firstn_skipn n l). apply in_or_app. left. exact H.
Qed.

Lemma In_skipn {A} (n : nat) (l : list A) (x : A) :
  In x (skipn n l) -> In x l.
Proof.
  intros H. rewrite <- (firstn_skipn n l). apply in_or_app. right. exact H.
Qed.

Lemma In_slice_upto {A} (stop : Z) (l : list A) (x : A) :
  In x (slice_upto stop l) -> In x l.
Proof.
  unfold slice_upto. destruct (0 <=? stop)%Z; apply In_firstn.
Qed.

Lemma In_slice_from {A} (start : Z) (l : list A) (x : A) :
  In x (slice_from start l) -> In x l.
Proof.
  unfold slice_from. destruct (0 <=? start)%Z; apply In_skipn.
Qed.

(** The sequence from which the two groups are cut. *)
Lemma group_performers_inv (head : list json) (top : Z) (p : Performers) :
  group_performers head top = Ok p ->
  exists ranked,
    Permutation ranked head /\
    rmap performer_row (slice_upto top ranked) = Ok (best p) /\
    rmap performer_row (slice_from (- top) ranked) = Ok (worst p).
Proof.
  unfold group_performers. intros H.
  destruct (py_sorted _ false head) as [ys1 |] eqn:E1; [| discriminate].
  simpl in H.
  destruct (py_sorted _ true ys1) as [ys2 |] eqn:E2; [| discriminate].
  simpl in H.
  destruct (rmap performer_row (slice_upto top ys2)) as [b |] eqn:Eb;
    [| discriminate].
  simpl in H.
  destruct (rmap performer_row (slice_from (- top) ys2)) as [w |] eqn:Ew;
    [| discriminate].
  simpl in H. injection H as <-.
  exists ys2. split; [| split; [exact Eb | exact Ew]].
  transitivity ys1; eapply py_sorted_perm; eassumption.
Qed.

(** With at least one and fewer than [2 * top] elements, the first [top]
    and the last [top] share the element that opens the last [top]. *)
Lemma slices_overlap {A} (top : Z) (ranked : list A) :
  (1 <= List.length ranked)%nat ->
  (Z.of_nat (List.length ranked) < 2 * top)%Z ->
  exists x, In x (slice_upto top ranked) /\ In x (slice_from (- top) ranked).
Proof.
  intros Hne Hlt. unfold slice_upto, slice_from.
  replace (0 <=? top)%Z with true by (symmetry; apply Z.leb_le; lia).
  replace (0 <=? - top)%Z with false by (symmetry; apply Z.leb_gt; lia).
  rewrite Z.opp_involutive.
  set (k := Z.to_nat top). set (m := List.length ranked) in *.
  assert (Hk : (m < 2 * k)%nat) by (unfold k; lia).
  destruct (skipn (m - k) ranked) as [| x rest] eqn:Es.
  - exfalso. apply skipn_all_iff in Es. fold m in Es. lia.
  - exists x. split; [| left; reflexivity].
    assert (Hx : nth_error ranked (m - k) = Some x).
    { rewrite <- (firstn_skipn (m - k) ranked), nth_error_app2;
        rewrite length_firstn; fold m.
      - replace (m - k - Nat.min (m - k) m)%nat with 0%nat by lia.
        rewrite Es. reflexivity.
      - lia. }
    rewrite <- (firstn_skipn k ranked) in Hx.
    rewrite nth_error_app1 in Hx by (rewrite length_firstn; fold m; lia).
    exact (nth_error_In _ _ Hx).
Qed.

(** C10, as amended. Whatever [limit] was asked for, a returned pair of
    groups is computed from the first 100 entries of the data array: every
    record of [best] and [worst] is the row of one of these entries; and
    when the array holds at least one and fewer than [2 * top] entries, the
    two groups share a record. *)
Theorem ranking_uses_first_100 (limit top : Z) (st st1 : State)
  (r : Response) (j : json) (l : list json) (p : Performers) :
  _make_api_request listings_url (listings_params limit) st
    = (Ok (Some r), st1) ->
  body r = Some j ->
  getitem j "data" = Ok (JArr l) ->
  fst (get_top_performers limit top st) = Ok (Some p) ->
  group_performers (firstn 100 l) top = Ok p /\
  (forall row, In row (best p) \/ In row (worst p) ->
     exists entry, In entry (firstn 100 l) /\ performer_row entry = Ok row) /\
  ((1 <= List.length l)%nat ->
   (Z.of_nat (List.length l) < 2 * top)%Z ->
   exists row, In row (best p) /\ In row (worst p)).
Proof.
  intros Hreq Hbody Hdata Hres.
  rewrite (get_top_performers_listing limit top st st1 r j l Hreq Hbody Hdata)
    in Hres.
  destruct (group_performers (firstn 100 l) top) as [p' | e] eqn:EG;
    [| discriminate].
  simpl in Hres. injection Hres as ->.
  destruct (group_performers_inv _ _ _ EG) as (ranked & HP & Hb & Hw).
  split; [reflexivity |]. split.
  - intros row [Hrow | Hrow].
    + destruct (rmap_In_result _ _ _ Hb row Hrow) as (x & Hx & Ex).
      exists x. split; [| exact Ex].
      apply (Permutation_in _ HP), (In_slice_upto top), Hx.
    + destruct (rmap_In_result _ _ _ Hw row Hrow) as (x & Hx & Ex).
      exists x. split; [| exact Ex].
      apply (Permutation_in _ HP), (In_slice_from (- top)), Hx.
  - intros Hne Hlt.
    assert (Hlen : List.length ranked = Nat.min 100 (List.length l)).
    { rewrite (Permutation_length HP). apply length_firstn. }
    destruct (slices_overlap top ranked) as (x & Hxb & Hxw); [lia | lia |].
    destruct (rmap_In_source _ _ _ Hb x Hxb) as (row & Erow & Hrow).
    destruct (rmap_In_source _ _ _ Hw x Hxw) as (row' & Erow' & Hrow').
    rewrite Erow in Erow'. injection Erow' as <-.
    exists row. split; assumption.
Qed.

Lemma ranking_uses_first_100_witness :
  fst (get_top_performers 200 3 (listing_state sample_listing))
    = Ok (Some sample_groups) /\
  group_performers (firstn 100 (map token_of sample_listing)) 3
    = Ok sample_groups /\
  exists row, In row (best sample_groups) /\ In row (worst sample_groups).
Proof.
  assert (Hres : fst (get_top_performers 200 3 (listing_state sample_listing))
                 = Ok (Some sample_groups)) by (vm_compute; reflexivity).
  split; [exact Hres |].
  destruct (ranking_uses_first_100 200 3 (listing_state sample_listing)
              (snd (_make_api_request listings_url (listings_params 200)
                      (listing_state sample_listing)))
              (ok_response (JObj [("data", JArr (map token_of sample_listing))]))
              (JObj [("data", JArr (map token_of sample_listing))])
              (map token_of sample_listing) sample_groups)
    as (Hg & _ & Hshare).
  - vm_compute. reflexivity.
  - reflexivity.
  - reflexivity.
  - exact Hres.
  - split; [exact Hg |]. apply Hshare; simpl; lia.
Defined.

(** Against C10 as worded: an empty data array holds fewer than [2 * top]
    entries, and the two groups, both empty, share nothing. *)
Lemma empty_listing_shares_nothing :
  let st := listing_state [] in
  (Z.of_nat (List.length (@nil json)) < 2 * 5)%Z /\
  fst (get_top_performers 100 5 st) = Ok (Some {| best := []; worst := [] |}) /\
  forall p, fst (get_top_performers 100 5 st) = Ok (Some p) ->
            ~ exists row, In row (best p) /\ In row (worst p).
Proof.
  cbv zeta.
  assert (H : fst (get_top_performers 100 5 (listing_state []))
              = Ok (Some {| best := []; worst := [] |}))
    by (vm_compute; reflexivity).
  split; [simpl; lia |]. split; [exact H |].
  intros p Hp. rewrite H in Hp. injection Hp as <-.
  intros (row & Hb & _). destruct Hb.
Qed.

(** ** Two behaviours next to the statements above *)

(** After a 401 of another kind the pipeline hands [None] to its caller:
    [get_top_performers] tests for it at line 101, [get_token_data] does
    not and fails on [None.json()] at line 69. *)
Example none_response_in_the_two_clients :
  let st := fresh_state [Responds (unauthorized "API key missing.")] in
  fst (get_top_performers 100 5 st) = Ok None /\
  fst (get_token_data ["BTC"] st) = Exc AttributeError.
Proof.
  vm_compute. split; reflexivity.
Qed.

(** With [top = 0] the slice [[-0:]] is the whole sequence: [worst] holds
    every ranked record. *)
Example top_zero_worst_is_everything :
  exists p,
    fst (get_top_performers 100 0 (listing_state sample_listing)) = Ok (Some p) /\
    best p = [] /\ List.length (worst p) = 5%nat.
Proof.
  eexists. split; [vm_compute; reflexivity |]. split; reflexivity.
Qed.

(** * Further properties of the code *)

(** ** The rate limiter at the edges of its budget *)

Lemma rate_limit_check_zero (st : State) :
  rate_limit st = 0%Z ->
  exists st',
    _rate_limit_check st = (Exc ZeroDivisionError, st') /\
    rate_limit st' = rate_limit st /\
    last_request_time st' = last_request_time st /\
    wire st' = wire st /\ dice st' = dice st /\ log st' = log st.
Proof.
  intros H0. apply Z.eqb_eq in H0.
  unfold _rate_limit_check. run_monad. rewrite H0.
  eexists. repeat split; reflexivity.
Qed.

(** With a budget of zero, line 26 divides by zero before any request is
    sent: the pipeline raises ZeroDivisionError without an HTTP call,
    [get_token_data] lets it through and [get_top_performers] prints it and
    returns [None]. *)
Theorem zero_budget_blocks_every_request (url : string)
  (params : list (string * json)) (symbols : list string) (limit top : Z)
  (st : State) :
  rate_limit st = 0%Z ->
  (exists st',
      _make_api_request url params st = (Exc ZeroDivisionError, st') /\
      log st' = log st /\ wire st' = wire st) /\
  fst (get_token_data symbols st) = Exc ZeroDivisionError /\
  (exists st',
      get_top_performers limit top st = (Ok None, st') /\
      log st' = log st ++ [EvPrint (PTopError ZeroDivisionError)] /\
      wire st' = wire st).
Proof.
  intros H0.
  assert (Hrun : forall u p, exists st',
             _make_api_request u p st = (Exc ZeroDivisionError, st') /\
             log st' = log st /\ wire st' = wire st).
  { intros u p.
    destruct (rate_limit_check_zero st H0) as (st1 & E & _ & _ & W & _ & L).
    exists st1. split; [| split; assumption].
    unfold _make_api_request, max_retries. cbn [retry_loop].
    unfold attempt_body, bind at 1. rewrite E. reflexivity. }
  split; [apply Hrun |]. split.
  - destruct (Hrun quotes_url (quotes_params symbols)) as (st1 & E & _).
    rewrite (get_token_data_raised symbols st st1 _ E). reflexivity.
  - destruct (Hrun listings_url (listings_params limit)) as (st1 & E & L & W).
    rewrite (get_top_performers_raised limit top st st1 _ E).
    eexists. split; [reflexivity |]. simpl. rewrite L, W. split; reflexivity.
Qed.

Lemma zero_budget_blocks_every_request_witness :
  let st := {| rate_limit := 0; last_request_time := 0; now := 1700000000;
               lags := []; wire := [server_error]; dice := []; log := [] |} in
  fst (get_token_data ["BTC"] st) = Exc ZeroDivisionError /\
  fst (get_top_performers 100 5 st) = Ok None.
Proof.
  cbv zeta.
  destruct (zero_budget_blocks_every_request "u" [] ["BTC"] 100 5
              {| rate_limit := 0; last_request_time := 0; now := 1700000000;
                 lags := []; wire := [server_error]; dice := []; log := [] |}
              eq_refl) as (_ & Hq & st' & Ht & _).
  split; [exact Hq |]. rewrite Ht. reflexivity.
Defined.

Lemma negative_interval (n : Z) : (n < 0)%Z -> 60 / inject_Z n < 0.
Proof.
  destruct n as [| p | p]; intros H; try lia.
  unfold Qdiv, Qinv, Qmult, Qlt, inject_Z. simpl. lia.
Qed.

(** With a negative budget the interval [60 / rate_limit] is negative, so
    once the clock has reached the last permitted time the limiter never
    sleeps: a negative budget switches rate limiting off. *)
Theorem negative_budget_never_sleeps (st : State) :
  (rate_limit st < 0)%Z ->
  lags_ok st ->
  last_request_time st <= now st ->
  exists st',
    _rate_limit_check st = (Ok tt, st') /\
    log st' = log st /\
    last_request_time st' = now st' /\
    now st' == now st + hd 0 (lags st) + hd 0 (tl (lags st)).
Proof.
  intros Hneg Hl Hle.
  pose proof (negative_interval _ Hneg) as Hi.
  pose proof (hd_lags_nonneg _ Hl) as H0.
  assert (Hrl : (rate_limit st =? 0)%Z = false) by (apply Z.eqb_neq; lia).
  unfold _rate_limit_check. run_monad. rewrite Hrl.
  destruct (Qlt_le_dec _ _) as [Hlt | Hge]; simpl.
  - exfalso. lra.
  - eexists. repeat split; try reflexivity. simpl. ring.
Qed.

Lemma negative_budget_never_sleeps_witness :
  let st := {| rate_limit := -30; last_request_time := 1000; now := 1000;
               lags := [1 # 10]; wire := []; dice := []; log := [] |} in
  exists st',
    _rate_limit_check st = (Ok tt, st') /\
    log st' = log st /\
    last_request_time st' = now st' /\
    now st' == now st + hd 0 (lags st) + hd 0 (tl (lags st)).
Proof.
  cbv zeta. apply negative_budget_never_sleeps.
  - reflexivity.
  - unfold lags_ok; simpl. repeat constructor. discriminate.
  - simpl. apply Qle_refl.
Defined.



(** ** More on the retry loop *)

(** After any number of retried attempts, the first response that is neither
    a 401 nor a 4xx/5xx is returned as it is, whatever its status; each
    failed attempt before it cost one call and one backoff sleep. *)
Theorem response_returned_after_retries (url : string)
  (params : list (string * json)) (st : State) (pre : list Outcome)
  (r : Response) (w : list Outcome) :
  rate_limit st <> 0%Z ->
  dice_ok st ->
  wire st = pre ++ Responds r :: w ->
  forallb retried pre = true ->
  (List.length pre < max_retries)%nat ->
  (status_code r < 400 \/ 600 <= status_code r)%Z ->
  exists st' evs,
    _make_api_request url params st = (Ok (Some r), st') /\
    wire st' = w /\
    log st' = log st ++ evs /\
    skeleton evs = failed_attempts 0 (List.length pre) (dice st) ++ [Call] /\
    http_calls evs = (List.length pre + 1)%nat /\
    backoff_sleeps evs = List.length pre.
Proof.
  intros Hrl Hd Hw Hp Hlen Hst.
  assert (H401 : status_code r <> 401%Z) by lia.
  assert (Hok : raise_for_status r = Ok tt).
  { unfold raise_for_status.
    destruct (400 <=? status_code r)%Z eqn:E4; [| reflexivity].
    destruct (status_code r <? 600)%Z eqn:E6; [| reflexivity].
    apply Z.leb_le in E4. apply Z.ltb_lt in E6. lia. }
  destruct (make_api_request_prefix url params st pre _ Hrl Hd Hw Hp Hlen)
    as (st1 & evs1 & todo & E1 & Hrl1 & Hd1 & (R1 & W1 & D1 & L1) & S1).
  destruct (attempt_returned url params st1 r w Hrl1 W1 H401 Hok)
    as (st2 & rs & E2 & Hrs & (R2 & W2 & D2 & L2)).
  exists st2, (evs1 ++ rs ++ [EvGet url params]).
  assert (Hs : skeleton (evs1 ++ rs ++ [EvGet url params])
               = failed_attempts 0 (List.length pre) (dice st) ++ [Call]).
  { rewrite !skeleton_app, S1, (skeleton_rate_sleeps rs Hrs). reflexivity. }
  split; [| split; [| split; [| split]]].
  - rewrite E1. cbn [retry_loop]. rewrite E2. reflexivity.
  - exact W2.
  - rewrite L2, L1, <- app_assoc. reflexivity.
  - exact Hs.
  - exact (failed_attempts_then_call _ _ _ _ Hs).
Qed.

Lemma response_returned_after_retries_witness :
  exists st' evs,
    _make_api_request "u" []
      (fresh_state [server_error; Fails TimedOut;
                    Responds (ok_response (JObj [])); server_error])
      = (Ok (Some (ok_response (JObj []))), st') /\
    wire st' = [server_error] /\
    log st' = [] ++ evs /\
    skeleton evs = failed_attempts 0 2 [1 # 2; 1 # 4; 3 # 4; 0; 1 # 8] ++ [Call] /\
    http_calls evs = 3%nat /\
    backoff_sleeps evs = 2%nat.
Proof.
  apply (response_returned_after_retries "u" [] (fresh_state _)
           [server_error; Fails TimedOut] (ok_response (JObj []))
           [server_error]).
  - discriminate.
  - apply fresh_state_dice_ok.
  - reflexivity.
  - reflexivity.
  - unfold max_retries. simpl. lia.
  - left. simpl. lia.
Defined.

Lemma total_backoff_app (l1 l2 : list Step) :
  total_backoff (l1 ++ l2) == total_backoff l1 + total_backoff l2.
Proof.
  induction l1 as [| s l1 IH]; simpl; [ring |].
  destruct s; [exact IH | rewrite IH; ring].
Qed.

Lemma pow2_split (a n : nat) :
  (2 ^ Z.of_nat a * (2 ^ Z.of_nat (S n) - 1)
   = 2 ^ Z.of_nat a + 2 ^ Z.of_nat (S a) * (2 ^ Z.of_nat n - 1))%Z.
Proof.
  rewrite !Nat2Z.inj_succ, !Z.pow_succ_r by lia. ring.
Qed.

(** The backoff of [n] failed attempts in a row, from attempt [a] on: the
    powers of two add up, and each jitter adds at most a second. *)
Lemma total_backoff_failed_attempts (n : nat) :
  forall (a : nat) (js : list Q),
    (a + n <= 52)%nat ->
    Forall (fun u => 0 <= u /\ u < 1) js ->
    inject_Z (2 ^ Z.of_nat a * (2 ^ Z.of_nat n - 1))
      <= total_backoff (failed_attempts a n js) /\
    total_backoff (failed_attempts a n js)
      <= inject_Z (2 ^ Z.of_nat a * (2 ^ Z.of_nat n - 1)) + inject_Z (Z.of_nat n).
Proof.
  induction n as [| n IH]; intros a js Han Hjs.
  - simpl. rewrite Z.mul_0_r. split; apply Qle_refl.
  - cbn [failed_attempts total_backoff].
    assert (Hu : 0 <= hd 0 js /\ hd 0 js < 1)
      by (destruct Hjs; simpl; [split; [apply Qle_refl | reflexivity] | assumption]).
    assert (Htl : Forall (fun u => 0 <= u /\ u < 1) (tl js))
      by (destruct Hjs; simpl; [constructor | assumption]).
    destruct (IH (S a) (tl js) ltac:(lia) Htl) as [Hlo Hhi].
    destruct (backoff_delay_range a (hd 0 js) ltac:(lia) (proj1 Hu) (proj2 Hu))
      as [Dlo Dhi].
    unfold base_delay in Dlo, Dhi. rewrite Z.mul_1_l in Dlo, Dhi.
    rewrite pow2_split, inject_Z_plus.
    rewrite (Nat2Z.inj_succ n). unfold Z.succ at 1.
    rewrite (inject_Z_plus (Z.of_nat n) 1).
    change (inject_Z 1) with 1.
    split; lra.
Qed.

(** A run that exhausts its attempts has slept between 15 and 19 seconds of
    backoff in all: 1 + 2 + 4 + 8 seconds and four jitters, each rounded
    with its power of two to at most one second more. *)
Theorem exhausted_run_backoff_time (url : string)
  (params : list (string * json)) (st : State) (pre : list Outcome)
  (o : Outcome) (w : list Outcome) :
  rate_limit st <> 0%Z ->
  dice_ok st ->
  wire st = pre ++ o :: w ->
  forallb retried (pre ++ [o]) = true ->
  S (List.length pre) = max_retries ->
  exists st' evs e,
    _make_api_request url params st = (Exc e, st') /\
    log st' = log st ++ evs /\
    backoff_sleeps evs = 4%nat /\
    15 <= total_backoff (skeleton evs) /\
    total_backoff (skeleton evs) <= 19.
Proof.
  intros Hrl Hd Hw Ht Hlen.
  rewrite forallb_app in Ht. apply andb_prop in Ht as [Hp Ho].
  simpl in Ho. rewrite andb_true_r in Ho.
  assert (Hlt : (List.length pre < max_retries)%nat) by lia.
  assert (Hl4 : List.length pre = 4%nat) by (unfold max_retries in Hlen; lia).
  destruct (make_api_request_prefix url params st pre _ Hrl Hd Hw Hp Hlt)
    as (st1 & evs1 & todo & E1 & Hrl1 & Hd1 & (R1 & W1 & D1 & L1) & S1).
  destruct (attempt_retried url params st1 o w Hrl1 W1 Ho)
    as (st2 & rs & E2 & Hrs & (R2 & W2 & D2 & L2)).
  exists st2, (evs1 ++ rs ++ [EvGet url params]), (retried_exn o).
  assert (Hsk : skeleton (evs1 ++ rs ++ [EvGet url params])
                = failed_attempts 0 4 (dice st) ++ [Call]).
  { rewrite !skeleton_app, S1, (skeleton_rate_sleeps rs Hrs), Hl4.
    reflexivity. }
  split; [| split; [| split]].
  - rewrite E1. cbn [retry_loop].
    rewrite E2, retried_is_RequestException, Hl4. reflexivity.
  - rewrite L2, L1, <- app_assoc. reflexivity.
  - apply (failed_attempts_then_call 0 4 (dice st)). exact Hsk.
  - rewrite Hsk, total_backoff_app.
    destruct (total_backoff_failed_attempts 4 0 (dice st) ltac:(lia) Hd)
      as [Hlo Hhi].
    change (inject_Z (2 ^ Z.of_nat 0 * (2 ^ Z.of_nat 4 - 1))) with 15 in *.
    change (inject_Z (Z.of_nat 4)) with 4 in Hhi.
    simpl (total_backoff [Call]).
    split; lra.
Qed.

Lemma exhausted_run_backoff_time_witness :
  exists st' evs e,
    _make_api_request "u" [] outage_state = (Exc e, st') /\
    log st' = log outage_state ++ evs /\
    backoff_sleeps evs = 4%nat /\
    15 <= total_backoff (skeleton evs) /\
    total_backoff (skeleton evs) <= 19.
Proof.
  apply (exhausted_run_backoff_time "u" [] outage_state
           [server_error; server_error; server_error; server_error]
           server_error []).
  - discriminate.
  - apply fresh_state_dice_ok.
  - reflexivity.
  - reflexivity.
  - reflexivity.
Defined.

(** The upper end is met: with the largest draw four times the sleeps are
    2, 3, 5 and 9 seconds. *)
Example full_jitter_run_sleeps_19_seconds :
  total_backoff (skeleton (log (snd (_make_api_request "u" []
                                        full_jitter_state)))) == 19.
Proof. vm_compute. reflexivity. Qed.

(** ** Every run of the pipeline *)

Lemma attempt_body_classify (url : string) (params : list (string * json)) :
  attempt_body url params =
  (_rate_limit_check ;;;
   response <- requests_get url params ;;
   classify_response response)%py.
Proof. reflexivity. Qed.

Lemma only_logged_refl (st : State) : only_logged st st [].
Proof.
  unfold only_logged. rewrite app_nil_r. repeat split; reflexivity.
Qed.

(** Classifying a response touches nothing but the log, where it leaves at
    most the API error message. *)
Lemma classify_response_only_logs (response : Response) (st st' : State)
  (res : Res (option Response)) :
  classify_response response st = (res, st') ->
  exists evs, only_logged st st' evs /\ skeleton evs = [].
Proof.
  unfold classify_response.
  destruct (status_code response =? 401)%Z.
  - run_monad.
    destruct (response_json response) as [j |]; simpl;
      [| intros [= <- <-]; exists []; split;
         [apply only_logged_refl | reflexivity]].
    destruct (dict_get j "status" (JObj [])) as [s |]; simpl;
      [| intros [= <- <-]; exists []; split;
         [apply only_logged_refl | reflexivity]].
    destruct (dict_get s "error_message" (JStr "Unauthorized")) as [m |]; simpl;
      [| intros [= <- <-]; exists []; split;
         [apply only_logged_refl | reflexivity]].
    destruct (py_contains invalid_key_marker m) as [[|] |]; simpl;
      intros [= <- <-]; exists [EvPrint (PApiError m)];
      repeat split; reflexivity.
  - run_monad. destruct (raise_for_status response); simpl;
      intros [= <- <-]; exists []; split;
      solve [apply only_logged_refl | reflexivity].
Qed.

(** One call of the limiter with a non-zero budget: what it leaves alone,
    and, on a clock that does not run backwards, its timing. *)
Lemma rate_limit_check_full (st : State) :
  rate_limit st <> 0%Z ->
  exists st' rs,
    _rate_limit_check st = (Ok tt, st') /\
    forallb is_rate_sleep rs = true /\
    frame st st' (wire st) (dice st) rs /\
    (lags_ok st ->
     lags_ok st' /\ now st <= now st' /\
     last_request_time st' = now st' /\
     last_request_time st + 60 / inject_Z (rate_limit st)
       <= last_request_time st').
Proof.
  intros Hrl.
  destruct (rate_limit_check_frame st Hrl)
    as (st1 & E & R & W & D & rs & L & Hrs).
  exists st1, rs. split; [exact E |]. split; [exact Hrs |].
  split; [repeat split; assumption |].
  intros Hl.
  destruct (rate_limit_check_timing st Hrl Hl)
    as (st2 & E2 & _ & L2 & M2 & N2 & G2).
  rewrite E in E2. injection E2 as <-.
  repeat split; assumption.
Qed.

(** One attempt, whatever it meets: with a budget of zero it stops before
    the request; otherwise it makes exactly one HTTP call, reads one outcome
    off the wire and lets the limiter move the permitted time on by an
    interval. *)
Lemma attempt_body_trace (url : string) (params : list (string * json))
  (st st' : State) (res : Res (option Response)) :
  attempt_body url params st = (res, st') ->
  (rate_limit st = 0%Z /\ res = Exc ZeroDivisionError /\
   log st' = log st /\ wire st' = wire st /\
   rate_limit st' = rate_limit st) \/
  (rate_limit st <> 0%Z /\
   exists evs,
     log st' = log st ++ evs /\ skeleton evs = [Call] /\
     wire st' = tl (wire st) /\ rate_limit st' = rate_limit st /\
     (lags_ok st ->
      lags_ok st' /\ now st <= now st' /\
      last_request_time st + 60 / inject_Z (rate_limit st)
        <= last_request_time st')).
Proof.
  intros Hrun.
  destruct (Z.eq_dec (rate_limit st) 0) as [H0 | Hrl].
  - left. destruct (rate_limit_check_zero st H0) as (st1 & E & R & _ & W & _ & L).
    rewrite attempt_body_classify in Hrun. unfold bind at 1 in Hrun.
    rewrite E in Hrun. injection Hrun as <- <-. repeat split; assumption.
  - right. split; [exact Hrl |].
    destruct (rate_limit_check_full st Hrl)
      as (st1 & rs & E & Hrs & (R & W & D & L) & Hclock).
    rewrite attempt_body_classify in Hrun. unfold bind at 1 in Hrun.
    rewrite E in Hrun. unfold bind at 1 in Hrun.
    destruct (requests_get url params st1) as [got st2] eqn:Eget.
    assert (Hget : log st2 = log st1 ++ [EvGet url params] /\
                   wire st2 = tl (wire st1) /\
                   rate_limit st2 = rate_limit st1 /\
                   last_request_time st2 = last_request_time st1 /\
                   now st2 = now st1 + hd 0 (lags st1) + 0 /\
                   lags st2 = tl (lags st1)).
    { revert Eget. run_monad.
      destruct (wire st1) as [| [f | r] w]; intros [= <- <-];
        repeat split; reflexivity. }
    destruct Hget as (L2 & W2 & R2 & T2 & N2 & G2).
    assert (Hend : exists tail,
               only_logged st2 st' tail /\ skeleton tail = []).
    { destruct got as [response | e].
      - exact (classify_response_only_logs response st2 st' res Hrun).
      - injection Hrun as <- <-. exists [].
        split; [apply only_logged_refl | reflexivity]. }
    destruct Hend as (tail & (R3 & T3 & N3 & G3 & W3 & D3 & L3) & Htail).
    exists (rs ++ [EvGet url params] ++ tail).
    split; [| split; [| split; [| split]]].
    + rewrite L3, L2, L, <- !app_assoc. reflexivity.
    + rewrite !skeleton_app, (skeleton_rate_sleeps rs Hrs), Htail. reflexivity.
    + rewrite W3, W2, W. reflexivity.
    + rewrite R3, R2, R. reflexivity.
    + intros Hl. destruct (Hclock Hl) as (Hl1 & Hn1 & Hm1 & Hg1).
      unfold lags_ok in *. rewrite G3, G2, N3, N2, T3, T2.
      pose proof (hd_lags_nonneg _ Hl1) as Hh.
      split; [apply tl_lags_nonneg, Hl1 |]. split; [lra | exact Hg1].
Qed.

Lemma http_calls_app (l1 l2 : list Event) :
  http_calls (l1 ++ l2) = (http_calls l1 + http_calls l2)%nat.
Proof.
  unfold http_calls. rewrite skeleton_app, filter_app, length_app. reflexivity.
Qed.

Lemma backoff_sleeps_app (l1 l2 : list Event) :
  backoff_sleeps (l1 ++ l2) = (backoff_sleeps l1 + backoff_sleeps l2)%nat.
Proof.
  unfold backoff_sleeps. rewrite skeleton_app, filter_app, length_app.
  reflexivity.
Qed.

Lemma one_call (evs : list Event) :
  skeleton evs = [Call] -> http_calls evs = 1%nat /\ backoff_sleeps evs = 0%nat.
Proof.
  unfold http_calls, backoff_sleeps. intros ->. split; reflexivity.
Qed.

Section EveryRun.
Variables (url : string) (params : list (string * json)).

(** The loop from any attempt on, whatever the world does. *)
Lemma retry_loop_trace (todo : nat) :
  forall (attempt : nat) (st st' : State) (res : Res (option Response)),
    (attempt + todo = max_retries)%nat ->
    retry_loop url params attempt todo st = (res, st') ->
    exists evs,
      log st' = log st ++ evs /\
      (http_calls evs <= todo)%nat /\
      (backoff_sleeps evs <= todo - 1)%nat /\
      wire st' = skipn (http_calls evs) (wire st) /\
      rate_limit st' = rate_limit st /\
      (rate_limit st <> 0%Z -> lags_ok st ->
       ((1 <= todo)%nat -> (1 <= http_calls evs)%nat) /\
       lags_ok st' /\ now st <= now st' /\
       last_request_time st
         + inject_Z (Z.of_nat (http_calls evs)) * (60 / inject_Z (rate_limit st))
         <= last_request_time st').
Proof.
  induction todo as [| todo IH]; intros attempt st st' res Hsum Hrun.
  - injection Hrun as <- <-. exists []. rewrite app_nil_r.
    repeat split; try reflexivity; try lia.
    + assumption.
    + apply Qle_refl.
    + change (inject_Z (Z.of_nat (http_calls []))) with 0.
      rewrite Qmult_0_l, Qplus_0_r. apply Qle_refl.
  - cbn [retry_loop] in Hrun.
    destruct (attempt_body url params st) as [r1 st1] eqn:Ea.
    destruct (attempt_body_trace url params st st1 r1 Ea)
      as [(H0 & -> & L1 & W1 & R1) | (Hrl & evs1 & L1 & S1 & W1 & R1 & Hclock)].
    + (* a budget of zero: nothing was sent *)
      simpl in Hrun. injection Hrun as <- <-. exists []. rewrite app_nil_r.
      split; [exact L1 |]. split; [unfold http_calls; simpl; lia |].
      split; [unfold backoff_sleeps; simpl; lia |].
      split; [exact W1 |]. split; [exact R1 |].
      intros Hn. contradiction.
    + destruct (one_call evs1 S1) as [Hc1 Hb1].
      assert (Hstop : res = r1 -> st' = st1 ->
                exists evs,
                  log st' = log st ++ evs /\
                  (http_calls evs <= S todo)%nat /\
                  (backoff_sleeps evs <= S todo - 1)%nat /\
                  wire st' = skipn (http_calls evs) (wire st) /\
                  rate_limit st' = rate_limit st /\
                  (rate_limit st <> 0%Z -> lags_ok st ->
                   ((1 <= S todo)%nat -> (1 <= http_calls evs)%nat) /\
                   lags_ok st' /\ now st <= now st' /\
                   last_request_time st
                     + inject_Z (Z.of_nat (http_calls evs))
                       * (60 / inject_Z (rate_limit st))
                     <= last_request_time st')).
      { intros _ ->. exists evs1. rewrite Hc1, Hb1.
        split; [exact L1 |]. split; [lia |]. split; [lia |].
        split; [destruct (wire st); exact W1 |]. split; [exact R1 |].
        intros _ Hl. destruct (Hclock Hl) as (Hl1 & Hn1 & Hg1).
        split; [lia |]. split; [exact Hl1 |]. split; [exact Hn1 |].
        change (inject_Z (Z.of_nat 1)) with 1. rewrite Qmult_1_l. exact Hg1. }
      destruct r1 as [v | e].
      { injection Hrun as <- <-. apply Hstop; reflexivity. }
      destruct (is_RequestException e);
        [| injection Hrun as <- <-; apply Hstop; reflexivity].
      destruct (Nat.eqb attempt (max_retries - 1)) eqn:Elast;
        [injection Hrun as <- <-; apply Hstop; reflexivity |].
      apply Nat.eqb_neq in Elast.
      assert (Htodo : (1 <= todo)%nat) by lia.
      clear Hstop. revert Hrun. run_monad.
      destruct (Qlt_le_dec (backoff_delay attempt (hd 0 (dice st1))) 0)
        as [Hneg | Hpos]; simpl.
      * (* the sleep refuses a negative delay *)
        intros [= <- <-].
        exists (evs1 ++ [EvPrint (PRetry (attempt + 1) max_retries
                                    (backoff_delay attempt (hd 0 (dice st1))))]).
        rewrite http_calls_app, backoff_sleeps_app, Hc1, Hb1. simpl.
        split; [rewrite L1, <- app_assoc; reflexivity |].
        split; [unfold http_calls; simpl; lia |].
        split; [unfold backoff_sleeps; simpl; lia |].
        split; [unfold http_calls; simpl; destruct (wire st); exact W1 |].
        split; [exact R1 |].
        intros _ Hl. destruct (Hclock Hl) as (Hl1 & Hn1 & Hg1).
        split; [unfold http_calls; simpl; lia |].
        split; [exact Hl1 |]. split; [exact Hn1 |].
        unfold http_calls; simpl.
        change (inject_Z (Z.of_nat 1)) with 1. rewrite Qmult_1_l. exact Hg1.
      * intros Hrun.
        apply (IH (S attempt)) in Hrun; [| lia].
        destruct Hrun as (evs2 & L2 & C2 & B2 & W2 & R2 & Hclock2).
        simpl in L2, W2, R2, Hclock2.
        exists (evs1 ++
                [EvPrint (PRetry (attempt + 1) max_retries
                            (backoff_delay attempt (hd 0 (dice st1))));
                 EvSleepBackoff (backoff_delay attempt (hd 0 (dice st1)))]
                ++ evs2).
        rewrite !http_calls_app, !backoff_sleeps_app, Hc1, Hb1.
        change (http_calls [EvPrint _; EvSleepBackoff _]) with 0%nat.
        change (backoff_sleeps [EvPrint _; EvSleepBackoff _]) with 1%nat.
        split; [rewrite L2, L1, <- !app_assoc; reflexivity |].
        split; [lia |]. split; [lia |].
        split; [rewrite W2, W1; simpl; destruct (wire st);
                [rewrite skipn_nil; reflexivity | reflexivity] |].
        split; [rewrite R2; exact R1 |].
        intros _ Hl. destruct (Hclock Hl) as (Hl1 & Hn1 & Hg1).
        rewrite R1 in Hclock2.
        destruct Hclock2 as (_ & Hl2 & Hn2 & Hg2); [exact Hrl | |].
        { unfold lags_ok in *. simpl. apply tl_lags_nonneg, Hl1. }
        simpl in Hn2, Hg2.
        pose proof (hd_lags_nonneg _ Hl1) as Hh.
        split; [lia |]. split; [exact Hl2 |]. split; [lra |].
        replace (Z.of_nat (1 + (0 + http_calls evs2)))
          with (1 + Z.of_nat (http_calls evs2))%Z by lia.
        rewrite inject_Z_plus. change (inject_Z 1) with 1.
        set (g := 60 / inject_Z (rate_limit st)) in *.
        set (k := inject_Z (Z.of_nat (http_calls evs2))) in *.
        assert (Hexp : (1 + k) * g == g + k * g) by ring.
        rewrite Hexp. lra.
Qed.
End EveryRun.

(** ** The delay before the next attempt *)

(** C7, as amended.  When attempt number [a] is retried and is not the last
    one, the run goes on: [a] failed attempts with their sleeps, then the
    call of attempt [a] and a backoff sleep.  The delay slept is the
    binary64 sum of [base_delay * 2^a] and the [a]-th jitter draw, each
    attempt taking a draw of its own: it is within half a unit in the last
    place of the exact sum, and with the draw in [0, 1) it lies in the
    closed interval from [base_delay * 2^a] to [base_delay * 2^a + 1]. *)
Theorem backoff_delay_of_attempt (url : string) (params : list (string * json))
  (st : State) (pre : list Outcome) (o : Outcome) (w : list Outcome) :
  rate_limit st <> 0%Z ->
  dice_ok st ->
  wire st = pre ++ o :: w ->
  forallb retried (pre ++ [o]) = true ->
  (S (List.length pre) < max_retries)%nat ->
  let a := List.length pre in
  let jitter := nth a (dice st) 0 in
  let exact := inject_Z (base_delay * 2 ^ Z.of_nat a) + jitter in
  exists evs rest,
    log (snd (_make_api_request url params st)) = log st ++ evs /\
    skeleton evs =
      failed_attempts 0 a (dice st)
        ++ [Call; Backoff (backoff_delay a jitter)] ++ rest /\
    backoff_delay a jitter = round64 exact /\
    exact - pow2 (Z.of_nat a - 53) <= backoff_delay a jitter /\
    backoff_delay a jitter <= exact + pow2 (Z.of_nat a - 53) /\
    inject_Z (base_delay * 2 ^ Z.of_nat a) <= backoff_delay a jitter /\
    backoff_delay a jitter <= inject_Z (base_delay * 2 ^ Z.of_nat a) + 1.
Proof.
  intros Hrl Hd Hw Hp Hlen a jitter exact.
  assert (Hw' : wire st = (pre ++ [o]) ++ w)
    by (rewrite <- app_assoc; exact Hw).
  assert (Hl : List.length (pre ++ [o]) = S a)
    by (rewrite length_app; simpl; unfold a; lia).
  set (todo := (max_retries - S a)%nat).
  assert (Hsum : (S a + todo = max_retries)%nat) by (unfold todo; lia).
  destruct (retry_prefix url params (pre ++ [o]) 0 todo st w Hrl Hd Hw' Hp)
    as (st1 & evs1 & E1 & (_ & _ & _ & L1) & Hsk); [rewrite Hl; lia |].
  rewrite Hl in *. cbn [Nat.add] in E1.
  destruct (retry_loop url params (S a) todo st1) as [res st2] eqn:E2.
  destruct (retry_loop_trace url params todo (S a) st1 st2 res Hsum E2)
    as (evs2 & L2 & _).
  assert (Ha : (a <= 51)%nat) by (unfold max_retries in Hlen; fold a in Hlen; lia).
  destruct (dice_nth_range st a Hd) as [H0 H1]. fold jitter in H0, H1.
  destruct (backoff_delay_range a jitter Ha H0 H1) as [Hlo Hhi].
  destruct (backoff_delay_near a jitter Ha H0 H1) as [Hn1 Hn2].
  exists (evs1 ++ evs2), (skeleton evs2).
  split; [| split; [| repeat split; assumption]].
  - unfold _make_api_request. rewrite <- Hsum. cbn [Nat.add].
    rewrite E1. cbn [snd]. rewrite L2, L1, app_assoc. reflexivity.
  - rewrite skeleton_app, Hsk, failed_attempts_snoc, <- app_assoc.
    reflexivity.
Qed.

Lemma backoff_delay_of_attempt_witness :
  exists evs rest,
    log (snd (_make_api_request "u" []
                (fresh_state [server_error; Fails TimedOut; server_error])))
      = [] ++ evs /\
    skeleton evs =
      failed_attempts 0 1 [1 # 2; 1 # 4; 3 # 4; 0; 1 # 8]
        ++ [Call; Backoff (backoff_delay 1 (1 # 4))] ++ rest /\
    backoff_delay 1 (1 # 4)
      = round64 (inject_Z (base_delay * 2 ^ 1) + (1 # 4)) /\
    inject_Z (base_delay * 2 ^ 1) + (1 # 4) - pow2 (1 - 53)
      <= backoff_delay 1 (1 # 4) /\
    backoff_delay 1 (1 # 4)
      <= inject_Z (base_delay * 2 ^ 1) + (1 # 4) + pow2 (1 - 53) /\
    inject_Z (base_delay * 2 ^ 1) <= backoff_delay 1 (1 # 4) /\
    backoff_delay 1 (1 # 4) <= inject_Z (base_delay * 2 ^ 1) + 1.
Proof.
  apply (backoff_delay_of_attempt "u" [] (fresh_state _) [server_error]
           (Fails TimedOut) [server_error]).
  - discriminate.
  - apply fresh_state_dice_ok.
  - reflexivity.
  - reflexivity.
  - unfold max_retries. simpl. lia.
Defined.

(** The largest draw of [random.uniform(0, 1)] is [1 - 2^-53].  With it
    the sum of line 55 is a tie that rounds up: the first delay is exactly
    2 seconds, not the exact sum, and not below [base_delay * 2^0 + 1]. *)
Lemma full_jitter_delay_reaches_the_bound :
  let u := 1 - (1 # 2 ^ 53) in
  (0 <= u /\ u < 1) /\
  backoff_delay 0 u == inject_Z (base_delay * 2 ^ 0) + 1 /\
  ~ backoff_delay 0 u == inject_Z (base_delay * 2 ^ 0) + u /\
  ~ backoff_delay 0 u < inject_Z (base_delay * 2 ^ 0) + 1 /\
  In (EvSleepBackoff 2)
     (log (snd (_make_api_request "u" [] full_jitter_state))).
Proof.
  cbv zeta. split; [split; [discriminate | reflexivity] |].
  split; [vm_compute; reflexivity |].
  split; [intros H; vm_compute in H; discriminate |].
  split; [intros H; vm_compute in H; discriminate |].
  vm_compute. right. right. left. reflexivity.
Qed.


(** Whatever the world does, a run of the pipeline makes at most
    [max_retries] HTTP calls and sleeps at most [max_retries - 1] backoff
    delays, and it reads exactly one scripted outcome per call. *)
Theorem pipeline_call_budget (url : string) (params : list (string * json))
  (st : State) :
  exists evs,
    log (snd (_make_api_request url params st)) = log st ++ evs /\
    (http_calls evs <= max_retries)%nat /\
    (backoff_sleeps evs <= max_retries - 1)%nat /\
    wire (snd (_make_api_request url params st))
      = skipn (http_calls evs) (wire st).
Proof.
  destruct (_make_api_request url params st) as [res st'] eqn:E.
  destruct (retry_loop_trace url params max_retries 0 st st' res eq_refl E)
    as (evs & L & C & B & W & _).
  exists evs. simpl. repeat split; assumption.
Qed.



Lemma classify_401_json (r : Response) (j : json) (st st' : State)
  (res : Res (option Response)) :
  status_code r = 401%Z ->
  body r = Some j ->
  classify_response r st = (res, st') ->
  res = Ok None \/ exists e, res = Exc e /\ is_RequestException e = false.
Proof.
  intros H401 Hbody. apply Z.eqb_eq in H401.
  unfold classify_response, response_json. rewrite H401, Hbody. run_monad.
  destruct (dict_get j "status" (JObj [])) as [s | e] eqn:Es; simpl.
  - destruct (dict_get s "error_message" (JStr "Unauthorized")) as [m | e] eqn:Em;
      simpl.
    + destruct (py_contains invalid_key_marker m) as [[|] | e] eqn:Ec; simpl;
        intros [= <- <-].
      * right. eexists. split; reflexivity.
      * left. reflexivity.
      * right. exists e. split; [reflexivity |].
        destruct m; simpl in Ec; try discriminate;
          injection Ec as <-; reflexivity.
    + intros [= <- <-]. right. exists e. split; [reflexivity |].
      destruct s as [| | | | | kv]; simpl in Em; try (injection Em as <-; reflexivity).
      destruct (lookup "error_message" kv); discriminate.
  - intros [= <- <-]. right. exists e. split; [reflexivity |].
    destruct j as [| | | | | kv]; simpl in Es; try (injection Es as <-; reflexivity).
    destruct (lookup "status" kv); discriminate.
Qed.

(** A 401 whose body is JSON is never retried, whatever the body holds: the
    attempt that receives it is the last HTTP call, and the pipeline returns
    [None] or raises an exception that is not a RequestException. *)
Theorem json_401_is_never_retried (url : string) (params : list (string * json))
  (st : State) (pre : list Outcome) (r : Response) (j : json)
  (w : list Outcome) :
  rate_limit st <> 0%Z ->
  dice_ok st ->
  wire st = pre ++ Responds r :: w ->
  forallb retried pre = true ->
  (List.length pre < max_retries)%nat ->
  status_code r = 401%Z ->
  body r = Some j ->
  exists res st' evs,
    _make_api_request url params st = (res, st') /\
    (res = Ok None \/ exists e, res = Exc e /\ is_RequestException e = false) /\
    wire st' = w /\
    log st' = log st ++ evs /\
    skeleton evs = failed_attempts 0 (List.length pre) (dice st) ++ [Call].
Proof.
  intros Hrl Hd Hw Hp Hlen H401 Hbody.
  destruct (make_api_request_prefix url params st pre _ Hrl Hd Hw Hp Hlen)
    as (st1 & evs1 & todo & E1 & Hrl1 & Hd1 & (R1 & W1 & D1 & L1) & S1).
  destruct (attempt_body_get url params st1 classify_response Hrl1)
    as (st2 & rs & Hrs & (R2 & W2 & D2 & L2) & E2).
  rewrite W1 in E2, W2. simpl in W2.
  destruct (classify_response r st2) as [res st3] eqn:E3.
  destruct (classify_response_only_logs r st2 st3 res E3)
    as (tail & (_ & _ & _ & _ & W3 & _ & L3) & Htail).
  pose proof (classify_401_json r j st2 st3 res H401 Hbody E3) as Hres.
  exists res, st3, (evs1 ++ rs ++ [EvGet url params] ++ tail).
  split; [| split; [exact Hres | split; [| split]]].
  - rewrite E1. cbn [retry_loop]. rewrite attempt_body_classify, E2.
    destruct Hres as [-> | (e & -> & He)]; [reflexivity |].
    rewrite He. reflexivity.
  - rewrite W3. exact W2.
  - rewrite L3, L2, L1, <- !app_assoc. reflexivity.
  - rewrite !skeleton_app, S1, (skeleton_rate_sleeps rs Hrs), Htail.
    reflexivity.
Qed.

Lemma json_401_is_never_retried_witness :
  exists res st' evs,
    _make_api_request "u" []
      (fresh_state
         [server_error;
          Responds {| status_code := 401;
                      body := Some (JObj [("status",
                                           JObj [("error_message", JNull)])]) |};
          server_error])
      = (res, st') /\
    (res = Ok None \/ exists e, res = Exc e /\ is_RequestException e = false) /\
    wire st' = [server_error] /\
    log st' = [] ++ evs /\
    skeleton evs = failed_attempts 0 1 [1 # 2; 1 # 4; 3 # 4; 0; 1 # 8] ++ [Call].
Proof.
  apply (json_401_is_never_retried "u" [] (fresh_state _) [server_error]
           {| status_code := 401;
              body := Some (JObj [("status", JObj [("error_message", JNull)])]) |}
           (JObj [("status", JObj [("error_message", JNull)])])
           [server_error]).
  - discriminate.
  - apply fresh_state_dice_ok.
  - reflexivity.
  - reflexivity.
  - unfold max_retries. simpl. lia.
  - reflexivity.
  - reflexivity.
Defined.

(** ** The two clients *)

(** A 401 of another kind reaches the two clients as [None]: after the very
    same run of the pipeline, [get_top_performers] returns [None] (line 101)
    and [get_token_data] raises AttributeError on [None.json()] (line 69). *)
Theorem other_401_in_the_two_clients (symbols : list string) (limit top : Z)
  (st : State) (pre : list Outcome) (r : Response) (m : json)
  (w : list Outcome) :
  rate_limit st <> 0%Z ->
  dice_ok st ->
  wire st = pre ++ Responds r :: w ->
  forallb retried pre = true ->
  (List.length pre < max_retries)%nat ->
  other_401 r m ->
  fst (get_token_data symbols st) = Exc AttributeError /\
  fst (get_top_performers limit top st) = Ok None /\
  wire (snd (get_token_data symbols st)) = w /\
  wire (snd (get_top_performers limit top st)) = w.
Proof.
  intros Hrl Hd Hw Hp Hlen Hr.
  assert (Hrun : forall u p, exists st',
             _make_api_request u p st = (Ok None, st') /\ wire st' = w).
  { intros u p.
    destruct (make_api_request_prefix u p st pre _ Hrl Hd Hw Hp Hlen)
      as (st1 & evs1 & todo & E1 & Hrl1 & Hd1 & (R1 & W1 & D1 & L1) & S1).
    destruct (attempt_other_401 u p st1 r m w Hrl1 W1 Hr)
      as (st2 & rs & E2 & Hrs & (R2 & W2 & D2 & L2)).
    exists st2. split; [| exact W2].
    rewrite E1. cbn [retry_loop]. rewrite E2. reflexivity. }
  destruct (Hrun quotes_url (quotes_params symbols)) as (sq & Eq & Wq).
  destruct (Hrun listings_url (listings_params limit)) as (sl & El & Wl).
  rewrite (get_top_performers_none limit top st sl El).
  assert (Equotes : get_token_data symbols st = (Exc AttributeError, sq)).
  { unfold get_token_data, bind at 1. rewrite Eq. reflexivity. }
  rewrite Equotes. simpl. repeat split; assumption.
Qed.

Lemma other_401_in_the_two_clients_witness :
  let st := fresh_state [Responds (unauthorized "API key missing.")] in
  fst (get_token_data ["BTC"] st) = Exc AttributeError /\
  fst (get_top_performers 100 5 st) = Ok None /\
  wire (snd (get_token_data ["BTC"] st)) = [] /\
  wire (snd (get_top_performers 100 5 st)) = [].
Proof.
  cbv zeta.
  apply (other_401_in_the_two_clients ["BTC"] 100 5 (fresh_state _) []
           (unauthorized "API key missing.") (JStr "API key missing.") []).
  - discriminate.
  - apply fresh_state_dice_ok.
  - reflexivity.
  - reflexivity.
  - unfold max_retries. simpl. lia.
  - repeat split.
Defined.

Lemma quote_row_keys (token row : json) :
  quote_row token = Ok row -> keys_of row = csv_columns ++ ["1y_change"].
Proof.
  unfold quote_row, rbind.
  repeat match goal with
         | |- context [match ?x with Ok _ => _ | Exc _ => _ end] =>
             destruct x; try discriminate
         end.
  intros [= <-]. reflexivity.
Qed.

Lemma performer_row_keys (token row : json) :
  performer_row token = Ok row -> keys_of row = csv_columns.
Proof.
  unfold performer_row, rbind.
  repeat match goal with
         | |- context [match ?x with Ok _ => _ | Exc _ => _ end] =>
             destruct x; try discriminate
         end.
  intros [= <-]. reflexivity.
Qed.

Lemma rmap_Forall_result {A B} (f : A -> Res B) (P : B -> Prop)
  (xs : list A) (ys : list B) :
  (forall x y, f x = Ok y -> P y) ->
  rmap f xs = Ok ys -> Forall P ys.
Proof.
  intros Hf H. apply Forall_forall. intros y Hy.
  destruct (rmap_In_result f xs ys H y Hy) as (x & _ & Hx).
  exact (Hf x y Hx).
Qed.

Lemma get_token_data_row_keys (symbols : list string)
  (st st' : State) (rows : list json) :
  get_token_data symbols st = (Ok (Some rows), st') ->
  Forall (fun row => keys_of row = csv_columns ++ ["1y_change"]) rows.
Proof.
  unfold get_token_data, bind at 1.
  destruct (_make_api_request quotes_url (quotes_params symbols) st)
    as [[response | e] st1].
  - unfold bind, lift, ret.
    destruct (json_of response) as [j | e]; simpl.
    + destruct (quote_rows j) as [rows' | e] eqn:Erows; simpl.
      * intros [= <- <-]. unfold quote_rows, rbind in Erows.
        destruct (getitem j "data") as [data |]; [| discriminate].
        destruct (dict_values data) as [tokens |]; [| discriminate].
        exact (rmap_Forall_result quote_row _ tokens rows' quote_row_keys Erows).
      * destruct (is_RequestException e); [discriminate |].
        destruct (is_KeyError e); discriminate.
    + destruct (is_RequestException e); [discriminate |].
      destruct (is_KeyError e); discriminate.
  - destruct (is_RequestException e); [discriminate |].
    destruct (is_KeyError e); discriminate.
Qed.

(** Whatever the payload, a list returned by [get_token_data] holds only
    records with the same eight keys, in the same order; the first seven are
    the columns that [save_csv] reads. *)
Theorem token_data_rows_have_all_columns (symbols : list string)
  (st st' : State) (rows : list json) :
  get_token_data symbols st = (Ok (Some rows), st') ->
  Forall (fun row => keys_of row = csv_columns ++ ["1y_change"]) rows.
Proof.
  exact (get_token_data_row_keys symbols st st' rows).
Qed.

Lemma token_data_rows_have_all_columns_witness :
  Forall (fun row => keys_of row = csv_columns ++ ["1y_change"])
    [quote_row_of btc_fields; quote_row_of eth_fields].
Proof.
  apply (token_data_rows_have_all_columns ["BTC"; "ETH"]
           (fresh_state
              [Responds (ok_response (JObj [("data", JObj quotes_batch)]))])
           (snd (get_token_data ["BTC"; "ETH"]
                   (fresh_state
                      [Responds (ok_response
                                   (JObj [("data", JObj quotes_batch)]))])))).
  vm_compute. reflexivity.
Defined.

Lemma get_top_performers_row_keys (limit top : Z) (st st' : State)
  (p : Performers) :
  get_top_performers limit top st = (Ok (Some p), st') ->
  Forall (fun row => keys_of row = csv_columns) (best p) /\
  Forall (fun row => keys_of row = csv_columns) (worst p).
Proof.
  unfold get_top_performers, try_except, bind at 1.
  destruct (_make_api_request listings_url (listings_params limit) st)
    as [[[r |] | e] st1]; try discriminate.
  unfold bind, lift, ret.
  destruct (response_json r) as [j | e]; simpl; [| discriminate].
  destruct (rank_performers j top) as [p' | e] eqn:Erank; simpl;
    [| discriminate].
  intros [= <- <-]. unfold rank_performers, rbind in Erank.
  destruct (getitem j "data") as [data |]; [| discriminate].
  destruct (first_100 data) as [head |]; [| discriminate].
  destruct (group_performers_inv head top p' Erank) as (ranked & _ & Hb & Hw).
  split.
  - exact (rmap_Forall_result performer_row _ _ _ performer_row_keys Hb).
  - exact (rmap_Forall_result performer_row _ _ _ performer_row_keys Hw).
Qed.

(** Whatever the payload, the groups returned by [get_top_performers] hold
    only records with exactly the seven columns that [save_csv] reads. *)
Theorem performers_rows_have_all_columns (limit top : Z) (st st' : State)
  (p : Performers) :
  get_top_performers limit top st = (Ok (Some p), st') ->
  Forall (fun row => keys_of row = csv_columns) (best p) /\
  Forall (fun row => keys_of row = csv_columns) (worst p).
Proof.
  exact (get_top_performers_row_keys limit top st st' p).
Qed.

Lemma performers_rows_have_all_columns_witness :
  Forall (fun row => keys_of row = csv_columns) (best sample_groups) /\
  Forall (fun row => keys_of row = csv_columns) (worst sample_groups).
Proof.
  apply (performers_rows_have_all_columns 200 3 (listing_state sample_listing)
           (snd (get_top_performers 200 3 (listing_state sample_listing)))).
  vm_compute. reflexivity.
Defined.

(** ** Stability of the sort, and ties in the ranking *)

Section Stability.
Context {A : Type}.
Variable before : sortkey * A -> sortkey * A -> Prop.

Lemma insert_key_lex (x : sortkey * A) (l : list (sortkey * A)) :
  num_keyed x -> Forall num_keyed l ->
  Forall (before x) l ->
  StronglySorted (lex_le before) l ->
  StronglySorted (lex_le before) (insert_key x l).
Proof.
  intros Hx Hl Hb Hs. induction Hs as [| y l Hs IH Hy]; simpl.
  - repeat constructor.
  - inversion Hl as [| ? ? Hny Hnl]; subst.
    inversion Hb as [| ? ? Hxy Hxl]; subst.
    rewrite (key_ltb_num y x Hny Hx).
    destruct (Qle_bool (numkey x) (numkey y)) eqn:E; simpl.
    + apply Qle_bool_iff in E.
      constructor; [constructor; assumption |].
      assert (Hxy' : lex_le before x y).
      { unfold lex_le. destruct (Qle_lt_or_eq _ _ E) as [Hlt | Heq];
          [left; exact Hlt | right; split; assumption]. }
      constructor; [exact Hxy' |].
      rewrite Forall_forall in *. intros z Hz.
      specialize (Hy z Hz). specialize (Hxl z Hz).
      unfold lex_le in *.
      destruct Hy as [Hyz | [Hyz _]].
      * left. lra.
      * destruct (Qle_lt_or_eq _ _ E) as [Hlt | Heq].
        -- left. lra.
        -- right. split; [lra | exact Hxl].
    + assert (Hlt : numkey y < numkey x).
      { apply Qnot_le_lt. intros H.
        apply Qle_bool_iff in H. rewrite H in E. discriminate. }
      constructor; [apply IH; assumption |].
      apply Forall_forall. intros z Hz.
      apply (Permutation_in _ (insert_key_perm x l)) in Hz.
      destruct Hz as [<- | Hz]; [left; exact Hlt |].
      rewrite Forall_forall in Hy. apply Hy, Hz.
Qed.

(** The sort is stable: on a list already in the order [before], equal keys
    stay in that order. *)
Lemma stable_sort_lex (l : list (sortkey * A)) :
  Forall num_keyed l ->
  StronglySorted before l ->
  StronglySorted (lex_le before) (stable_sort l).
Proof.
  intros Hn Hs. induction Hs as [| x l Hs IH Hx]; simpl; [constructor |].
  inversion Hn as [| ? ? Hnx Hnl]; subst.
  apply insert_key_lex; [exact Hnx | | | apply IH, Hnl].
  - apply Forall_forall. intros z Hz.
    apply (Permutation_in _ (stable_sort_perm l)) in Hz.
    rewrite Forall_forall in Hnl. apply Hnl, Hz.
  - apply Forall_forall. intros z Hz.
    apply (Permutation_in _ (stable_sort_perm l)) in Hz.
    rewrite Forall_forall in Hx. apply Hx, Hz.
Qed.
End Stability.

Lemma StronglySorted_impl {A} (R R' : A -> A -> Prop) (l : list A) :
  (forall a b, R a b -> R' a b) ->
  StronglySorted R l -> StronglySorted R' l.
Proof.
  intros HR. induction 1 as [| x l Hs IH Hx]; constructor; [exact IH |].
  apply (Forall_impl _ (HR x) Hx).
Qed.

Lemma StronglySorted_Forall2_rel {A B} (P : A -> B -> Prop)
  (R : A -> A -> Prop) (R' : B -> B -> Prop) (xs : list A) (ys : list B) :
  (forall a b a' b', P a a' -> P b b' -> R a b -> R' a' b') ->
  Forall2 P xs ys ->
  StronglySorted R xs -> StronglySorted R' ys.
Proof.
  intros HR. induction 1 as [| x y xs ys Hxy Hrest IH]; intros Hs;
    [constructor |].
  inversion Hs as [| ? ? Hs' Hx]; subst. constructor; [apply IH, Hs' |].
  clear IH Hs Hs'. induction Hrest as [| x' y' xs ys Hxy' _ IH']; constructor.
  - inversion Hx; subst. eapply HR; eassumption.
  - inversion Hx; subst. apply IH'. assumption.
Qed.

(** A reversed [sorted] on numeric keys, applied to a list already in some
    order: descending keys, equal keys left in the order they came in. *)
Lemma py_sorted_reverse_stable {A} (key : A -> Res json) (kq : A -> Q)
  (came_before : A -> A -> Prop) (xs : list A) :
  Forall (fun x => key x = Ok (JNum (kq x))) xs ->
  StronglySorted came_before xs ->
  exists ys,
    py_sorted key true xs = Ok ys /\
    Permutation ys xs /\
    StronglySorted
      (fun a b => kq b < kq a \/ (kq b == kq a /\ came_before a b)) ys.
Proof.
  intros Hk Hs.
  destruct (py_sorted_numeric key kq true xs Hk) as (ys & E & HP & _).
  exists ys. split; [exact E |]. split; [exact HP |].
  revert E. unfold py_sorted.
  rewrite (rmap_numeric_keys key kq xs Hk). simpl.
  rewrite orderable_numeric. simpl. rewrite combine_decorate.
  intros [= <-].
  set (before := fun p q : sortkey * A => came_before (snd q) (snd p)).
  assert (Hnum : Forall num_keyed (rev (map (decorate kq) xs))).
  { apply Forall_rev, Forall_map, Forall_forall. intros x _. exists (kq x).
    reflexivity. }
  assert (Hin : StronglySorted before (rev (map (decorate kq) xs))).
  { apply (StronglySorted_rev (fun p q => came_before (snd p) (snd q))).
    clear -Hs. induction Hs as [| x l Hs IH Hx]; simpl; constructor;
      [exact IH |].
    apply Forall_map. exact Hx. }
  pose proof (stable_sort_lex before _ Hnum Hin) as Hsorted.
  apply StronglySorted_rev in Hsorted.
  apply StronglySorted_map.
  assert (Hdec : Forall (fun p => numkey p = kq (snd p))
                   (rev (stable_sort (rev (map (decorate kq) xs))))).
  { apply Forall_forall. intros p Hp.
    apply in_rev in Hp.
    apply (Permutation_in _ (stable_sort_perm _)) in Hp.
    apply in_rev in Hp. apply in_map_iff in Hp.
    destruct Hp as (x & <- & _). reflexivity. }
  revert Hdec Hsorted.
  generalize (rev (stable_sort (rev (map (decorate kq) xs)))).
  intros l Hdec Hsorted.
  induction Hsorted as [| p l Hs' IH Hp]; constructor.
  - apply IH. inversion Hdec; assumption.
  - inversion Hdec as [| ? ? Hp0 Hl0]; subst.
    rewrite Forall_forall in *. intros z Hz.
    specialize (Hp z Hz). rewrite <- Hp0, <- (Hl0 z Hz).
    unfold lex_le, before in Hp. exact Hp.
Qed.

Lemma group_performers_ranked (head : list json) (fs : list Fields) (top : Z) :
  Forall2 reads head fs ->
  Forall numeric fs ->
  exists ranked,
    Permutation ranked fs /\
    StronglySorted ranked_before ranked /\
    group_performers head top =
      Ok {| best := map performer_row_of (slice_upto top ranked);
            worst := map performer_row_of (slice_from (- top) ranked) |}.
Proof.
  intros Hr Hn. unfold group_performers.
  set (rank_key := fun x : json => getitem x "cmc_rank").
  set (change_key := fun x : json => usd_field x "percent_change_7d").
  destruct (py_sorted_numeric rank_key (num_key rank_key) false head)
    as (ys1 & E1 & P1 & S1).
  { apply (numeric_keys _ f_rank head fs rank_key_reads Hr).
    apply (Forall_impl _ (fun f H => proj1 H) Hn). }
  rewrite E1. simpl.
  destruct (Permutation_Forall2 (Permutation_sym P1) Hr) as (fs1 & Pf1 & Hr1).
  assert (Hn1 : Forall numeric fs1) by (exact (Permutation_Forall Pf1 Hn)).
  destruct (py_sorted_reverse_stable change_key (num_key change_key)
              (fun a b => num_key rank_key a <= num_key rank_key b) ys1)
    as (ys2 & E2 & P2 & S2).
  { apply (numeric_keys _ f_c7 ys1 fs1 change_key_reads Hr1).
    apply (Forall_impl _ (fun f H => proj2 H) Hn1). }
  { exact S1. }
  rewrite E2. simpl.
  destruct (Permutation_Forall2 (Permutation_sym P2) Hr1) as (fs2 & Pf2 & Hr2).
  exists fs2. split; [| split].
  - symmetry. transitivity fs1; assumption.
  - eapply (StronglySorted_Forall2_rel reads); [| exact Hr2 | exact S2].
    intros a b fa fb Ha Hb. unfold ranked_before, num_key, change_7d, rank_of.
    unfold rank_key, change_key.
    rewrite (change_key_reads a fa Ha), (change_key_reads b fb Hb),
      (rank_key_reads a fa Ha), (rank_key_reads b fb Hb).
    trivial.
  - rewrite (rmap_Forall2 performer_row performer_row_of reads _ _
               performer_row_reads (Forall2_slice_upto reads top _ _ Hr2)).
    simpl.
    rewrite (rmap_Forall2 performer_row performer_row_of reads _ _
               performer_row_reads (Forall2_slice_from reads (- top) _ _ Hr2)).
    reflexivity.
Qed.

(** [get_top_performers] on a listing whose records hold the required
    fields with numeric rank and 7-day change, for any [top]. *)
Lemma top_performers_ranked (limit top : Z) (st st1 : State)
  (r : Response) (j : json) (l : list json) (fs : list Fields) :
  _make_api_request listings_url (listings_params limit) st
    = (Ok (Some r), st1) ->
  body r = Some j ->
  getitem j "data" = Ok (JArr l) ->
  Forall2 reads l fs ->
  Forall numeric fs ->
  exists ranked,
    Permutation ranked (firstn 100 fs) /\
    StronglySorted ranked_before ranked /\
    get_top_performers limit top st =
      (Ok (Some {| best := map performer_row_of (slice_upto top ranked);
                   worst := map performer_row_of (slice_from (- top) ranked) |}),
       st1).
Proof.
  intros Hreq Hbody Hdata Hr Hn.
  destruct (group_performers_ranked (firstn 100 l) (firstn 100 fs) top)
    as (ranked & HP & Hsorted & HG).
  { apply Forall2_firstn, Hr. }
  { rewrite <- (firstn_skipn 100 fs) in Hn. apply Forall_app in Hn. apply Hn. }
  exists ranked. split; [exact HP |]. split; [exact Hsorted |].
  rewrite (get_top_performers_listing limit top st st1 r j l Hreq Hbody Hdata).
  rewrite HG. reflexivity.
Qed.

(** Ties are settled by rank: the sequence from which the groups are cut is
    in descending order of 7-day change, and records with equal changes
    stand in ascending order of rank, because the sort by change is stable
    and comes after the sort by rank. *)
Theorem equal_changes_are_ranked_by_rank (limit top : Z) (st st1 : State)
  (r : Response) (j : json) (l : list json) (fs : list Fields) :
  _make_api_request listings_url (listings_params limit) st
    = (Ok (Some r), st1) ->
  body r = Some j ->
  getitem j "data" = Ok (JArr l) ->
  Forall2 reads l fs ->
  Forall numeric fs ->
  exists ranked,
    Permutation ranked (firstn 100 fs) /\
    StronglySorted ranked_before ranked /\
    fst (get_top_performers limit top st) =
      Ok (Some {| best := map performer_row_of (slice_upto top ranked);
                  worst := map performer_row_of (slice_from (- top) ranked) |}).
Proof.
  intros Hreq Hbody Hdata Hr Hn.
  destruct (top_performers_ranked limit top st st1 r j l fs
              Hreq Hbody Hdata Hr Hn) as (ranked & HP & Hs & E).
  exists ranked. rewrite E. repeat split; assumption.
Qed.

Lemma tied_listing_numeric : Forall numeric tied_listing.
Proof.
  repeat constructor; eexists; reflexivity.
Qed.

Lemma listing_state_returns (limit : Z) (fs : list Fields) :
  _make_api_request listings_url (listings_params limit) (listing_state fs)
  = (Ok (Some (ok_response (JObj [("data", JArr (map token_of fs))]))),
     snd (_make_api_request listings_url (listings_params limit)
            (listing_state fs))).
Proof. reflexivity. Qed.

Lemma equal_changes_are_ranked_by_rank_witness :
  exists ranked,
    Permutation ranked (firstn 100 tied_listing) /\
    StronglySorted ranked_before ranked /\
    fst (get_top_performers 100 2 (listing_state tied_listing)) =
      Ok (Some {| best := map performer_row_of (slice_upto 2 ranked);
                  worst := map performer_row_of (slice_from (- 2) ranked) |}).
Proof.
  apply (equal_changes_are_ranked_by_rank 100 2 (listing_state tied_listing)
           (snd (_make_api_request listings_url (listings_params 100)
                   (listing_state tied_listing)))
           (ok_response (JObj [("data", JArr (map token_of tied_listing))]))
           (JObj [("data", JArr (map token_of tied_listing))])
           (map token_of tied_listing) tied_listing).
  - apply listing_state_returns.
  - reflexivity.
  - reflexivity.
  - apply reads_map_token_of.
  - apply tied_listing_numeric.
Defined.

(** With [top] at zero or below, the slices no longer cut a head and a
    tail: for [top = 0], [best] is empty and [worst] is the whole ranked
    sequence; for [top = -k], [best] is the sequence without its last [k]
    records and [worst] the sequence without its first [k]. *)
Theorem top_not_positive (limit top : Z) (st st1 : State)
  (r : Response) (j : json) (l : list json) (fs : list Fields) :
  _make_api_request listings_url (listings_params limit) st
    = (Ok (Some r), st1) ->
  body r = Some j ->
  getitem j "data" = Ok (JArr l) ->
  Forall2 reads l fs ->
  Forall numeric fs ->
  (top <= 0)%Z ->
  exists ranked,
    Permutation ranked (firstn 100 fs) /\
    StronglySorted ranked_before ranked /\
    fst (get_top_performers limit top st) =
      Ok (Some
            {| best := map performer_row_of
                         (if (top =? 0)%Z then []
                          else firstn (List.length ranked - Z.to_nat (- top))
                                 ranked);
               worst := map performer_row_of
                          (skipn (Z.to_nat (- top)) ranked) |}).
Proof.
  intros Hreq Hbody Hdata Hr Hn Htop.
  destruct (top_performers_ranked limit top st st1 r j l fs
              Hreq Hbody Hdata Hr Hn) as (ranked & HP & Hs & E).
  exists ranked. split; [exact HP |]. split; [exact Hs |].
  rewrite E. simpl. unfold slice_upto, slice_from.
  replace (0 <=? - top)%Z with true by (symmetry; apply Z.leb_le; lia).
  destruct (top =? 0)%Z eqn:E0.
  - apply Z.eqb_eq in E0. subst top. reflexivity.
  - apply Z.eqb_neq in E0.
    replace (0 <=? top)%Z with false by (symmetry; apply Z.leb_gt; lia).
    reflexivity.
Qed.

Lemma top_not_positive_witness :
  exists ranked,
    Permutation ranked (firstn 100 sample_listing) /\
    StronglySorted ranked_before ranked /\
    fst (get_top_performers 100 0 (listing_state sample_listing)) =
      Ok (Some
            {| best := map performer_row_of
                         (if (0 =? 0)%Z then []
                          else firstn (List.length ranked - Z.to_nat (- 0))
                                 ranked);
               worst := map performer_row_of
                          (skipn (Z.to_nat (- 0)) ranked) |}).
Proof.
  apply (top_not_positive 100 0 (listing_state sample_listing)
           (snd (_make_api_request listings_url (listings_params 100)
                   (listing_state sample_listing)))
           (ok_response (JObj [("data", JArr (map token_of sample_listing))]))
           (JObj [("data", JArr (map token_of sample_listing))])
           (map token_of sample_listing) sample_listing).
  - apply listing_state_returns.
  - reflexivity.
  - reflexivity.
  - apply reads_map_token_of.
  - apply sample_listing_numeric.
  - lia.
Defined.

(** With [top] at or above the number of ranked records, both groups are
    the whole ranked sequence: [best] and [worst] are the same list. *)
Theorem top_covers_everything (limit top : Z) (st st1 : State)
  (r : Response) (j : json) (l : list json) (fs : list Fields) :
  _make_api_request listings_url (listings_params limit) st
    = (Ok (Some r), st1) ->
  body r = Some j ->
  getitem j "data" = Ok (JArr l) ->
  Forall2 reads l fs ->
  Forall numeric fs ->
  (1 <= top)%Z ->
  (Z.of_nat (List.length (firstn 100 fs)) <= top)%Z ->
  exists ranked,
    Permutation ranked (firstn 100 fs) /\
    StronglySorted ranked_before ranked /\
    fst (get_top_performers limit top st) =
      Ok (Some {| best := map performer_row_of ranked;
                  worst := map performer_row_of ranked |}).
Proof.
  intros Hreq Hbody Hdata Hr Hn H1 Htop.
  destruct (top_performers_ranked limit top st st1 r j l fs
              Hreq Hbody Hdata Hr Hn) as (ranked & HP & Hs & E).
  exists ranked. split; [exact HP |]. split; [exact Hs |].
  rewrite E. simpl. unfold slice_upto, slice_from.
  assert (Hlen : List.length ranked = List.length (firstn 100 fs))
    by (apply Permutation_length, HP).
  replace (0 <=? top)%Z with true by (symmetry; apply Z.leb_le; lia).
  replace (0 <=? - top)%Z with false by (symmetry; apply Z.leb_gt; lia).
  rewrite Z.opp_involutive.
  rewrite firstn_all2 by lia.
  replace (List.length ranked - Z.to_nat top)%nat with 0%nat by lia.
  reflexivity.
Qed.

Lemma top_covers_everything_witness :
  exists ranked,
    Permutation ranked (firstn 100 sample_listing) /\
    StronglySorted ranked_before ranked /\
    fst (get_top_performers 100 5 (listing_state sample_listing)) =
      Ok (Some {| best := map performer_row_of ranked;
                  worst := map performer_row_of ranked |}).
Proof.
  apply (top_covers_everything 100 5 (listing_state sample_listing)
           (snd (_make_api_request listings_url (listings_params 100)
                   (listing_state sample_listing)))
           (ok_response (JObj [("data", JArr (map token_of sample_listing))]))
           (JObj [("data", JArr (map token_of sample_listing))])
           (map token_of sample_listing) sample_listing).
  - apply listing_state_returns.
  - reflexivity.
  - reflexivity.
  - apply reads_map_token_of.
  - apply sample_listing_numeric.
  - lia.
  - simpl. lia.
Defined.

Lemma NoDup_app_disjoint {A} (l1 l2 : list A) (x : A) :
  NoDup (l1 ++ l2) -> In x l1 -> In x l2 -> False.
Proof.
  induction l1 as [| a l1 IH]; simpl; intros Hnd H1 H2; [exact H1 |].
  inversion Hnd as [| ? ? Hnotin Hnd']; subst.
  destruct H1 as [-> | H1].
  - apply Hnotin, in_or_app. right. exact H2.
  - exact (IH Hnd' H1 H2).
Qed.

(** With distinct 7-day changes and [2 * top] no more than the number of
    ranked records, the two groups have no record in common. *)
Theorem groups_are_disjoint (limit top : Z) (st st1 : State)
  (r : Response) (j : json) (l : list json) (fs : list Fields) :
  _make_api_request listings_url (listings_params limit) st
    = (Ok (Some r), st1) ->
  body r = Some j ->
  getitem j "data" = Ok (JArr l) ->
  Forall2 reads l fs ->
  Forall numeric fs ->
  distinct_changes fs ->
  (1 <= top)%Z ->
  (2 * top <= Z.of_nat (List.length (firstn 100 fs)))%Z ->
  exists p,
    fst (get_top_performers limit top st) = Ok (Some p) /\
    List.length (best p) = Z.to_nat top /\
    List.length (worst p) = Z.to_nat top /\
    forall row, In row (best p) -> ~ In row (worst p).
Proof.
  intros Hreq Hbody Hdata Hr Hn Hd H1 Htop.
  destruct (top_performers_ranked limit top st st1 r j l fs
              Hreq Hbody Hdata Hr Hn) as (ranked & HP & Hs & E).
  assert (Hlen : List.length ranked = List.length (firstn 100 fs))
    by (apply Permutation_length, HP).
  assert (Hnd : NoDup (map (fun f => Qred (change_7d f)) ranked)).
  { apply (Permutation_NoDup (Permutation_map _ (Permutation_sym HP))).
    apply (distinct_changes_firstn 100 fs Hd). }
  eexists. rewrite E. split; [reflexivity |]. simpl.
  unfold slice_upto, slice_from.
  replace (0 <=? top)%Z with true by (symmetry; apply Z.leb_le; lia).
  replace (0 <=? - top)%Z with false by (symmetry; apply Z.leb_gt; lia).
  rewrite Z.opp_involutive.
  set (k := Z.to_nat top) in *. set (m := List.length ranked) in *.
  rewrite !length_map, length_firstn, length_skipn. fold m.
  split; [lia |]. split; [lia |].
  intros row Hb Hw.
  apply in_map_iff in Hb. destruct Hb as (f1 & Hf1 & Hin1).
  apply in_map_iff in Hw. destruct Hw as (f2 & Hf2 & Hin2).
  assert (Hsame : Qred (change_7d f1) = Qred (change_7d f2)).
  { rewrite <- Hf2 in Hf1. unfold performer_row_of in Hf1.
    injection Hf1 as _ _ _ _ H7 _ _. unfold change_7d. rewrite H7.
    reflexivity. }
  rewrite <- (firstn_skipn k ranked), map_app in Hnd.
  apply (NoDup_app_disjoint _ _ (Qred (change_7d f1)) Hnd).
  - apply (in_map (fun f => Qred (change_7d f))). exact Hin1.
  - rewrite Hsame. apply (in_map (fun f => Qred (change_7d f))).
    replace (m - k)%nat with ((m - k - k) + k)%nat in Hin2 by lia.
    rewrite <- skipn_skipn in Hin2. exact (In_skipn _ _ _ Hin2).
Qed.

Lemma groups_are_disjoint_witness :
  exists p,
    fst (get_top_performers 100 2 (listing_state sample_listing)) = Ok (Some p) /\
    List.length (best p) = Z.to_nat 2 /\
    List.length (worst p) = Z.to_nat 2 /\
    forall row, In row (best p) -> ~ In row (worst p).
Proof.
  apply (groups_are_disjoint 100 2 (listing_state sample_listing)
           (snd (_make_api_request listings_url (listings_params 100)
                   (listing_state sample_listing)))
           (ok_response (JObj [("data", JArr (map token_of sample_listing))]))
           (JObj [("data", JArr (map token_of sample_listing))])
           (map token_of sample_listing) sample_listing).
  - apply listing_state_returns.
  - reflexivity.
  - reflexivity.
  - apply reads_map_token_of.
  - apply sample_listing_numeric.
  - apply sample_listing_distinct.
  - lia.
  - simpl. lia.
Defined.

(** ** The disk *)

Lemma read_write_same (p : string) (c : Content) (fs : list (string * Content)) :
  read_file p (write_file p c fs) = Some c.
Proof.
  induction fs as [| [q c0] fs IH]; simpl.
  - rewrite String.eqb_refl. reflexivity.
  - destruct (String.eqb p q) eqn:E; simpl; rewrite E; [reflexivity | exact IH].
Qed.

Lemma read_write_other (p q : string) (c : Content)
  (fs : list (string * Content)) :
  p <> q -> read_file q (write_file p c fs) = read_file q fs.
Proof.
  intros Hpq. induction fs as [| [r c0] fs IH]; simpl.
  - destruct (String.eqb q p) eqn:E; [| reflexivity].
    apply String.eqb_eq in E. congruence.
  - destruct (String.eqb p r) eqn:E; simpl.
    + apply String.eqb_eq in E. subst r.
      destruct (String.eqb q p) eqn:E'; [| reflexivity].
      apply String.eqb_eq in E'. congruence.
    + rewrite IH. reflexivity.
Qed.

Lemma write_write_same (p : string) (c1 c2 : Content)
  (fs : list (string * Content)) :
  write_file p c2 (write_file p c1 fs) = write_file p c2 fs.
Proof.
  induction fs as [| [q c0] fs IH]; simpl.
  - rewrite String.eqb_refl. reflexivity.
  - destruct (String.eqb p q) eqn:E; simpl; rewrite E; [reflexivity |].
    rewrite IH. reflexivity.
Qed.

Lemma write_what_is_there (p : string) (c : Content)
  (fs : list (string * Content)) :
  read_file p fs = Some c -> write_file p c fs = fs.
Proof.
  induction fs as [| [q c0] fs IH]; simpl; [discriminate |].
  destruct (String.eqb p q) eqn:E.
  - intros [= ->]. reflexivity.
  - intros H. rewrite (IH H). reflexivity.
Qed.

Lemma with_files_same (s : Sys) : with_files s (files s) = s.
Proof. destruct s; reflexivity. Qed.

(** The loop of [save_csv]: the rows up to the first record that lacks a
    column are added to the file, and that record's exception is raised. *)
Lemma write_rows_spec (path : string) (tokens : list json) :
  forall (s : Sys) (before : list (list json)),
    read_file path (files s) = Some (Rows before) ->
    write_rows path tokens s =
    (match snd (rows_until_failure tokens) with
     | None => Returned tt
     | Some e => Raised (Python e)
     end,
     with_files s
       (write_file path (Rows (before ++ fst (rows_until_failure tokens)))
          (files s))).
Proof.
  induction tokens as [| token tokens IH]; intros s before Hread; simpl.
  - rewrite app_nil_r, (write_what_is_there _ _ _ Hread), with_files_same.
    reflexivity.
  - unfold sbind, slift.
    destruct (csv_cells token) as [cells | e]; simpl.
    + rewrite Hread.
      rewrite (IH _ (before ++ [cells])); [| simpl; apply read_write_same].
      destruct (rows_until_failure tokens) as [rows stop]. simpl.
      rewrite write_write_same, <- app_assoc. reflexivity.
    + rewrite app_nil_r, (write_what_is_there _ _ _ Hread), with_files_same.
      reflexivity.
Qed.

Lemma save_csv_unlocked (tokens : list json) (filename : string) (s : Sys) :
  is_locked (path_join (output_dir s) filename) s = false ->
  exists s',
    save_csv (JArr tokens) filename s
      = (Returned (match snd (rows_until_failure tokens) with
                   | None => true
                   | Some _ => false
                   end), s') /\
    files s' = write_file (path_join (output_dir s) filename)
                 (Rows (csv_header :: fst (rows_until_failure tokens)))
                 (files s) /\
    notices s' = notices s ++
                 match snd (rows_until_failure tokens) with
                 | None => []
                 | Some e => [NCsvFailed (Python e)]
                 end /\
    proc s' = proc s /\ output_dir s' = output_dir s /\
    locked s' = locked s /\ calendar s' = calendar s.
Proof.
  unfold is_locked. intros Hlock.
  set (path := path_join (output_dir s) filename) in *.
  set (s1 := with_files s (write_file path (Rows []) (files s))).
  set (s2 := with_files s1 (write_file path (Rows [csv_header]) (files s1))).
  assert (Eopen : open_w path s = (Returned tt, s1))
    by (unfold open_w; rewrite Hlock; reflexivity).
  assert (Ehead : writerow path csv_header s1 = (Returned tt, s2)).
  { unfold writerow. replace (read_file path (files s1)) with (Some (Rows []))
      by (symmetry; apply read_write_same).
    reflexivity. }
  assert (Eloop := write_rows_spec path tokens s2 [csv_header]
                     (read_write_same _ _ _)).
  unfold save_csv, sbind. fold path.
  rewrite Eopen. cbv beta iota. rewrite Ehead. cbv beta iota.
  unfold slift, py_iter. rewrite Eloop.
  destruct (rows_until_failure tokens) as [rows [e |]]; cbn [fst snd].
  - eexists. split; [reflexivity |]. simpl.
    rewrite !write_write_same. repeat split; reflexivity.
  - eexists. split; [reflexivity |]. simpl.
    rewrite !write_write_same, app_nil_r. repeat split; reflexivity.
Qed.

(** [save_csv] never raises.  On a path that cannot be opened it returns
    [False] and leaves the disk alone.  Otherwise the file is replaced by
    the header and one row per record, up to the first record that lacks a
    column; the result is [True] exactly when no record did, and after a
    failure the truncated file stays on the disk. *)
Theorem save_csv_writes_rows_until_failure (tokens : list json)
  (filename : string) (s : Sys) :
  let path := path_join (output_dir s) filename in
  (is_locked path s = true ->
   save_csv (JArr tokens) filename s
     = (Returned false, notice (NCsvFailed (OSError path)) s)) /\
  (is_locked path s = false ->
   exists s',
     save_csv (JArr tokens) filename s
       = (Returned (match snd (rows_until_failure tokens) with
                    | None => true
                    | Some _ => false
                    end), s') /\
     files s' = write_file path
                  (Rows (csv_header :: fst (rows_until_failure tokens)))
                  (files s) /\
     notices s' = notices s ++
                  match snd (rows_until_failure tokens) with
                  | None => []
                  | Some e => [NCsvFailed (Python e)]
                  end /\
     proc s' = proc s).
Proof.
  cbv zeta. split; intros Hlock.
  - unfold is_locked in Hlock.
    unfold save_csv, sbind at 1, open_w. rewrite Hlock. reflexivity.
  - destruct (save_csv_unlocked tokens filename s Hlock)
      as (s' & E & F & N & P & _).
    exists s'. repeat split; assumption.
Qed.

Lemma save_csv_writes_rows_until_failure_witness :
  let s := {| proc := quiet_state; output_dir := "/home/u/Desktop/CMC report";
              files := [("/home/u/Desktop/CMC report/old.csv", Rows [])];
              locked := []; calendar := fun _ => ("", ""); notices := [] |} in
  exists s',
    save_csv (JArr [quote_row_of btc_fields; JObj [("symbol", JStr "ETH")]])
      "t.csv" s = (Returned false, s') /\
    read_file "/home/u/Desktop/CMC report/t.csv" (files s')
      = Some (Rows [csv_header; row_values (quote_row_of btc_fields)]).
Proof.
  cbv zeta.
  destruct (save_csv_writes_rows_until_failure
              [quote_row_of btc_fields; JObj [("symbol", JStr "ETH")]] "t.csv"
              {| proc := quiet_state;
                 output_dir := "/home/u/Desktop/CMC report";
                 files := [("/home/u/Desktop/CMC report/old.csv", Rows [])];
                 locked := []; calendar := fun _ => ("", ""); notices := [] |})
    as (_ & Hopen).
  destruct (Hopen eq_refl) as (s' & E & F & _).
  exists s'. split; [exact E |]. rewrite F. reflexivity.
Defined.

(** ** Paths and file names *)

Lemma string_app_assoc (a b c : string) :
  ((a ++ b) ++ c = a ++ b ++ c)%string.
Proof.
  induction a as [| x a IH]; simpl; [reflexivity |]. rewrite IH. reflexivity.
Qed.

Lemma string_app_cancel (pre a b : string) :
  (pre ++ a = pre ++ b)%string -> a = b.
Proof.
  induction pre as [| x pre IH]; simpl; intros H; [exact H |].
  injection H as H. exact (IH H).
Qed.

(** The report names are relative: they are put after the directory. *)
Lemma path_join_crypto (dir rest : string) :
  path_join dir (String "c" rest) = (join_prefix dir ++ String "c" rest)%string.
Proof.
  unfold path_join, join_prefix. destruct dir as [| x dir]; [reflexivity |].
  destruct (ends_with_slash (String x dir)); [reflexivity |].
  rewrite string_app_assoc. reflexivity.
Qed.

Lemma json_is_not_csv (d : string) :
  forall d' : string, (d ++ ".json" = d' ++ ".csv")%string -> False.
Proof.
  induction d as [| c d IH]; intros d' H.
  - simpl in H.
    do 5 (destruct d' as [| ? d']; simpl in H; [discriminate |];
          injection H as _ H).
    destruct d'; discriminate.
  - destruct d' as [| c' d']; simpl in H.
    + injection H as _ H.
      do 3 (destruct d as [| ? d]; simpl in H; [discriminate |];
            injection H as _ H).
      destruct d; discriminate.
    + injection H as _ H. exact (IH d' H).
Qed.

Lemma report_names_differ (dir d1 d2 d3 : string) :
  let json_path := path_join dir ("crypto_report_" ++ d1 ++ ".json") in
  let csv_path := path_join dir ("crypto_report_" ++ d2 ++ ".csv") in
  let perf_path := path_join dir ("crypto_performance_" ++ d3 ++ ".csv") in
  json_path <> csv_path /\ json_path <> perf_path /\ csv_path <> perf_path.
Proof.
  cbv zeta. simpl append. rewrite !path_join_crypto.
  repeat split; intros H; apply string_app_cancel in H.
  - injection H as H. exact (json_is_not_csv d1 d2 H).
  - discriminate.
  - discriminate.
Qed.

(** ** The writers and the clock inside the report *)

Lemma nothing_locked (path : string) (s : Sys) :
  locked s = [] -> is_locked path s = false.
Proof. unfold is_locked. intros ->. reflexivity. Qed.

Lemma datetime_now_runs (s : Sys) :
  exists day s',
    datetime_now s = (Returned day, s') /\ same_but_proc s s'.
Proof.
  unfold datetime_now, sbind, run_proc, time_time, bind, pass. simpl.
  do 2 eexists. split; [reflexivity |]. repeat split.
Qed.

Lemma save_report_unlocked (data : json) (filename : string) (s : Sys) :
  is_locked (path_join (output_dir s) filename) s = false ->
  exists s',
    save_report data filename s = (Returned true, s') /\
    files s' = write_file (path_join (output_dir s) filename) (Doc data)
                 (files s) /\
    same_but_files s s'.
Proof.
  unfold is_locked. intros Hlock.
  unfold save_report, sbind, open_w, json_dump. rewrite Hlock. simpl.
  eexists. split; [reflexivity |]. simpl. rewrite write_write_same.
  repeat split.
Qed.

Lemma save_report_locked (data : json) (filename : string) (s : Sys) :
  is_locked (path_join (output_dir s) filename) s = true ->
  save_report data filename s
  = (Returned false,
     notice (NReportFailed (OSError (path_join (output_dir s) filename))) s).
Proof.
  unfold is_locked. intros Hlock.
  unfold save_report, sbind, open_w. rewrite Hlock. reflexivity.
Qed.

(** A record with the seven columns first gives its seven values. *)
Lemma csv_cells_keyed (row : json) (more : list string) :
  keys_of row = csv_columns ++ more -> csv_cells row = Ok (row_values row).
Proof.
  destruct row as [| | | | | kv]; try discriminate.
  unfold keys_of, csv_columns. simpl. intros H.
  do 7 (destruct kv as [| [? ?] kv]; simpl in H; [discriminate |];
        injection H as -> H).
  reflexivity.
Qed.

Lemma rows_until_failure_keyed (more : list string) (rows : list json) :
  Forall (fun row => keys_of row = csv_columns ++ more) rows ->
  rows_until_failure rows = (map row_values rows, None).
Proof.
  induction 1 as [| row rows Hrow _ IH]; simpl; [reflexivity |].
  rewrite (csv_cells_keyed row more Hrow), IH. reflexivity.
Qed.

(** Giving a record of a group its [type] adds an eighth key and leaves the
    seven values alone. *)
Lemma with_type_keyed (group : string) (row : json) :
  keys_of row = csv_columns ->
  setitem row "type" (JStr group) = Ok (with_type group row) /\
  keys_of (with_type group row) = csv_columns ++ ["type"] /\
  row_values (with_type group row) = row_values row.
Proof.
  destruct row as [| | | | | kv]; try discriminate.
  unfold keys_of, csv_columns. simpl. intros H.
  do 7 (destruct kv as [| [? ?] kv]; simpl in H; [discriminate |];
        injection H as -> H).
  destruct kv; [| discriminate]. repeat split.
Qed.

Lemma tagged_group (report_data : json) (group : string) (rows : list json) :
  rbind (getitem report_data "performance")
    (fun performance => getitem performance group) = Ok (JArr rows) ->
  Forall (fun row => keys_of row = csv_columns) rows ->
  tagged report_data group = Ok (map (with_type group) rows) /\
  Forall (fun row => keys_of row = csv_columns ++ ["type"])
    (map (with_type group) rows) /\
  map row_values (map (with_type group) rows) = map row_values rows.
Proof.
  intros Hget Hrows. unfold tagged.
  destruct (getitem report_data "performance") as [performance |];
    [| discriminate].
  simpl in Hget. cbn [rbind]. rewrite Hget. cbn [rbind py_iter].
  clear Hget. split; [| split].
  - induction Hrows as [| row rows Hrow _ IH]; [reflexivity |].
    destruct (with_type_keyed group row Hrow) as (Hset & _).
    cbn [rmap map]. rewrite Hset, IH. reflexivity.
  - induction Hrows as [| row rows Hrow _ IH]; simpl; constructor;
      [apply (with_type_keyed group row Hrow) | exact IH].
  - induction Hrows as [| row rows Hrow _ IH]; [reflexivity |].
    destruct (with_type_keyed group row Hrow) as (_ & _ & Hvals).
    cbn [map]. rewrite Hvals, IH. reflexivity.
Qed.

(** ** Collecting the report data *)

Lemma run_proc_same_but_proc {A} (m : M A) (s s' : Sys) (r : Ran A) :
  run_proc m s = (r, s') -> same_but_proc s s'.
Proof.
  unfold run_proc. destruct (m (proc s)) as [[a | e] st'];
    intros [= <- <-]; repeat split.
Qed.

Lemma same_but_proc_trans (s1 s2 s3 : Sys) :
  same_but_proc s1 s2 -> same_but_proc s2 s3 -> same_but_proc s1 s3.
Proof.
  unfold same_but_proc. intros (A1 & A2 & A3 & A4 & A5) (B1 & B2 & B3 & B4 & B5).
  rewrite B1, B2, B3, B4, B5. repeat split; assumption.
Qed.

Lemma run_get_token_data (symbols : list string) (s s' : Sys)
  (rows : option (list json)) :
  run_proc (get_token_data symbols) s = (Returned rows, s') ->
  quote_keyed rows /\ same_but_proc s s'.
Proof.
  intros H. split; [| exact (run_proc_same_but_proc _ _ _ _ H)].
  unfold run_proc in H.
  destruct (get_token_data symbols (proc s)) as [[v | e] st'] eqn:E;
    [| discriminate].
  injection H as <- _. intros l ->.
  exact (get_token_data_row_keys symbols (proc s) st' l E).
Qed.

Lemma run_get_top_performers (limit top : Z) (s s' : Sys)
  (performance : option Performers) :
  run_proc (get_top_performers limit top) s = (Returned performance, s') ->
  performers_keyed performance /\ same_but_proc s s'.
Proof.
  intros H. split; [| exact (run_proc_same_but_proc _ _ _ _ H)].
  unfold run_proc in H.
  destruct (get_top_performers limit top (proc s)) as [[v | e] st'] eqn:E;
    [| discriminate].
  injection H as <- _. intros p ->.
  exact (get_top_performers_row_keys limit top (proc s) st' p E).
Qed.

(** What [collect_report_data] returns: the five fetches as they came back,
    lists with all their columns or [None]; the disk is not touched. *)
Lemma collect_report_data_returned (s s1 : Sys) (report_data : json) :
  collect_report_data s = (Returned report_data, s1) ->
  exists stamp top meme solana base performance,
    report_data = report_of stamp top meme solana base performance /\
    quote_keyed top /\ quote_keyed meme /\ quote_keyed solana /\
    quote_keyed base /\ performers_keyed performance /\
    same_but_proc s s1.
Proof.
  unfold collect_report_data, sbind.
  destruct (datetime_now_runs s) as (day & s0 & E0 & H0). rewrite E0.
  destruct (run_proc (get_token_data top_tokens) s0) as [[top | f] sa] eqn:Ea;
    [| discriminate].
  destruct (run_proc (get_token_data meme_tokens) sa) as [[meme | f] sb] eqn:Eb;
    [| discriminate].
  destruct (run_proc (get_token_data solana_tokens) sb) as [[solana | f] sc]
    eqn:Ec; [| discriminate].
  destruct (run_proc (get_token_data base_tokens) sc) as [[base | f] sd] eqn:Ed;
    [| discriminate].
  destruct (run_proc (get_top_performers 100 5) sd) as [[performance | f] se]
    eqn:Ee; [| discriminate].
  unfold sret. intros [= <- <-].
  destruct (run_get_token_data _ _ _ _ Ea) as [Ka Sa].
  destruct (run_get_token_data _ _ _ _ Eb) as [Kb Sb].
  destruct (run_get_token_data _ _ _ _ Ec) as [Kc Sc].
  destruct (run_get_token_data _ _ _ _ Ed) as [Kd Sd].
  destruct (run_get_top_performers _ _ _ _ _ Ee) as [Ke Se].
  exists (fst day), top, meme, solana, base, performance.
  repeat (split; [assumption || reflexivity |]).
  apply (same_but_proc_trans s s0 se H0).
  apply (same_but_proc_trans s0 sa se Sa).
  apply (same_but_proc_trans sa sb se Sb).
  apply (same_but_proc_trans sb sc se Sc).
  apply (same_but_proc_trans sc sd se Sd).
  exact Se.
Qed.

(** When a fetch raises, [collect_report_data] raises the same exception
    and the disk is not touched. *)
Lemma collect_report_data_raised (s s1 : Sys) (f : failure) :
  collect_report_data s = (Raised f, s1) ->
  same_but_proc s s1 /\ exists e, f = Python e.
Proof.
  unfold collect_report_data, sbind.
  destruct (datetime_now_runs s) as (day & s0 & E0 & H0). rewrite E0.
  assert (Hraise : forall A (m : M A) (x y : Sys) (g : failure),
             run_proc m x = (Raised g, y) -> exists e, g = Python e).
  { intros A m x y g. unfold run_proc.
    destruct (m (proc x)) as [[a | e] st']; [discriminate |].
    intros [= <- _]. exists e; reflexivity. }
  destruct (run_proc (get_token_data top_tokens) s0) as [[top | g] sa] eqn:Ea;
    pose proof (run_proc_same_but_proc _ _ _ _ Ea) as Sa;
    pose proof (same_but_proc_trans _ _ _ H0 Sa) as Ta;
    [| intros [= <- <-]; split; [exact Ta | exact (Hraise _ _ _ _ _ Ea)]].
  destruct (run_proc (get_token_data meme_tokens) sa) as [[meme | g] sb] eqn:Eb;
    pose proof (run_proc_same_but_proc _ _ _ _ Eb) as Sb;
    pose proof (same_but_proc_trans _ _ _ Ta Sb) as Tb;
    [| intros [= <- <-]; split; [exact Tb | exact (Hraise _ _ _ _ _ Eb)]].
  destruct (run_proc (get_token_data solana_tokens) sb) as [[solana | g] sc]
    eqn:Ec;
    pose proof (run_proc_same_but_proc _ _ _ _ Ec) as Sc;
    pose proof (same_but_proc_trans _ _ _ Tb Sc) as Tc;
    [| intros [= <- <-]; split; [exact Tc | exact (Hraise _ _ _ _ _ Ec)]].
  destruct (run_proc (get_token_data base_tokens) sc) as [[base | g] sd] eqn:Ed;
    pose proof (run_proc_same_but_proc _ _ _ _ Ed) as Sd;
    pose proof (same_but_proc_trans _ _ _ Tc Sd) as Td;
    [| intros [= <- <-]; split; [exact Td | exact (Hraise _ _ _ _ _ Ed)]].
  destruct (run_proc (get_top_performers 100 5) sd) as [[performance | g] se]
    eqn:Ee;
    pose proof (run_proc_same_but_proc _ _ _ _ Ee) as Se;
    pose proof (same_but_proc_trans _ _ _ Td Se) as Te;
    [discriminate |].
  intros [= <- <-]. split; [exact Te | exact (Hraise _ _ _ _ _ Ee)].
Qed.

(** ** The parts of [generate_report] *)

Lemma datetime_now_spec (s : Sys) :
  exists t st,
    datetime_now s = (Returned (calendar s t), with_proc s st) /\
    clock_moved (proc s) st.
Proof.
  unfold datetime_now, sbind, run_proc, time_time, bind, pass. simpl.
  do 2 eexists. split; [reflexivity |]. repeat split.
Qed.

(** [save_report] in one equation. *)
Lemma save_report_eq (data : json) (filename : string) (s : Sys) :
  save_report data filename s =
  if is_locked (path_join (output_dir s) filename) s
  then (Returned false,
        notice (NReportFailed (OSError (path_join (output_dir s) filename))) s)
  else (Returned true,
        with_files s (write_file (path_join (output_dir s) filename) (Doc data)
                        (files s))).
Proof.
  unfold is_locked.
  destruct (existsb (String.eqb (path_join (output_dir s) filename)) (locked s))
    eqn:Hlock.
  - apply save_report_locked. exact Hlock.
  - unfold save_report, sbind, open_w, json_dump. rewrite Hlock.
    unfold sret, with_files. simpl. rewrite write_write_same. reflexivity.
Qed.

(** [save_csv] on records that have the seven columns first. *)
Lemma save_csv_keyed (more : list string) (rows : list json)
  (filename : string) (s : Sys) :
  Forall (fun row => keys_of row = csv_columns ++ more) rows ->
  save_csv (JArr rows) filename s =
  if is_locked (path_join (output_dir s) filename) s
  then (Returned false,
        notice (NCsvFailed (OSError (path_join (output_dir s) filename))) s)
  else (Returned true,
        with_files s (write_file (path_join (output_dir s) filename)
                        (Rows (csv_header :: map row_values rows)) (files s))).
Proof.
  intros Hrows. unfold is_locked.
  set (path := path_join (output_dir s) filename).
  destruct (existsb (String.eqb path) (locked s)) eqn:Hlock.
  - unfold save_csv, sbind at 1, open_w. fold path. rewrite Hlock. reflexivity.
  - set (s1 := with_files s (write_file path (Rows []) (files s))).
    set (s2 := with_files s1 (write_file path (Rows [csv_header]) (files s1))).
    assert (Eopen : open_w path s = (Returned tt, s1))
      by (unfold open_w; rewrite Hlock; reflexivity).
    assert (Ehead : writerow path csv_header s1 = (Returned tt, s2)).
    { unfold writerow. replace (read_file path (files s1)) with (Some (Rows []))
        by (symmetry; apply read_write_same).
      reflexivity. }
    assert (Eloop := write_rows_spec path rows s2 [csv_header]
                       (read_write_same _ _ _)).
    unfold save_csv, sbind. fold path.
    rewrite Eopen. cbv beta iota. rewrite Ehead. cbv beta iota.
    unfold slift, py_iter. rewrite Eloop.
    rewrite (rows_until_failure_keyed more rows Hrows). cbn [fst snd].
    unfold sret, s2, s1, with_files. simpl.
    rewrite !write_write_same. reflexivity.
Qed.

Lemma all_tokens_of_report (stamp : string)
  (top meme solana base : option (list json)) (performance : option Performers) :
  all_tokens_of (report_of stamp top meme solana base performance) =
  match all_sections top meme solana base with
  | Some rows => Ok (JArr rows)
  | None => Exc TypeError
  end.
Proof.
  destruct top, meme, solana, base; try reflexivity.
  unfold all_tokens_of, report_of, section_value, all_sections. simpl.
  rewrite <- !app_assoc. reflexivity.
Qed.

Lemma all_sections_keyed (top meme solana base : option (list json))
  (rows : list json) :
  quote_keyed top -> quote_keyed meme -> quote_keyed solana ->
  quote_keyed base ->
  all_sections top meme solana base = Some rows ->
  Forall (fun row => keys_of row = csv_columns ++ ["1y_change"]) rows.
Proof.
  intros Ha Hb Hc Hd.
  destruct top as [a |], meme as [b |], solana as [c |], base as [d |];
    try discriminate.
  intros [= <-]. rewrite !Forall_app.
  repeat split; [apply Ha | apply Hb | apply Hc | apply Hd]; reflexivity.
Qed.

(** Lines 209 to 227 when the two groups are there. *)
Lemma performance_report_run (stamp : string)
  (top meme solana base : option (list json)) (p : Performers)
  (jn cn : string) (s : Sys) :
  performers_keyed (Some p) ->
  exists t st,
    performance_report (report_of stamp top meme solana base (Some p)) jn cn s =
    (if is_locked (perf_path s (snd (calendar s t))) s
     then (Returned None,
           notice (NCsvFailed (OSError (perf_path s (snd (calendar s t)))))
             (with_proc s st))
     else (Returned (Some (report_names jn cn (perf_name (snd (calendar s t))))),
           with_files (with_proc s st)
             (write_file (perf_path s (snd (calendar s t)))
                (Rows (csv_header :: map row_values (best p ++ worst p)))
                (files s)))) /\
    clock_moved (proc s) st.
Proof.
  intros Hp. destruct (Hp p eq_refl) as [Hb Hw].
  destruct (datetime_now_spec s) as (t & st & E & L). exists t, st.
  split; [| exact L].
  destruct (tagged_group (report_of stamp top meme solana base (Some p))
              "best" (best p) eq_refl Hb) as (Eb & Kb & Vb).
  destruct (tagged_group (report_of stamp top meme solana base (Some p))
              "worst" (worst p) eq_refl Hw) as (Ew & Kw & Vw).
  unfold performance_report, sbind. rewrite E. cbv beta iota zeta.
  rewrite Eb, Ew. unfold slift. cbv beta iota.
  rewrite (save_csv_keyed ["type"]);
    [| apply Forall_app; split; assumption].
  rewrite map_app, Vb, Vw, <- map_app.
  change (path_join (output_dir (with_proc s st))
            (perf_name (snd (calendar s t))))
    with (perf_path s (snd (calendar s t))).
  change (is_locked (perf_path s (snd (calendar s t))) (with_proc s st))
    with (is_locked (perf_path s (snd (calendar s t))) s).
  destruct (is_locked (perf_path s (snd (calendar s t))) s); reflexivity.
Qed.

(** Lines 209 to 227 when [get_top_performers] had returned [None]. *)
Lemma performance_report_none (stamp : string)
  (top meme solana base : option (list json)) (jn cn : string) (s : Sys) :
  exists st,
    performance_report (report_of stamp top meme solana base None) jn cn s =
    (Raised (Python TypeError), with_proc s st) /\
    clock_moved (proc s) st.
Proof.
  destruct (datetime_now_spec s) as (t & st & E & L). exists st.
  split; [| exact L].
  unfold performance_report, sbind. rewrite E. reflexivity.
Qed.

(** Lines 202 to 207. *)
Lemma token_report_run (stamp : string)
  (top meme solana base : option (list json)) (performance : option Performers)
  (jn : string) (s : Sys) :
  quote_keyed top -> quote_keyed meme -> quote_keyed solana ->
  quote_keyed base ->
  exists t st,
    token_report (report_of stamp top meme solana base performance) jn s =
    match all_sections top meme solana base with
    | None => (Raised (Python TypeError), with_proc s st)
    | Some rows =>
        if is_locked (csv_path s (snd (calendar s t))) s
        then (Returned None,
              notice (NCsvFailed (OSError (csv_path s (snd (calendar s t)))))
                (with_proc s st))
        else performance_report
               (report_of stamp top meme solana base performance) jn
               (csv_name (snd (calendar s t)))
               (with_files (with_proc s st)
                  (write_file (csv_path s (snd (calendar s t)))
                     (Rows (csv_header :: map row_values rows)) (files s)))
    end /\
    clock_moved (proc s) st.
Proof.
  intros Ha Hb Hc Hd.
  destruct (datetime_now_spec s) as (t & st & E & L). exists t, st.
  split; [| exact L].
  unfold token_report, sbind. rewrite E. cbv beta iota zeta.
  rewrite all_tokens_of_report.
  destruct (all_sections top meme solana base) as [rows |] eqn:Eall;
    [| reflexivity].
  unfold slift. cbv beta iota.
  rewrite (save_csv_keyed ["1y_change"]);
    [| exact (all_sections_keyed _ _ _ _ _ Ha Hb Hc Hd Eall)].
  change (path_join (output_dir (with_proc s st))
            (csv_name (snd (calendar s t))))
    with (csv_path s (snd (calendar s t))).
  change (is_locked (csv_path s (snd (calendar s t))) (with_proc s st))
    with (is_locked (csv_path s (snd (calendar s t))) s).
  destruct (is_locked (csv_path s (snd (calendar s t))) s); reflexivity.
Qed.

(** Lines 197 to 200, once the report data is collected. *)
Lemma generate_report_run (s s1 : Sys) (data : json) :
  collect_report_data s = (Returned data, s1) ->
  exists t st,
    generate_report s =
    (if is_locked (json_path s (snd (calendar s t))) s
     then (Returned None,
           notice (NReportFailed (OSError (json_path s (snd (calendar s t)))))
             (with_proc s1 st))
     else token_report data (json_name (snd (calendar s t)))
            (with_files (with_proc s1 st)
               (write_file (json_path s (snd (calendar s t))) (Doc data)
                  (files s)))) /\
    clock_moved (proc s1) st.
Proof.
  intros Hcollect.
  destruct (collect_report_data_returned s s1 data Hcollect)
    as (_ & _ & _ & _ & _ & _ & _ & _ & _ & _ & _ & _ & O & F & K & C & _).
  destruct (datetime_now_spec s1) as (t & st & E & L). exists t, st.
  split; [| exact L].
  unfold generate_report, sbind. rewrite Hcollect, E. cbv beta iota zeta.
  rewrite save_report_eq.
  unfold json_path, is_locked. cbn [output_dir locked files with_proc].
  rewrite O, F, K, C.
  destruct (existsb _ (locked s)); reflexivity.
Qed.

(** ** The report as a whole *)

Lemma section_value_inj (a b : option (list json)) :
  section_value a = section_value b -> a = b.
Proof.
  destruct a, b; simpl; intros H; try discriminate; [| reflexivity].
  injection H as ->. reflexivity.
Qed.

(** What the collected data says about the five fetches. *)
Lemma collect_report_data_keyed (s s1 : Sys) (stamp : string)
  (top meme solana base : option (list json)) (performance : option Performers) :
  collect_report_data s =
    (Returned (report_of stamp top meme solana base performance), s1) ->
  quote_keyed top /\ quote_keyed meme /\ quote_keyed solana /\
  quote_keyed base /\ performers_keyed performance /\ same_but_proc s s1.
Proof.
  intros Hcollect.
  destruct (collect_report_data_returned s s1 _ Hcollect)
    as (stamp' & top' & meme' & solana' & base' & perf' & Hdata
        & Ka & Kb & Kc & Kd & Kp & Hsame).
  unfold report_of in Hdata. injection Hdata as _ Ha Hb Hc Hd He.
  apply section_value_inj in Ha, Hb, Hc, Hd. subst top' meme' solana' base'.
  repeat split; try assumption.
  - destruct performance as [q |]; [| discriminate].
    destruct perf' as [p' |]; [| discriminate].
    injection H as <-. injection He as Hbest Hworst.
    rewrite Hbest. apply (Kp p' eq_refl).
  - destruct performance as [q |]; [| discriminate].
    destruct perf' as [p' |]; [| discriminate].
    injection H as <-. injection He as Hbest Hworst.
    rewrite Hworst. apply (Kp p' eq_refl).
  - apply Hsame.
  - apply Hsame.
  - apply Hsame.
  - apply Hsame.
  - apply Hsame.
Qed.

(** When the five fetches returned their lists and every path can be
    written, [generate_report] returns the three file names and leaves three
    distinct files: the JSON report holding the collected data, the token
    CSV with the header and one row of seven cells per token in the order
    top, meme, solana, base, and the performance CSV with the header and the
    rows of the best then the worst group.  Nothing else on the disk
    changes and nothing is printed by the writers. *)
Theorem generate_report_writes_three_files (s s1 : Sys) (stamp : string)
  (top meme solana base : list json) (p : Performers) :
  locked s = [] ->
  collect_report_data s =
    (Returned (report_of stamp (Some top) (Some meme) (Some solana)
                 (Some base) (Some p)), s1) ->
  exists d1 d2 d3 s',
    generate_report s
      = (Returned (Some (report_names (json_name d1) (csv_name d2)
                           (perf_name d3))), s') /\
    read_file (json_path s d1) (files s')
      = Some (Doc (report_of stamp (Some top) (Some meme) (Some solana)
                     (Some base) (Some p))) /\
    read_file (csv_path s d2) (files s')
      = Some (Rows (csv_header
                      :: map row_values (top ++ meme ++ solana ++ base))) /\
    read_file (perf_path s d3) (files s')
      = Some (Rows (csv_header :: map row_values (best p ++ worst p))) /\
    (forall q, q <> json_path s d1 -> q <> csv_path s d2 ->
               q <> perf_path s d3 ->
               read_file q (files s') = read_file q (files s)) /\
    notices s' = notices s.
Proof.
  intros Hlock Hcollect.
  destruct (collect_report_data_keyed _ _ _ _ _ _ _ _ Hcollect)
    as (Ka & Kb & Kc & Kd & Kp & O & F & K & C & N).
  destruct (generate_report_run s s1 _ Hcollect) as (t1 & st1 & E1 & _).
  rewrite (nothing_locked _ s Hlock) in E1.
  set (d1 := snd (calendar s t1)) in *.
  set (sA := with_files (with_proc s1 st1) _) in E1.
  destruct (token_report_run stamp (Some top) (Some meme) (Some solana)
              (Some base) (Some p) (json_name d1) sA Ka Kb Kc Kd)
    as (t2 & st2 & E2 & _).
  cbn [all_sections] in E2.
  set (d2 := snd (calendar sA t2)) in *.
  rewrite (nothing_locked _ sA) in E2
    by (unfold sA; cbn [locked with_files with_proc]; rewrite K; exact Hlock).
  assert (PA : csv_path sA d2 = csv_path s d2)
    by (unfold csv_path, sA; cbn [output_dir with_files with_proc];
        rewrite O; reflexivity).
  rewrite PA in E2.
  set (sB := with_files (with_proc sA st2) _) in E2.
  destruct (performance_report_run stamp (Some top) (Some meme) (Some solana)
              (Some base) p (json_name d1) (csv_name d2) sB Kp)
    as (t3 & st3 & E3 & _).
  set (d3 := snd (calendar sB t3)) in *.
  rewrite (nothing_locked _ sB) in E3
    by (unfold sB, sA; cbn [locked with_files with_proc]; rewrite K;
        exact Hlock).
  assert (PB : perf_path sB d3 = perf_path s d3)
    by (unfold perf_path, sB, sA; cbn [output_dir with_files with_proc];
        rewrite O; reflexivity).
  rewrite PB in E3.
  destruct (report_names_differ (output_dir s) d1 d2 d3) as (Njc & Njp & Ncp).
  fold (json_name d1) (csv_name d2) (perf_name d3) in Njc, Njp, Ncp.
  fold (json_path s d1) (csv_path s d2) (perf_path s d3) in Njc, Njp, Ncp.
  exists d1, d2, d3. eexists.
  split; [rewrite E1, E2, E3; reflexivity |].
  cbn [files with_files with_proc]. unfold sB. cbn [files with_files with_proc].
  unfold sA. cbn [files with_files with_proc].
  split; [| split; [| split; [| split]]].
  - rewrite read_write_other by (intros H; apply Njp; symmetry; exact H).
    rewrite read_write_other by (intros H; apply Njc; symmetry; exact H).
    apply read_write_same.
  - rewrite read_write_other by (intros H; apply Ncp; symmetry; exact H).
    apply read_write_same.
  - apply read_write_same.
  - intros q Hj Hc Hp.
    rewrite !read_write_other by (intros H; symmetry in H; contradiction).
    reflexivity.
  - cbn [notices with_files with_proc]. exact N.
Qed.

Lemma generate_report_writes_three_files_witness :
  exists d1 d2 d3 s',
    generate_report (desk good_wire)
      = (Returned (Some (report_names (json_name d1) (csv_name d2)
                           (perf_name d3))), s') /\
    read_file (json_path (desk good_wire) d1) (files s')
      = Some (Doc (report_of "2025-01-06T09:00:00" (Some quoted)
                     (Some quoted) (Some quoted) (Some quoted)
                     (Some listed_groups))) /\
    read_file (csv_path (desk good_wire) d2) (files s')
      = Some (Rows (csv_header
                      :: map row_values (quoted ++ quoted ++ quoted ++ quoted))) /\
    read_file (perf_path (desk good_wire) d3) (files s')
      = Some (Rows (csv_header
                      :: map row_values
                           (best listed_groups ++ worst listed_groups))) /\
    (forall q, q <> json_path (desk good_wire) d1 ->
               q <> csv_path (desk good_wire) d2 ->
               q <> perf_path (desk good_wire) d3 ->
               read_file q (files s') = read_file q (files (desk good_wire))) /\
    notices s' = notices (desk good_wire).
Proof.
  apply (generate_report_writes_three_files (desk good_wire)
           (snd (collect_report_data (desk good_wire)))).
  - reflexivity.
  - vm_compute. reflexivity.
Defined.

(** When one of the four token lists came back as [None], the JSON
    report is still written, with that section null; then the sum of line
    204 raises a TypeError out of [generate_report]: no CSV file is written
    and the result is not [None]. *)
Theorem missing_section_stops_after_json (s s1 : Sys) (stamp : string)
  (top meme solana base : option (list json)) (performance : option Performers) :
  locked s = [] ->
  collect_report_data s =
    (Returned (report_of stamp top meme solana base performance), s1) ->
  top = None \/ meme = None \/ solana = None \/ base = None ->
  exists d s',
    generate_report s = (Raised (Python TypeError), s') /\
    files s' = write_file (json_path s d)
                 (Doc (report_of stamp top meme solana base performance))
                 (files s) /\
    notices s' = notices s.
Proof.
  intros Hlock Hcollect Hnone.
  assert (Hall : all_sections top meme solana base = None).
  { destruct top, meme, solana, base; try reflexivity;
      destruct Hnone as [H | [H | [H | H]]]; discriminate. }
  destruct (collect_report_data_keyed _ _ _ _ _ _ _ _ Hcollect)
    as (Ka & Kb & Kc & Kd & _ & _ & _ & _ & _ & N).
  destruct (generate_report_run s s1 _ Hcollect) as (t1 & st1 & E1 & _).
  rewrite (nothing_locked _ s Hlock) in E1.
  set (sA := with_files (with_proc s1 st1) _) in E1.
  destruct (token_report_run stamp top meme solana base performance
              (json_name (snd (calendar s t1))) sA Ka Kb Kc Kd)
    as (t2 & st2 & E2 & _).
  rewrite Hall in E2.
  exists (snd (calendar s t1)), (with_proc sA st2).
  split; [rewrite E1; exact E2 |].
  split; [reflexivity | exact N].
Qed.

Lemma missing_section_stops_after_json_witness :
  exists d s',
    generate_report (desk meme_outage_wire) = (Raised (Python TypeError), s') /\
    files s' = write_file (json_path (desk meme_outage_wire) d)
                 (Doc (report_of "2025-01-06T09:00:00" (Some quoted) None
                         (Some quoted) (Some quoted) (Some listed_groups)))
                 (files (desk meme_outage_wire)) /\
    notices s' = notices (desk meme_outage_wire).
Proof.
  apply (missing_section_stops_after_json (desk meme_outage_wire)
           (snd (collect_report_data (desk meme_outage_wire)))).
  - reflexivity.
  - vm_compute. reflexivity.
  - right. left. reflexivity.
Defined.

(** When the four token lists are there and [get_top_performers]
    came back as [None], the JSON report and the token CSV are written;
    then line 213 subscripts [None] and a TypeError leaves
    [generate_report]: no performance CSV is written. *)
Theorem missing_performance_stops_after_token_csv (s s1 : Sys)
  (stamp : string) (top meme solana base : list json) :
  locked s = [] ->
  collect_report_data s =
    (Returned (report_of stamp (Some top) (Some meme) (Some solana)
                 (Some base) None), s1) ->
  exists d1 d2 s',
    generate_report s = (Raised (Python TypeError), s') /\
    files s'
      = write_file (csv_path s d2)
          (Rows (csv_header :: map row_values (top ++ meme ++ solana ++ base)))
          (write_file (json_path s d1)
             (Doc (report_of stamp (Some top) (Some meme) (Some solana)
                     (Some base) None))
             (files s)) /\
    json_path s d1 <> csv_path s d2 /\
    notices s' = notices s.
Proof.
  intros Hlock Hcollect.
  destruct (collect_report_data_keyed _ _ _ _ _ _ _ _ Hcollect)
    as (Ka & Kb & Kc & Kd & _ & O & _ & K & _ & N).
  destruct (generate_report_run s s1 _ Hcollect) as (t1 & st1 & E1 & _).
  rewrite (nothing_locked _ s Hlock) in E1.
  set (d1 := snd (calendar s t1)) in *.
  set (sA := with_files (with_proc s1 st1) _) in E1.
  destruct (token_report_run stamp (Some top) (Some meme) (Some solana)
              (Some base) None (json_name d1) sA Ka Kb Kc Kd)
    as (t2 & st2 & E2 & _).
  cbn [all_sections] in E2.
  set (d2 := snd (calendar sA t2)) in *.
  rewrite (nothing_locked _ sA) in E2
    by (unfold sA; cbn [locked with_files with_proc]; rewrite K; exact Hlock).
  assert (PA : csv_path sA d2 = csv_path s d2)
    by (unfold csv_path, sA; cbn [output_dir with_files with_proc];
        rewrite O; reflexivity).
  rewrite PA in E2.
  set (sB := with_files (with_proc sA st2) _) in E2.
  destruct (performance_report_none stamp (Some top) (Some meme) (Some solana)
              (Some base) (json_name d1) (csv_name d2) sB) as (st3 & E3 & _).
  exists d1, d2, (with_proc sB st3).
  split; [rewrite E1, E2; exact E3 |].
  split; [reflexivity |].
  split; [apply (report_names_differ (output_dir s) d1 d2 d2) | exact N].
Qed.

Lemma missing_performance_stops_after_token_csv_witness :
  exists d1 d2 s',
    generate_report (desk listing_outage_wire)
      = (Raised (Python TypeError), s') /\
    files s'
      = write_file (csv_path (desk listing_outage_wire) d2)
          (Rows (csv_header
                   :: map row_values (quoted ++ quoted ++ quoted ++ quoted)))
          (write_file (json_path (desk listing_outage_wire) d1)
             (Doc (report_of "2025-01-06T09:00:00" (Some quoted) (Some quoted)
                     (Some quoted) (Some quoted) None))
             (files (desk listing_outage_wire))) /\
    json_path (desk listing_outage_wire) d1
      <> csv_path (desk listing_outage_wire) d2 /\
    notices s' = notices (desk listing_outage_wire).
Proof.
  apply (missing_performance_stops_after_token_csv (desk listing_outage_wire)
           (snd (collect_report_data (desk listing_outage_wire)))).
  - reflexivity.
  - vm_compute. reflexivity.
Defined.

(** [generate_report] returns [None] only when one of its three files
    could not be opened for writing, and the writer printed that.  A failed
    fetch never gives [None]: it gives an exception or a report with a null
    section. *)
Theorem none_result_means_unwritable_file (s s' : Sys) :
  generate_report s = (Returned None, s') ->
  exists path,
    is_locked path s = true /\
    (notices s' = notices s ++ [NReportFailed (OSError path)] \/
     notices s' = notices s ++ [NCsvFailed (OSError path)]).
Proof.
  intros Hrun.
  destruct (collect_report_data s) as [[data | f] s1] eqn:Hcollect;
    [| unfold generate_report, sbind in Hrun; rewrite Hcollect in Hrun;
       discriminate].
  destruct (collect_report_data_returned s s1 data Hcollect)
    as (stamp & top & meme & solana & base & perf & -> & _).
  destruct (collect_report_data_keyed _ _ _ _ _ _ _ _ Hcollect)
    as (Ka & Kb & Kc & Kd & Kp & O & _ & K & _ & N).
  destruct (generate_report_run s s1 _ Hcollect) as (t1 & st1 & E1 & _).
  rewrite E1 in Hrun. clear E1.
  set (d1 := snd (calendar s t1)) in *.
  destruct (is_locked (json_path s d1) s) eqn:L1.
  { injection Hrun as <-. exists (json_path s d1).
    split; [exact L1 |]. left.
    cbn [notices notice with_proc]. rewrite N. reflexivity. }
  set (sA := with_files (with_proc s1 st1) _) in Hrun.
  destruct (token_report_run stamp top meme solana base perf
              (json_name d1) sA Ka Kb Kc Kd) as (t2 & st2 & E2 & _).
  rewrite E2 in Hrun. clear E2.
  destruct (all_sections top meme solana base) as [rows |]; [| discriminate].
  set (d2 := snd (calendar sA t2)) in *.
  assert (PA : csv_path sA d2 = csv_path s d2)
    by (unfold csv_path, sA; cbn [output_dir with_files with_proc];
        rewrite O; reflexivity).
  assert (LA : forall path, is_locked path sA = is_locked path s)
    by (intros path; unfold is_locked, sA; cbn [locked with_files with_proc];
        rewrite K; reflexivity).
  rewrite PA, LA in Hrun.
  destruct (is_locked (csv_path s d2) s) eqn:L2.
  { injection Hrun as <-. exists (csv_path s d2).
    split; [exact L2 |]. right.
    cbn [notices notice with_proc]. unfold sA.
    cbn [notices with_files with_proc]. rewrite N. reflexivity. }
  set (sB := with_files (with_proc sA st2) _) in Hrun.
  destruct perf as [p |].
  - destruct (performance_report_run stamp top meme solana base p
                (json_name d1) (csv_name d2) sB Kp) as (t3 & st3 & E3 & _).
    rewrite E3 in Hrun. clear E3.
    set (d3 := snd (calendar sB t3)) in *.
    assert (PB : perf_path sB d3 = perf_path s d3)
      by (unfold perf_path, sB, sA; cbn [output_dir with_files with_proc];
          rewrite O; reflexivity).
    assert (LB : forall path, is_locked path sB = is_locked path s)
      by (intros path; unfold is_locked, sB, sA;
          cbn [locked with_files with_proc]; rewrite K; reflexivity).
    rewrite PB, LB in Hrun.
    destruct (is_locked (perf_path s d3) s) eqn:L3; [| discriminate].
    injection Hrun as <-. exists (perf_path s d3).
    split; [exact L3 |]. right.
    cbn [notices notice with_proc]. unfold sB.
    cbn [notices with_files with_proc]. unfold sA.
    cbn [notices with_files with_proc]. rewrite N. reflexivity.
  - destruct (performance_report_none stamp top meme solana base
                (json_name d1) (csv_name d2) sB) as (st3 & E3 & _).
    rewrite E3 in Hrun. discriminate.
Qed.

Lemma none_result_means_unwritable_file_witness :
  exists path,
    is_locked path read_only_desk = true /\
    (notices (snd (generate_report read_only_desk))
       = notices read_only_desk ++ [NReportFailed (OSError path)] \/
     notices (snd (generate_report read_only_desk))
       = notices read_only_desk ++ [NCsvFailed (OSError path)]).
Proof.
  apply (none_result_means_unwritable_file read_only_desk
           (snd (generate_report read_only_desk))).
  vm_compute. reflexivity.
Defined.

(** ** What a report costs *)

Lemma calls_within_same (s s' : Sys) :
  log (proc s') = log (proc s) -> calls_within 0 s s'.
Proof.
  intros H. exists []. unfold logged. rewrite H, app_nil_r.
  split; [reflexivity | unfold http_calls; simpl; lia].
Qed.

Lemma calls_within_trans (n m : nat) (s1 s2 s3 : Sys) :
  calls_within n s1 s2 -> calls_within m s2 s3 -> calls_within (n + m) s1 s3.
Proof.
  unfold calls_within, logged. intros (e1 & L1 & C1) (e2 & L2 & C2).
  exists (e1 ++ e2). rewrite L2, L1, app_assoc, http_calls_app.
  split; [reflexivity | lia].
Qed.

Lemma calls_within_weaken (n m : nat) (s s' : Sys) :
  (n <= m)%nat -> calls_within n s s' -> calls_within m s s'.
Proof.
  intros Hnm (evs & L & C). exists evs. split; [exact L | lia].
Qed.

(** After the pipeline, the clients only print. *)
Lemma get_token_data_calls (symbols : list string) (st st' : State)
  (res : Res (option (list json))) :
  get_token_data symbols st = (res, st') ->
  exists evs, log st' = log st ++ evs /\ (http_calls evs <= max_retries)%nat.
Proof.
  intros Hrun.
  destruct (_make_api_request quotes_url (quotes_params symbols) st)
    as [r st1] eqn:E.
  destruct (retry_loop_trace quotes_url (quotes_params symbols) max_retries 0
              st st1 r eq_refl E) as (evs & L & C & _).
  assert (Htail : exists tail,
             log st' = log st1 ++ tail /\ http_calls tail = 0%nat).
  { assert (Hexc : forall e,
              (if is_RequestException e
               then (print (PRequestFailed e) ;;; ret None) st1
               else if is_KeyError e
                    then (print (PInvalidFormat e) ;;; ret None) st1
                    else (Exc e, st1)) = (res, st') ->
              exists tail,
                log st' = log st1 ++ tail /\ http_calls tail = 0%nat).
    { intros e. destruct (is_RequestException e); [| destruct (is_KeyError e)];
        run_monad; intros [= <- <-];
        solve [exists []; rewrite app_nil_r; split; reflexivity
              | eexists [_]; split; reflexivity]. }
    destruct r as [v | e].
    - destruct v as [r |].
      + rewrite (get_token_data_returned symbols st st1 r E) in Hrun.
        destruct (rbind (response_json r) quote_rows) as [rows | e];
          [| exact (Hexc e Hrun)].
        injection Hrun as <- <-. exists []. rewrite app_nil_r.
        split; reflexivity.
      + revert Hrun. unfold get_token_data, bind at 1. rewrite E.
        simpl. intros [= <- <-]. exists []. rewrite app_nil_r.
        split; reflexivity.
    - rewrite (get_token_data_raised symbols st st1 e E) in Hrun.
      exact (Hexc e Hrun). }
  destruct Htail as (tail & L' & C').
  exists (evs ++ tail). rewrite L', L, app_assoc, http_calls_app, C'.
  split; [reflexivity | lia].
Qed.

Lemma get_top_performers_calls (limit top : Z) (st st' : State)
  (res : Res (option Performers)) :
  get_top_performers limit top st = (res, st') ->
  exists evs, log st' = log st ++ evs /\ (http_calls evs <= max_retries)%nat.
Proof.
  intros Hrun.
  destruct (_make_api_request listings_url (listings_params limit) st)
    as [r st1] eqn:E.
  destruct (retry_loop_trace listings_url (listings_params limit) max_retries 0
              st st1 r eq_refl E) as (evs & L & C & _).
  assert (Htail : exists tail,
             log st' = log st1 ++ tail /\ http_calls tail = 0%nat).
  { destruct r as [[r |] | e].
    - revert Hrun. unfold get_top_performers, try_except, bind at 1.
      rewrite E. unfold bind, lift, ret.
      destruct (response_json r) as [j | e]; simpl.
      + destruct (rank_performers j top) as [p | e]; run_monad;
          intros [= <- <-];
          solve [exists []; rewrite app_nil_r; split; reflexivity
                | eexists [_]; split; reflexivity].
      + run_monad. intros [= <- <-]. eexists [_]; split; reflexivity.
    - rewrite (get_top_performers_none limit top st st1 E) in Hrun.
      injection Hrun as <- <-. exists []. rewrite app_nil_r.
      split; reflexivity.
    - rewrite (get_top_performers_raised limit top st st1 e E) in Hrun.
      revert Hrun. run_monad. intros [= <- <-].
      eexists [_]; split; reflexivity. }
  destruct Htail as (tail & L' & C').
  exists (evs ++ tail). rewrite L', L, app_assoc, http_calls_app, C'.
  split; [reflexivity | lia].
Qed.

Lemma run_proc_calls {A} (m : M A) (n : nat) (s s' : Sys) (r : Ran A) :
  (forall st st' res,
      m st = (res, st') ->
      exists evs, log st' = log st ++ evs /\ (http_calls evs <= n)%nat) ->
  run_proc m s = (r, s') -> calls_within n s s'.
Proof.
  intros Hm. unfold run_proc.
  destruct (m (proc s)) as [res st'] eqn:E.
  destruct (Hm _ _ _ E) as (evs & L & C).
  destruct res; intros [= <- <-]; exists evs; split; assumption.
Qed.

Lemma collect_report_data_calls (s s1 : Sys) (r : Ran json) :
  collect_report_data s = (r, s1) -> calls_within (5 * max_retries) s s1.
Proof.
  unfold collect_report_data, sbind.
  destruct (datetime_now_spec s) as (t & st & E0 & _ & _ & _ & _ & L0).
  rewrite E0.
  assert (C0 : calls_within 0 s (with_proc s st))
    by (apply calls_within_same; exact L0).
  destruct (run_proc (get_token_data top_tokens) (with_proc s st))
    as [ra sa] eqn:Ea.
  pose proof (calls_within_trans _ _ _ _ _ C0
                (run_proc_calls _ _ _ _ _ (get_token_data_calls top_tokens) Ea))
    as Ca.
  destruct ra as [top | f];
    [| intros [= <- <-]; revert Ca; apply calls_within_weaken;
       unfold max_retries; lia].
  destruct (run_proc (get_token_data meme_tokens) sa) as [rb sb] eqn:Eb.
  pose proof (calls_within_trans _ _ _ _ _ Ca
                (run_proc_calls _ _ _ _ _ (get_token_data_calls meme_tokens) Eb))
    as Cb.
  destruct rb as [meme | f];
    [| intros [= <- <-]; revert Cb; apply calls_within_weaken;
       unfold max_retries; lia].
  destruct (run_proc (get_token_data solana_tokens) sb) as [rc sc] eqn:Ec.
  pose proof (calls_within_trans _ _ _ _ _ Cb
                (run_proc_calls _ _ _ _ _ (get_token_data_calls solana_tokens) Ec))
    as Cc.
  destruct rc as [solana | f];
    [| intros [= <- <-]; revert Cc; apply calls_within_weaken;
       unfold max_retries; lia].
  destruct (run_proc (get_token_data base_tokens) sc) as [rd sd] eqn:Ed.
  pose proof (calls_within_trans _ _ _ _ _ Cc
                (run_proc_calls _ _ _ _ _ (get_token_data_calls base_tokens) Ed))
    as Cd.
  destruct rd as [base | f];
    [| intros [= <- <-]; revert Cd; apply calls_within_weaken;
       unfold max_retries; lia].
  destruct (run_proc (get_top_performers 100 5) sd) as [re se] eqn:Ee.
  pose proof (calls_within_trans _ _ _ _ _ Cd
                (run_proc_calls _ _ _ _ _ (get_top_performers_calls 100 5) Ee))
    as Ce.
  destruct re as [performance | f]; intros [= <- <-]; revert Ce;
    apply calls_within_weaken; unfold max_retries; lia.
Qed.

(** Once the data is collected, the instance sends nothing more. *)
Lemma generate_report_log (s s1 : Sys) (r : Ran json) :
  collect_report_data s = (r, s1) ->
  log (proc (snd (generate_report s))) = log (proc s1).
Proof.
  intros Hcollect. destruct r as [data | f];
    [| unfold generate_report, sbind; rewrite Hcollect; reflexivity].
  destruct (collect_report_data_returned s s1 data Hcollect)
    as (stamp & top & meme & solana & base & perf & -> & _).
  destruct (collect_report_data_keyed _ _ _ _ _ _ _ _ Hcollect)
    as (Ka & Kb & Kc & Kd & Kp & _).
  destruct (generate_report_run s s1 _ Hcollect)
    as (t1 & st1 & E1 & _ & _ & _ & _ & L1).
  rewrite E1. clear E1.
  destruct (is_locked (json_path s (snd (calendar s t1))) s); [exact L1 |].
  set (sA := with_files (with_proc s1 st1) _).
  destruct (token_report_run stamp top meme solana base perf
              (json_name (snd (calendar s t1))) sA Ka Kb Kc Kd)
    as (t2 & st2 & E2 & _ & _ & _ & _ & L2).
  rewrite E2. clear E2.
  assert (LA : log st2 = log (proc s1)) by (rewrite L2; exact L1).
  destruct (all_sections top meme solana base) as [rows |]; [| exact LA].
  destruct (is_locked (csv_path sA (snd (calendar sA t2))) sA); [exact LA |].
  set (sB := with_files (with_proc sA st2) _).
  destruct perf as [p |].
  - destruct (performance_report_run stamp top meme solana base p
                (json_name (snd (calendar s t1)))
                (csv_name (snd (calendar sA t2))) sB Kp)
      as (t3 & st3 & E3 & _ & _ & _ & _ & L3).
    rewrite E3.
    destruct (is_locked (perf_path sB (snd (calendar sB t3))) sB);
      cbn [snd proc notice with_files with_proc]; rewrite L3; exact LA.
  - destruct (performance_report_none stamp top meme solana base
                (json_name (snd (calendar s t1)))
                (csv_name (snd (calendar sA t2))) sB)
      as (st3 & E3 & _ & _ & _ & _ & L3).
    rewrite E3. cbn [snd proc with_proc]. rewrite L3. exact LA.
Qed.

(** Whatever the provider and the disk do, one run of [generate_report]
    makes at most five times [max_retries] HTTP calls: five fetches, each
    within the budget of the pipeline, and nothing after them. *)
Theorem report_call_budget (s : Sys) :
  exists evs,
    log (proc (snd (generate_report s))) = log (proc s) ++ evs /\
    (http_calls evs <= 5 * max_retries)%nat.
Proof.
  destruct (collect_report_data s) as [r s1] eqn:Hcollect.
  destruct (collect_report_data_calls s s1 r Hcollect) as (evs & L & C).
  exists evs. rewrite (generate_report_log s s1 r Hcollect).
  split; [exact L | exact C].
Qed.

(** [save_report] never raises and touches one path only.  When the path
    can be opened, whatever was there is replaced by the dumped data and
    the result is [True]; when it cannot, the disk is left alone, the
    failure is printed and the result is [False]. *)
Theorem save_report_replaces_one_file (data : json) (filename : string)
  (s : Sys) :
  let path := path_join (output_dir s) filename in
  exists s',
    save_report data filename s = (Returned (negb (is_locked path s)), s') /\
    proc s' = proc s /\
    read_file path (files s')
      = (if is_locked path s then read_file path (files s)
         else Some (Doc data)) /\
    (forall q, q <> path -> read_file q (files s') = read_file q (files s)) /\
    notices s'
      = notices s ++ (if is_locked path s
                      then [NReportFailed (OSError path)] else []).
Proof.
  cbv zeta. rewrite save_report_eq.
  destruct (is_locked (path_join (output_dir s) filename) s);
    eexists; (split; [reflexivity |]); cbn [proc files notices notice with_files].
  - repeat split; reflexivity.
  - split; [reflexivity |]. split; [apply read_write_same |].
    split; [| rewrite app_nil_r; reflexivity].
    intros q Hq. apply read_write_other. intros H. apply Hq. symmetry. exact H.
Qed.

(** ** A bad key and an outage, end to end *)

(** A 401 that names an invalid key, met by the first request of a run,
    ends the whole report with the ValueError of line 45: it is not caught
    by [get_token_data] nor by [generate_report], one HTTP call was made,
    the rest of the wire is not read and no file is written. *)
Theorem invalid_key_stops_the_report (s : Sys) (r : Response)
  (w : list Outcome) :
  rate_limit (proc s) <> 0%Z ->
  wire (proc s) = Responds r :: w ->
  invalid_key_401 r ->
  exists s' evs,
    generate_report s
      = (Raised (Python (ValueError
                           "Invalid API key - please check your .env file")),
         s') /\
    files s' = files s /\ notices s' = notices s /\
    wire (proc s') = w /\
    logged s s' evs /\ http_calls evs = 1%nat.
Proof.
  intros Hrl Hw Hr.
  destruct (datetime_now_spec s) as (t & st0 & E0 & R0 & _ & W0 & _ & L0).
  assert (Hrl0 : rate_limit st0 <> 0%Z) by (rewrite R0; exact Hrl).
  assert (Hw0 : wire st0 = Responds r :: w) by (rewrite W0; exact Hw).
  destruct (attempt_invalid_key quotes_url (quotes_params top_tokens) st0 r w
              Hrl0 Hw0 Hr)
    as (st1 & rs & m & E1 & Hrs & _ & (R1 & W1 & D1 & L1)).
  assert (Ereq : _make_api_request quotes_url (quotes_params top_tokens) st0
                 = (Exc (ValueError
                           "Invalid API key - please check your .env file"),
                    st1)).
  { unfold _make_api_request, max_retries. cbn [retry_loop]. rewrite E1.
    reflexivity. }
  assert (Eget : get_token_data top_tokens st0
                 = (Exc (ValueError
                           "Invalid API key - please check your .env file"),
                    st1)).
  { rewrite (get_token_data_raised _ _ _ _ Ereq). reflexivity. }
  exists (with_proc (with_proc s st0) st1),
         (rs ++ [EvGet quotes_url (quotes_params top_tokens);
                 EvPrint (PApiError m)]).
  split; [| split; [| split; [| split; [| split]]]].
  - unfold generate_report, sbind at 1, collect_report_data, sbind at 1.
    rewrite E0. unfold sbind at 1, run_proc. cbn [proc with_proc].
    rewrite Eget. reflexivity.
  - reflexivity.
  - reflexivity.
  - exact W1.
  - unfold logged. cbn [proc with_proc]. rewrite L1, L0. reflexivity.
  - apply one_call. rewrite skeleton_app, (skeleton_rate_sleeps rs Hrs).
    reflexivity.
Qed.

Lemma invalid_key_stops_the_report_witness :
  exists s' evs,
    generate_report (desk (wire invalid_key_state ++ good_wire))
      = (Raised (Python (ValueError
                           "Invalid API key - please check your .env file")),
         s') /\
    files s' = files (desk (wire invalid_key_state ++ good_wire)) /\
    notices s' = notices (desk (wire invalid_key_state ++ good_wire)) /\
    wire (proc s') = good_wire /\
    logged (desk (wire invalid_key_state ++ good_wire)) s' evs /\
    http_calls evs = 1%nat.
Proof.
  apply (invalid_key_stops_the_report
           (desk (wire invalid_key_state ++ good_wire))
           (unauthorized "This API Key is invalid. Invalid API key.")
           good_wire).
  - discriminate.
  - reflexivity.
  - split; [reflexivity |]. eexists; split; reflexivity.
Defined.

Section Outage.
Variables (url : string) (params : list (string * json)).

(** Five retried outcomes in a row use the pipeline up. *)
Lemma make_api_request_exhausted (st : State) (pre w : list Outcome) :
  rate_limit st <> 0%Z ->
  dice_ok st ->
  wire st = pre ++ w ->
  forallb retried pre = true ->
  List.length pre = max_retries ->
  exists st' e evs,
    _make_api_request url params st = (Exc e, st') /\
    is_RequestException e = true /\
    rate_limit st' <> 0%Z /\ dice_ok st' /\ wire st' = w /\
    log st' = log st ++ evs /\ http_calls evs = max_retries.
Proof.
  intros Hrl Hd Hw Hp Hlen.
  destruct pre as [| o1 [| o2 [| o3 [| o4 [| o5 [| o6 pre]]]]]];
    try discriminate.
  assert (Hp' : forallb retried [o1; o2; o3; o4] = true /\ retried o5 = true).
  { simpl in Hp |- *.
    destruct (retried o1), (retried o2), (retried o3), (retried o4),
      (retried o5); try discriminate; split; reflexivity. }
  destruct Hp' as [Hp' Ho].
  destruct (make_api_request_prefix url params st [o1; o2; o3; o4] (o5 :: w)
              Hrl Hd Hw Hp')
    as (st1 & evs1 & todo & E1 & Hrl1 & Hd1 & (R1 & W1 & D1 & L1) & S1);
    [unfold max_retries; simpl; lia |].
  destruct (attempt_retried url params st1 o5 w Hrl1 W1 Ho)
    as (st2 & rs & E2 & Hrs & (R2 & W2 & D2 & L2)).
  exists st2, (retried_exn o5), (evs1 ++ rs ++ [EvGet url params]).
  split; [| split; [| split; [| split; [| split; [| split]]]]].
  - rewrite E1. cbn [retry_loop].
    rewrite E2, retried_is_RequestException. reflexivity.
  - apply retried_is_RequestException.
  - rewrite R2. exact Hrl1.
  - apply (dice_ok_skipn 0 st1 st2 Hd1). exact D2.
  - exact W2.
  - rewrite L2, L1, <- app_assoc. reflexivity.
  - apply (failed_attempts_then_call 0 4 (dice st)).
    rewrite !skeleton_app, S1, (skeleton_rate_sleeps rs Hrs). reflexivity.
Qed.
End Outage.

Lemma get_token_data_gives_up (symbols : list string) (st : State)
  (pre w : list Outcome) :
  rate_limit st <> 0%Z ->
  dice_ok st ->
  wire st = pre ++ w ->
  forallb retried pre = true ->
  List.length pre = max_retries ->
  exists st' evs,
    get_token_data symbols st = (Ok None, st') /\
    rate_limit st' <> 0%Z /\ dice_ok st' /\ wire st' = w /\
    log st' = log st ++ evs /\ http_calls evs = max_retries.
Proof.
  intros Hrl Hd Hw Hp Hlen.
  destruct (make_api_request_exhausted quotes_url (quotes_params symbols)
              st pre w Hrl Hd Hw Hp Hlen)
    as (st1 & e & evs & E & He & Hrl1 & Hd1 & W1 & L1 & C1).
  rewrite (get_token_data_raised symbols st st1 e E), He.
  run_monad. eexists. exists (evs ++ [EvPrint (PRequestFailed e)]).
  split; [reflexivity |]. simpl.
  rewrite L1, <- app_assoc, http_calls_app, C1.
  repeat split; assumption.
Qed.

Lemma get_top_performers_gives_up (limit top : Z) (st : State)
  (pre w : list Outcome) :
  rate_limit st <> 0%Z ->
  dice_ok st ->
  wire st = pre ++ w ->
  forallb retried pre = true ->
  List.length pre = max_retries ->
  exists st' evs,
    get_top_performers limit top st = (Ok None, st') /\
    rate_limit st' <> 0%Z /\ dice_ok st' /\ wire st' = w /\
    log st' = log st ++ evs /\ http_calls evs = max_retries.
Proof.
  intros Hrl Hd Hw Hp Hlen.
  destruct (make_api_request_exhausted listings_url (listings_params limit)
              st pre w Hrl Hd Hw Hp Hlen)
    as (st1 & e & evs & E & He & Hrl1 & Hd1 & W1 & L1 & C1).
  rewrite (get_top_performers_raised limit top st st1 e E).
  run_monad. eexists. exists (evs ++ [EvPrint (PTopError e)]).
  split; [reflexivity |]. simpl.
  rewrite L1, <- app_assoc, http_calls_app, C1.
  repeat split; assumption.
Qed.

Lemma first_five (pre : list Outcome) (n : nat) :
  List.length pre = (max_retries + n)%nat ->
  forallb retried pre = true ->
  exists a b,
    pre = a ++ b /\ List.length a = max_retries /\ List.length b = n /\
    forallb retried a = true /\ forallb retried b = true.
Proof.
  intros Hlen Hp. exists (firstn max_retries pre), (skipn max_retries pre).
  rewrite <- (firstn_skipn max_retries pre), forallb_app in Hp.
  apply andb_prop in Hp as [Ha Hb].
  split; [symmetry; apply firstn_skipn |].
  split; [rewrite length_firstn; lia |].
  split; [rewrite length_skipn; lia |].
  split; assumption.
Qed.

(** Twenty-five retried outcomes in a row: every fetch gives up. *)
Lemma collect_report_data_outage (s : Sys) (pre w : list Outcome) :
  rate_limit (proc s) <> 0%Z ->
  dice_ok (proc s) ->
  wire (proc s) = pre ++ w ->
  forallb retried pre = true ->
  List.length pre = (5 * max_retries)%nat ->
  exists stamp s1 evs,
    collect_report_data s
      = (Returned (report_of stamp None None None None None), s1) /\
    wire (proc s1) = w /\
    logged s s1 evs /\ http_calls evs = (5 * max_retries)%nat.
Proof.
  intros Hrl Hd Hw Hp Hlen.
  destruct (first_five pre (4 * max_retries) ltac:(lia) Hp)
    as (p1 & q1 & -> & H1 & Hq1 & P1 & Q1).
  destruct (first_five q1 (3 * max_retries) ltac:(lia) Q1)
    as (p2 & q2 & -> & H2 & Hq2 & P2 & Q2).
  destruct (first_five q2 (2 * max_retries) ltac:(lia) Q2)
    as (p3 & q3 & -> & H3 & Hq3 & P3 & Q3).
  destruct (first_five q3 max_retries ltac:(lia) Q3)
    as (p4 & p5 & -> & H4 & H5 & P4 & P5).
  rewrite <- !app_assoc in Hw.
  destruct (datetime_now_spec s) as (t & st0 & E0 & R0 & _ & W0 & D0 & L0).
  assert (Hrl0 : rate_limit st0 <> 0%Z) by (rewrite R0; exact Hrl).
  assert (Hd0 : dice_ok st0) by (unfold dice_ok; rewrite D0; exact Hd).
  rewrite <- W0 in Hw.
  destruct (get_token_data_gives_up top_tokens st0 p1 _ Hrl0 Hd0 Hw P1 H1)
    as (sa & ea & Ea & Hrla & Hda & Wa & La & Ca).
  destruct (get_token_data_gives_up meme_tokens sa p2 _ Hrla Hda Wa P2 H2)
    as (sb & eb & Eb & Hrlb & Hdb & Wb & Lb & Cb).
  destruct (get_token_data_gives_up solana_tokens sb p3 _ Hrlb Hdb Wb P3 H3)
    as (sc & ec & Ec & Hrlc & Hdc & Wc & Lc & Cc).
  destruct (get_token_data_gives_up base_tokens sc p4 _ Hrlc Hdc Wc P4 H4)
    as (sd & ed & Ed & Hrld & Hdd & Wd & Ld & Cd).
  destruct (get_top_performers_gives_up 100 5 sd p5 w Hrld Hdd Wd P5 H5)
    as (se & ee & Ee & Hrle & Hde & We & Le & Ce).
  exists (fst (calendar s t)). eexists. exists (ea ++ eb ++ ec ++ ed ++ ee).
  split; [| split; [| split]].
  - unfold collect_report_data, sbind. rewrite E0.
    unfold run_proc. cbn [proc with_proc].
    rewrite Ea. cbn [proc with_proc]. rewrite Eb. cbn [proc with_proc].
    rewrite Ec. cbn [proc with_proc]. rewrite Ed. cbn [proc with_proc].
    rewrite Ee. reflexivity.
  - exact We.
  - unfold logged. cbn [proc with_proc].
    rewrite Le, Ld, Lc, Lb, La, L0, <- !app_assoc. reflexivity.
  - rewrite !http_calls_app, Ca, Cb, Cc, Cd, Ce. unfold max_retries. lia.
Qed.

(** During an outage that lasts the whole run (twenty-five retried
    outcomes in a row), [generate_report] makes exactly five times
    [max_retries] HTTP calls, writes a JSON report whose five sections are
    all null, and then fails with the TypeError of line 204. *)
Theorem outage_report_is_all_null (s : Sys) (pre w : list Outcome) :
  locked s = [] ->
  rate_limit (proc s) <> 0%Z ->
  dice_ok (proc s) ->
  wire (proc s) = pre ++ w ->
  forallb retried pre = true ->
  List.length pre = (5 * max_retries)%nat ->
  exists d stamp s' evs,
    generate_report s = (Raised (Python TypeError), s') /\
    files s' = write_file (json_path s d)
                 (Doc (report_of stamp None None None None None)) (files s) /\
    wire (proc s') = w /\
    logged s s' evs /\ http_calls evs = (5 * max_retries)%nat.
Proof.
  intros Hlock Hrl Hd Hw Hp Hlen.
  destruct (collect_report_data_outage s pre w Hrl Hd Hw Hp Hlen)
    as (stamp & s1 & evs & Hcollect & W1 & L1 & C1).
  destruct (collect_report_data_keyed _ _ _ _ _ _ _ _ Hcollect)
    as (Ka & Kb & Kc & Kd & _).
  destruct (generate_report_run s s1 _ Hcollect)
    as (t1 & st1 & E1 & _ & _ & Wt1 & _ & Lt1).
  rewrite (nothing_locked _ s Hlock) in E1.
  set (sA := with_files (with_proc s1 st1) _) in E1.
  destruct (token_report_run stamp None None None None None
              (json_name (snd (calendar s t1))) sA Ka Kb Kc Kd)
    as (t2 & st2 & E2 & _ & _ & Wt2 & _ & Lt2).
  cbn [all_sections] in E2.
  exists (snd (calendar s t1)), stamp, (with_proc sA st2), evs.
  split; [rewrite E1; exact E2 |].
  split; [reflexivity |].
  split; [cbn [proc with_proc]; rewrite Wt2; unfold sA;
          cbn [proc with_files with_proc]; rewrite Wt1; exact W1 |].
  split; [| exact C1].
  unfold logged in *. cbn [proc with_proc]. rewrite Lt2. unfold sA.
  cbn [proc with_files with_proc]. rewrite Lt1. exact L1.
Qed.

Lemma outage_report_is_all_null_witness :
  exists d stamp s' evs,
    generate_report (desk (outage_wire ++ good_wire))
      = (Raised (Python TypeError), s') /\
    files s' = write_file (json_path (desk (outage_wire ++ good_wire)) d)
                 (Doc (report_of stamp None None None None None))
                 (files (desk (outage_wire ++ good_wire))) /\
    wire (proc s') = good_wire /\
    logged (desk (outage_wire ++ good_wire)) s' evs /\
    http_calls evs = (5 * max_retries)%nat.
Proof.
  apply (outage_report_is_all_null (desk (outage_wire ++ good_wire))
           outage_wire good_wire).
  - reflexivity.
  - discriminate.
  - apply fresh_state_dice_ok.
  - reflexivity.
  - reflexivity.
  - reflexivity.
Defined.
